(** * WhatsApp funnel bot: scheduling and session-lifecycle engine

    A shallow embedding of the scheduling core of the bot:

    - [TimezoneHelper]   lib/timezoneHelper.js   (Luxon wall-clock arithmetic)
    - [OperatingHours]   lib/operating-hours.js  (calendar gate of the sweep)
    - [ReminderScheduler] lib/reminder-scheduler.js (stage policy and sweeps)
    - [Store]            the two PostgreSQL tables and the Bull queue
    - [MessageTemplates] lib/messageTemplates.js (which types have a template)
    - [MessageScheduler] lib/messageScheduler.js (enqueue, cancel, worker)
    - [SessionManager]   lib/sessionManager.js
    - [Server]           the appointment-scheduled webhook of server.js
    - [System]           the interleavings of all of the above

    Modelling conventions.  Every [async] function runs to completion before
    the next one starts, and database calls succeed unless the model says
    otherwise (constraint violations are modelled).  Whether a call on the
    Bull queue goes through is an explicit argument where the code catches
    its failure ([cancelScheduledMessageVia] and the functions built on it);
    the functions without that argument are the case in which every such
    call resolves.  The ambient clock ([new Date()], [Date.now()], SQL
    [NOW()]) is an explicit argument.  Instants are integers: milliseconds
    since the Unix epoch. *)

From Stdlib Require Import ZArith List Bool String Ascii Lia QArith DecimalString.
Import ListNotations.
Local Open Scope string_scope.
Local Open Scope Z_scope.

Definition MS_PER_MINUTE : Z := 60000.
Definition MS_PER_HOUR : Z := 3600000.
Definition MS_PER_DAY : Z := 86400000.

(** ** Calendar dates

    [Date.prototype.toISOString] prints the UTC calendar date of an instant;
    the day count is turned into a civil date by the usual era-based
    computation on the proleptic Gregorian calendar. *)
Module Calendar.

Definition civil_from_days (days : Z) : Z * Z * Z :=
  let z := days + 719468 in
  let era := z / 146097 in
  let doe := z - era * 146097 in
  let yoe := (doe - doe / 1460 + doe / 36524 - doe / 146096) / 365 in
  let y := yoe + era * 400 in
  let doy := doe - (365 * yoe + yoe / 4 - yoe / 100) in
  let mp := (5 * doy + 2) / 153 in
  let d := doy - (153 * mp + 2) / 5 + 1 in
  let m := if mp <? 10 then mp + 3 else mp - 9 in
  (if m <=? 2 then y + 1 else y, m, d).

Definition digit (n : Z) : string :=
  String (ascii_of_nat (48 + Z.to_nat (n mod 10))) EmptyString.

Definition pad2 (n : Z) : string := digit (n / 10) ++ digit n.

Definition pad4 (n : Z) : string :=
  digit (n / 1000) ++ digit (n / 100) ++ digit (n / 10) ++ digit n.

(** The ['YYYY-MM-DD'] prefix of an ISO timestamp (years 0000 to 9999). *)
Definition isoDate (days : Z) : string :=
  let '(y, m, d) := civil_from_days days in
  pad4 y ++ "-" ++ pad2 m ++ "-" ++ pad2 d.

End Calendar.

(** ** lib/timezoneHelper.js

    A Luxon [DateTime] in the zone Asia/Jerusalem is modelled by its wall
    clock: the number of milliseconds between 1970-01-01T00:00 local time
    and the local time it shows.  [plus({days})] and [set({hour, ...})] act
    on the wall clock, which is what Luxon does, and [setZone] on a value
    already in the zone is the identity.  The difference of two such values
    is a difference of wall clocks: it is the time elapsed between the two
    instants only when the zone offset is the same at both, and differs from
    it by an hour across a change of daylight saving.  Calendar days, hours
    of the day and the order of two values are read off the wall clock; the
    instant a value stands for is obtained with [toDate], from the zone
    offset in force at that wall-clock time. *)
Module TimezoneHelper.

Definition DateTime : Type := Z.

Record Hours : Type := mkHours { h_start : Z; h_end : Z }.

Definition BUSINESS_HOURS : Hours := {| h_start := 9; h_end := 20 |}.

Module WEEKDAYS.
Definition SUNDAY : Z := 7.
Definition MONDAY : Z := 1.
Definition TUESDAY : Z := 2.
Definition WEDNESDAY : Z := 3.
Definition THURSDAY : Z := 4.
Definition FRIDAY : Z := 5.
Definition SATURDAY : Z := 6.
End WEEKDAYS.

Definition ISRAELI_WEEKDAYS : list Z :=
  [WEEKDAYS.SUNDAY; WEEKDAYS.MONDAY; WEEKDAYS.TUESDAY;
   WEEKDAYS.WEDNESDAY; WEEKDAYS.THURSDAY].

(** Luxon accessors.  1970-01-01 was a Thursday (ISO weekday 4). *)
Definition dayNumber (dt : DateTime) : Z := dt / MS_PER_DAY.
Definition weekday (dt : DateTime) : Z := (dayNumber dt + 3) mod 7 + 1.
Definition hour (dt : DateTime) : Z := (dt mod MS_PER_DAY) / MS_PER_HOUR.
Definition minute (dt : DateTime) : Z :=
  (dt mod MS_PER_HOUR) / MS_PER_MINUTE.

(** [dt.plus({ days: n })] *)
Definition plusDays (n : Z) (dt : DateTime) : DateTime := dt + n * MS_PER_DAY.


(** [dt.set({ hour: h, minute: 0, second: 0, millisecond: 0 })] *)
Definition setHour (h : Z) (dt : DateTime) : DateTime :=
  dayNumber dt * MS_PER_DAY + h * MS_PER_HOUR.

(** [const hours = customHours || BUSINESS_HOURS] *)
Definition hoursOr (customHours : option Hours) : Hours :=
  match customHours with Some h => h | None => BUSINESS_HOURS end.

Definition isIsraeliWeekend (dateTime : DateTime) : bool :=
  let dayOfWeek := weekday dateTime in
  (dayOfWeek =? WEEKDAYS.FRIDAY) || (dayOfWeek =? WEEKDAYS.SATURDAY).

Definition isIsraeliWeekday (dateTime : DateTime) : bool :=
  existsb (Z.eqb (weekday dateTime)) ISRAELI_WEEKDAYS.

Definition isWithinBusinessHours
    (dateTime : DateTime) (customHours : option Hours) : bool :=
  let hours := hoursOr customHours in
  let hour := hour dateTime in
  (h_start hours <=? hour) && (hour <? h_end hours).

Definition isValidReminderTime
    (dateTime : DateTime) (customHours : option Hours) : bool :=
  isIsraeliWeekday dateTime && isWithinBusinessHours dateTime customHours.

(** The source function calls itself when the day after an evening falls
    on the weekend.  [fuel] bounds the depth of that recursion; [None]
    means the bound was reached. *)
Fixpoint getNextValidBusinessTime_rec (fuel : nat)
    (fromTime : DateTime) (customHours : option Hours) : option DateTime :=
  match fuel with
  | O => None
  | S fuel' =>
    let hours := hoursOr customHours in
    let nextTime := fromTime in
    if isValidReminderTime nextTime customHours then Some nextTime
    else if isIsraeliWeekend nextTime then
      let daysUntilSunday :=
        if weekday nextTime =? WEEKDAYS.FRIDAY then 2 else 1 in
      Some (setHour (h_start hours) (plusDays daysUntilSunday nextTime))
    else if negb (isWithinBusinessHours nextTime customHours) then
      if hour nextTime <? h_start hours then
        Some (setHour (h_start hours) nextTime)
      else if h_end hours <=? hour nextTime then
        let nextTime := setHour (h_start hours) (plusDays 1 nextTime) in
        if isIsraeliWeekend nextTime
        then getNextValidBusinessTime_rec fuel' nextTime customHours
        else Some nextTime
      else Some nextTime
    else Some nextTime
  end.

(** Two levels are always enough ([getNextValidBusinessTime_total]); the
    fall-back branch is never taken. *)
Definition getNextValidBusinessTime
    (fromTime : DateTime) (customHours : option Hours) : DateTime :=
  match getNextValidBusinessTime_rec 2 fromTime customHours with
  | Some t => t
  | None => fromTime
  end.

Definition calculate19pmReminderTime (firstMessageTime : DateTime) : DateTime :=
  let israelTime := firstMessageTime in
  if hour israelTime <? 18 then setHour 19 israelTime
  else setHour 19 (plusDays 1 israelTime).

Definition calculateVideoTestimonialTime (firstMessageTime : DateTime) : DateTime :=
  let reminderTime := calculate19pmReminderTime firstMessageTime in
  setHour 20 reminderTime.

Definition calculateNextAppointmentReminderTime
    (lastReminderTime : DateTime) : DateTime :=
  let israelTime := lastReminderTime in
  let nextTime := setHour 19 (plusDays 1 israelTime) in
  getNextValidBusinessTime nextTime None.

(** [DateTime.now().setZone(ISRAEL_TIMEZONE)] *)
Definition getNowInIsrael (offsetMinutes : Z) (nowMs : Z) : DateTime :=
  nowMs + offsetMinutes * MS_PER_MINUTE.

(** [dateTime.toJSDate().getTime()], where [offsetMinutes] is the offset of
    the zone at the wall-clock time [dateTime]. *)
Definition toDate (offsetMinutes : Z) (dateTime : DateTime) : Z :=
  dateTime - offsetMinutes * MS_PER_MINUTE.


(** A wall-clock value from its calendar day and time of day. *)
Definition at_ (day h m : Z) : DateTime :=
  day * MS_PER_DAY + h * MS_PER_HOUR + m * MS_PER_MINUTE.

End TimezoneHelper.


(** ** The ambient clock

    A JavaScript [Date] is an epoch instant; its local accessors ([getDay],
    [getHours]) read it in the zone of the server process, whose offset
    [timezoneOffset] is the value of [Date.prototype.getTimezoneOffset]
    (minutes, UTC minus local).  [israelOffset] is the offset of the zone
    Asia/Jerusalem at that instant (minutes east of UTC: 120 or 180), and
    [israelOffsetAt t] the offset of that zone in force at the wall-clock
    time [t], which is another day's offset when daylight saving changes in
    between. *)
Record Clock : Type := mkClock {
  nowMs : Z;
  timezoneOffset : Z;
  israelOffset : Z;
  israelOffsetAt : Z -> Z
}.

Module JSDate.

Definition localMs (c : Clock) : Z := nowMs c - timezoneOffset c * MS_PER_MINUTE.

(** [getDay()]: 0 is Sunday, 6 is Saturday. *)
Definition getDay (c : Clock) : Z := (localMs c / MS_PER_DAY + 4) mod 7.

Definition getHours (c : Clock) : Z := (localMs c mod MS_PER_DAY) / MS_PER_HOUR.

(** [toISOString().split('T')[0]]: the UTC date. *)
Definition toISODate (c : Clock) : string := Calendar.isoDate (nowMs c / MS_PER_DAY).

End JSDate.

(** ** lib/operating-hours.js *)
Module OperatingHours.

Definition JEWISH_HOLIDAYS : list string :=
  [ "2025-04-13"; "2025-04-14";
    "2025-04-19"; "2025-04-20";
    "2025-06-02"; "2025-06-03";
    "2025-09-23"; "2025-09-24";
    "2025-10-02";
    "2025-10-07"; "2025-10-08";
    "2025-10-14"; "2025-10-15";
    "2026-04-02"; "2026-04-03";
    "2026-04-08"; "2026-04-09";
    "2026-05-22"; "2026-05-23";
    "2026-09-12"; "2026-09-13";
    "2026-09-21";
    "2026-09-26"; "2026-09-27";
    "2026-10-03"; "2026-10-04" ].

(** [Array.prototype.includes] on strings. *)
Definition includes_str (l : list string) (x : string) : bool :=
  existsb (String.eqb x) l.

Definition isJewishHoliday (now : Clock) : bool :=
  let today := JSDate.toISODate now in
  includes_str JEWISH_HOLIDAYS today.

Definition isWithinOperatingHours (now : Clock) : bool :=
  let day := JSDate.getDay now in
  let hour := JSDate.getHours now in
  if isJewishHoliday now then false
  else if day =? 6 then false
  else if day =? 5 then
    if (hour <? 9) || (15 <=? hour) then false else true
  else if (hour <? 9) || (21 <=? hour) then false
  else true.

Definition isWithinTimeWindow (now : Clock) (startHour endHour : Z) : bool :=
  if negb (isWithinOperatingHours now) then false
  else
    let hour := JSDate.getHours now in
    (startHour <=? hour) && (hour <? endHour).

End OperatingHours.

(** What a JavaScript call does: it returns a value or throws. *)
Inductive Completion (A : Type) : Type :=
| Return (a : A)
| Throw (e : string).
Arguments Return {A} a.
Arguments Throw {A} e.

(** The value of a call that returned. *)
Definition returned {A : Type} (c : Completion A) : option A :=
  match c with
  | Return a => Some a
  | Throw _ => None
  end.

(** ** lib/reminder-scheduler.js: the stage policy *)
Module ReminderPolicy.

Record TimingRule : Type := mkRule {
  stage : Z;
  delayMinutes : Z;
  windowStart : option Z;
  windowEnd : option Z
}.

(** [REMINDER_TIMING[type]], for the value of [IS_TEST_MODE] read from the
    environment at start-up; [None] is JavaScript's [undefined]. *)
Definition REMINDER_TIMING (IS_TEST_MODE : bool) (type : string)
    : option (list TimingRule) :=
  if String.eqb type "form" then
    Some (if IS_TEST_MODE then
            [ mkRule 1 1 None None;
              mkRule 2 2 None None;
              mkRule 3 3 None None ]
          else
            [ mkRule 1 60 None None;
              mkRule 2 1440 (Some 9) (Some 12);
              mkRule 3 2880 (Some 18) (Some 20) ])
  else if String.eqb type "appointment" then
    Some (if IS_TEST_MODE then
            [ mkRule 1 1 None None;
              mkRule 2 2 None None;
              mkRule 3 3 None None;
              mkRule 4 4 None None ]
          else
            [ mkRule 1 60 None None;
              mkRule 2 1440 None None;
              mkRule 3 2880 None None;
              mkRule 4 4320 None None ])
  else None.

(** [alreadySent.includes(stage)] *)
Definition includes (alreadySent : list Z) (s : Z) : bool :=
  existsb (Z.eqb s) alreadySent.

(** [(now - sentAt) / (1000 * 60)], an exact quotient. *)
Definition minutesSince (now : Clock) (sentAt : Z) : Q :=
  Qmake (nowMs now - sentAt) 60000.

Definition Qltb (x y : Q) : bool := negb (Qle_bool y x).

(** The [for (const rule of timingRules)] loop; each [continue] is a call
    on the remaining rules. *)
Fixpoint firstEligible (now : Clock) (minutesSince : Q)
    (alreadySent : list Z) (timingRules : list TimingRule) : option Z :=
  match timingRules with
  | [] => None
  | rule :: rest =>
    if includes alreadySent (stage rule) then
      firstEligible now minutesSince alreadySent rest
    else if Qltb minutesSince (inject_Z (delayMinutes rule)) then
      firstEligible now minutesSince alreadySent rest
    else
      match windowStart rule, windowEnd rule with
      | Some ws, Some we =>
        if negb (OperatingHours.isWithinTimeWindow now ws we) then
          firstEligible now minutesSince alreadySent rest
        else Some (stage rule)
      | _, _ => Some (stage rule)
      end
  end.

(** [sentAt] is a [Date] or [null]; iterating [undefined] (an unknown
    [type]) throws a [TypeError]. *)
Definition getNextReminderStage (IS_TEST_MODE : bool) (now : Clock)
    (sentAt : option Z) (alreadySent : list Z) (type : string)
    : Completion (option Z) :=
  match sentAt with
  | None => Return None
  | Some sentAt =>
    let minutesSince := minutesSince now sentAt in
    match REMINDER_TIMING IS_TEST_MODE type with
    | None => Throw "TypeError: timingRules is not iterable"
    | Some timingRules =>
      Return (firstEligible now minutesSince alreadySent timingRules)
    end
  end.

End ReminderPolicy.

(** ** Persistent state

    The [sessions] and [scheduled_messages] tables of PostgreSQL (rows in
    insertion order), the Bull queue kept in Redis, the in-process
    [pendingUsers] map, and the log of what the transport was asked to
    send.  Column length limits are not modelled. *)
Module Store.

Inductive SessionStatus : Type := active | completed | expired.

Inductive MessageStatus : Type := pending | sent | failed | cancelled.

Definition SessionStatus_eqb (a b : SessionStatus) : bool :=
  match a, b with
  | active, active | completed, completed | expired, expired => true
  | _, _ => false
  end.

Definition MessageStatus_eqb (a b : MessageStatus) : bool :=
  match a, b with
  | pending, pending | sent, sent | failed, failed
  | cancelled, cancelled => true
  | _, _ => false
  end.

Record Session : Type := mkSession {
  session_id : string;
  phone_number : string;
  chat_id : option string;
  created_at : Z;
  expires_at : Z;
  form_data : string;
  status : SessionStatus;
  completed_at : option Z;
  form_sent_at : option Z;
  form_completed_at : option Z;
  appointment_sent_at : option Z;
  appointment_scheduled_at : option Z;
  reminders_sent_form : list Z;
  reminders_sent_appointment : list Z
}.

Record ScheduledMessage : Type := mkMessage {
  id : Z;
  msg_session_id : string;
  msg_phone_number : string;
  msg_chat_id : option string;
  message_type : string;
  message_content : string;
  scheduled_for : TimezoneHelper.DateTime;
  msg_status : MessageStatus;
  job_id : option string;
  sent_at : option Z;
  error_message : option string;
  retry_count : Z;
  msg_created_at : Z;
  updated_at : Z
}.

(** [job.data] of a Bull job. *)
Record JobData : Type := mkJobData {
  scheduledMessageId : Z;
  sessionId : string;
  phoneNumber : string;
  chatId : option string;
  messageType : string;
  messageContent : string;
  mediaUrl : option string
}.

(** A job while Redis holds it.  [attemptsMade] and [finished] are Bull's
    own bookkeeping: a job is run again after a failure until
    [attempts: 3] are used up (lib/messageQueue.js). *)
Record Job : Type := mkJob {
  jobId : string;
  data : JobData;
  delay : Z;
  attemptsMade : Z;
  finished : bool
}.

Inductive Body : Type :=
| Content (text : string)
| ReminderText (type : string) (stage : Z) (link : string).

(** One call of the transport's [sendMessage]. *)
Record Sent : Type := mkSent {
  to : option string;
  body : Body;
  media : option string
}.

Record State : Type := mkState {
  sessions : list Session;
  scheduled_messages : list ScheduledMessage;
  next_id : Z;
  queue : list Job;
  pendingUsersMap : option (list string);
  outbox : list Sent
}.

Definition empty : State :=
  {| sessions := []; scheduled_messages := []; next_id := 1; queue := [];
     pendingUsersMap := None; outbox := [] |}.

Definition with_sessions (f : list Session -> list Session) (st : State) : State :=
  {| sessions := f (sessions st);
     scheduled_messages := scheduled_messages st;
     next_id := next_id st; queue := queue st;
     pendingUsersMap := pendingUsersMap st; outbox := outbox st |}.

Definition with_messages
    (f : list ScheduledMessage -> list ScheduledMessage) (st : State) : State :=
  {| sessions := sessions st;
     scheduled_messages := f (scheduled_messages st);
     next_id := next_id st; queue := queue st;
     pendingUsersMap := pendingUsersMap st; outbox := outbox st |}.

Definition with_next_id (n : Z) (st : State) : State :=
  {| sessions := sessions st;
     scheduled_messages := scheduled_messages st;
     next_id := n; queue := queue st;
     pendingUsersMap := pendingUsersMap st; outbox := outbox st |}.

Definition with_queue (f : list Job -> list Job) (st : State) : State :=
  {| sessions := sessions st;
     scheduled_messages := scheduled_messages st;
     next_id := next_id st; queue := f (queue st);
     pendingUsersMap := pendingUsersMap st; outbox := outbox st |}.

Definition with_pendingUsers
    (f : option (list string) -> option (list string)) (st : State) : State :=
  {| sessions := sessions st;
     scheduled_messages := scheduled_messages st;
     next_id := next_id st; queue := queue st;
     pendingUsersMap := f (pendingUsersMap st); outbox := outbox st |}.

Definition with_outbox (f : list Sent -> list Sent) (st : State) : State :=
  {| sessions := sessions st;
     scheduled_messages := scheduled_messages st;
     next_id := next_id st; queue := queue st;
     pendingUsersMap := pendingUsersMap st; outbox := f (outbox st) |}.

(** Field updates of a row. *)
Definition set_status (v : SessionStatus) (s : Session) : Session :=
  mkSession (session_id s) (phone_number s) (chat_id s) (created_at s)
    (expires_at s) (form_data s) v (completed_at s) (form_sent_at s)
    (form_completed_at s) (appointment_sent_at s)
    (appointment_scheduled_at s) (reminders_sent_form s)
    (reminders_sent_appointment s).

Definition set_appointment_scheduled_at (v : option Z) (s : Session) : Session :=
  mkSession (session_id s) (phone_number s) (chat_id s) (created_at s)
    (expires_at s) (form_data s) (status s) (completed_at s) (form_sent_at s)
    (form_completed_at s) (appointment_sent_at s) v (reminders_sent_form s)
    (reminders_sent_appointment s).

Definition set_reminders_sent (f a : list Z) (s : Session) : Session :=
  mkSession (session_id s) (phone_number s) (chat_id s) (created_at s)
    (expires_at s) (form_data s) (status s) (completed_at s) (form_sent_at s)
    (form_completed_at s) (appointment_sent_at s)
    (appointment_scheduled_at s) f a.

Definition set_msg_status (v : MessageStatus) (now : Z)
    (m : ScheduledMessage) : ScheduledMessage :=
  mkMessage (id m) (msg_session_id m) (msg_phone_number m) (msg_chat_id m)
    (message_type m) (message_content m) (scheduled_for m) v (job_id m)
    (sent_at m) (error_message m) (retry_count m) (msg_created_at m) now.

Definition set_msg_sent (now : Z) (m : ScheduledMessage) : ScheduledMessage :=
  mkMessage (id m) (msg_session_id m) (msg_phone_number m) (msg_chat_id m)
    (message_type m) (message_content m) (scheduled_for m) sent (job_id m)
    (Some now) (error_message m) (retry_count m) (msg_created_at m) now.

Definition set_msg_failed (e : string) (now : Z)
    (m : ScheduledMessage) : ScheduledMessage :=
  mkMessage (id m) (msg_session_id m) (msg_phone_number m) (msg_chat_id m)
    (message_type m) (message_content m) (scheduled_for m) failed (job_id m)
    (sent_at m) (Some e) (retry_count m + 1) (msg_created_at m) now.

Definition set_job_id (j : string) (m : ScheduledMessage) : ScheduledMessage :=
  mkMessage (id m) (msg_session_id m) (msg_phone_number m) (msg_chat_id m)
    (message_type m) (message_content m) (scheduled_for m) (msg_status m)
    (Some j) (sent_at m) (error_message m) (retry_count m)
    (msg_created_at m) (updated_at m).

(** [UPDATE t SET ... WHERE p]: every row that satisfies [p] is rewritten. *)
Definition update {A : Type} (p : A -> bool) (f : A -> A) (rows : list A) : list A :=
  map (fun r => if p r then f r else r) rows.

(** [SELECT * FROM t WHERE p] *)
Definition select {A : Type} (p : A -> bool) (rows : list A) : list A :=
  filter p rows.

Definition by_session_id (sid : string) (s : Session) : bool :=
  String.eqb (session_id s) sid.

Definition by_id (i : Z) (m : ScheduledMessage) : bool := id m =? i.

(** The SQL operator [LIKE]: [%] matches any run of characters, [_] any
    one character, and a backslash makes the next character literal. *)
Fixpoint like (pattern s : string) {struct pattern} : bool :=
  match pattern with
  | EmptyString => match s with EmptyString => true | _ => false end
  | String c p' =>
    if Ascii.eqb c "%" then
      (fix anySuffix (s : string) : bool :=
         like p' s ||
         match s with
         | EmptyString => false
         | String _ s' => anySuffix s'
         end) s
    else if Ascii.eqb c "_" then
      match s with
      | EmptyString => false
      | String _ s' => like p' s'
      end
    else if Ascii.eqb c "092" then
      match p' with
      | EmptyString => false
      | String e p'' =>
        match s with
        | EmptyString => false
        | String d s' => Ascii.eqb e d && like p'' s'
        end
      end
    else
      match s with
      | EmptyString => false
      | String d s' => Ascii.eqb c d && like p' s'
      end
  end.

(** JavaScript truthiness of a string that may be [null]. *)
Definition truthy (s : option string) : bool :=
  match s with
  | Some (String _ _) => true
  | _ => false
  end.

(** [a || b] on such strings. *)
Definition orElse (a b : option string) : option string :=
  if truthy a then a else b.

Definition Z_to_string (n : Z) : string :=
  NilZero.string_of_int (Z.to_int n).

End Store.

(** ** Calls that read and write the store and may throw *)
Definition M (A : Type) : Type := Store.State -> Completion A * Store.State.

Definition ret {A : Type} (a : A) : M A := fun st => (Return a, st).


Definition bind {A B : Type} (m : M A) (k : A -> M B) : M B :=
  fun st =>
    match m st with
    | (Return a, st') => k a st'
    | (Throw e, st') => (Throw e, st')
    end.

Notation "x <- m ;; k" := (bind m (fun x => k))
  (at level 61, m at next level, right associativity).

(** ** lib/messageTemplates.js

    The texts themselves are left out: [getMessage] is given the text that
    the template of the type would produce, and says whether there is such
    a template.  [variables] is the list of the keys of the object passed
    in. *)
Module MessageTemplates.

Definition includes (l : list string) (x : string) : bool :=
  existsb (String.eqb x) l.

Definition STATIC_MESSAGES : list string :=
  ["introduction"; "video_testimonial"; "appointment_link";
   "appointment_reminder_1"; "appointment_reminder_2";
   "appointment_reminder_3"; "appointment_reminder_4"].

Definition DYNAMIC_MESSAGES : list string :=
  ["chatbot_link"; "form_reminder_19pm"; "form_summary";
   "active_session_reminder"].

(** The names every object literal inherits from [Object.prototype]: a
    lookup [table[name]] with one of them finds the inherited value, which
    is truthy, and not [undefined]. *)
Definition INHERITED : list string :=
  ["constructor"; "hasOwnProperty"; "isPrototypeOf"; "propertyIsEnumerable";
   "toLocaleString"; "toString"; "valueOf"; "__proto__";
   "__defineGetter__"; "__defineSetter__"; "__lookupGetter__";
   "__lookupSetter__"].

(** [getMessage]: the text of a static or dynamic template; for an
    inherited name the lookup in [STATIC_MESSAGES] succeeds and its value is
    returned. *)
Definition getMessage (messageType : string) (text : string) : Completion string :=
  if includes STATIC_MESSAGES messageType || includes INHERITED messageType
  then Return text
  else if includes DYNAMIC_MESSAGES messageType then Return text
  else Throw ("Unknown message type: " ++ messageType).

Definition FORM_SUMMARY_VARIABLES : list string :=
  ["name"; "ageGroup"; "financialGoal"; "maritalStatus"; "employmentStatus";
   "pensionContributions"; "monthlySalary"; "pensionCapital";
   "savingsAndInvestments"; "investmentLocation"; "mortgage"].

(** The table inside [validateVariables]. *)
Definition requiredVariables (messageType : string) : option (list string) :=
  if String.eqb messageType "chatbot_link" then Some ["chatbotUrl"]
  else if String.eqb messageType "form_reminder_19pm" then Some ["chatbotUrl"]
  else if String.eqb messageType "active_session_reminder" then Some ["chatbotUrl"]
  else if String.eqb messageType "form_summary" then Some FORM_SUMMARY_VARIABLES
  else None.

(** [validateVariables]: for an inherited name the table answers with a
    value that has no [filter], and the call throws a [TypeError]. *)
Definition validateVariables (messageType : string) (variables : list string)
    : Completion unit :=
  if includes INHERITED messageType then Throw "required.filter is not a function"
  else
    match requiredVariables messageType with
    | None => Return tt
    | Some required =>
      match filter (fun key => negb (includes variables key)) required with
      | [] => Return tt
      | _ :: _ => Throw ("Missing required variables for " ++ messageType)
      end
    end.

End MessageTemplates.

(** ** lib/messageScheduler.js *)
Module MessageScheduler.
Import Store TimezoneHelper.

(** What the Baileys socket does with a send: [true] when [sendMessage]
    resolves, [false] when it rejects or no socket was injected. *)
Definition Transport : Type := Sent -> bool.

Definition isDigit (c : ascii) : bool :=
  let n := nat_of_ascii c in (48 <=? n)%nat && (n <=? 57)%nat.

Fixpoint containsChar (c : ascii) (s : string) : bool :=
  match s with
  | EmptyString => false
  | String d s' => Ascii.eqb c d || containsChar c s'
  end.

Fixpoint keepChars (p : ascii -> bool) (s : string) : string :=
  match s with
  | EmptyString => EmptyString
  | String d s' => if p d then String d (keepChars p s') else keepChars p s'
  end.

Definition phoneToWhatsAppId (phoneNumber : string) : option string :=
  match phoneNumber with
  | EmptyString => None
  | _ =>
    if containsChar "@" phoneNumber then Some phoneNumber
    else
      let cleaned := keepChars (fun c => isDigit c || Ascii.eqb c "+") phoneNumber in
      let numberOnly :=
        match cleaned with
        | String c rest => if Ascii.eqb c "+" then rest else cleaned
        | EmptyString => cleaned
        end in
      Some (numberOnly ++ "@s.whatsapp.net")
  end.

Record ScheduleParams : Type := mkParams {
  p_sessionId : string;
  p_phoneNumber : string;
  p_chatId : option string;
  p_messageType : string;
  p_messageContent : string;
  p_scheduledFor : DateTime;
  p_mediaUrl : option string;
  p_variables : list string
}.

(** [scheduleMessage].  [p_variables] are the keys of [variables] and
    [p_messageContent] is the text that the template of the type gives for
    them; [validateVariables] and [getMessage] throw before anything is
    stored when the type has no template or a variable is missing.  The
    insert is refused when [session_id] names no session (foreign key); the
    sequence behind [id] has advanced by then.  Bull does not add a job
    whose [jobId] is already taken; it hands back the job that has it. *)
Definition scheduleMessage (now : Clock) (p : ScheduleParams) : M ScheduledMessage :=
  fun st =>
    match MessageTemplates.validateVariables (p_messageType p) (p_variables p) with
    | Throw e => (Throw e, st)
    | Return _ =>
    match MessageTemplates.getMessage (p_messageType p) (p_messageContent p) with
    | Throw e => (Throw e, st)
    | Return messageContent =>
    let scheduledDate :=
      toDate (israelOffsetAt now (p_scheduledFor p)) (p_scheduledFor p) in
    let effectiveChatId :=
      if negb (truthy (p_chatId p)) && truthy (Some (p_sessionId p)) then
        match select (by_session_id (p_sessionId p)) (sessions st) with
        | row :: _ => chat_id row
        | [] => p_chatId p
        end
      else p_chatId p in
    let newId := next_id st in
    let st := with_next_id (newId + 1) st in
    if negb (existsb (by_session_id (p_sessionId p)) (sessions st)) then
      (Throw "insert or update on table scheduled_messages violates foreign key constraint", st)
    else
      let scheduledMessageRecord :=
        {| id := newId;
           msg_session_id := p_sessionId p;
           msg_phone_number := p_phoneNumber p;
           msg_chat_id := effectiveChatId;
           message_type := p_messageType p;
           message_content := messageContent;
           scheduled_for := p_scheduledFor p;
           msg_status := pending;
           job_id := None;
           sent_at := None;
           error_message := None;
           retry_count := 0;
           msg_created_at := nowMs now;
           updated_at := nowMs now |} in
      let st := with_messages (fun rows => (rows ++ [scheduledMessageRecord])%list) st in
      let job :=
        {| jobId := p_messageType p ++ "_" ++ p_sessionId p ++ "_"
                    ++ Z_to_string (nowMs now);
           data := {| scheduledMessageId := id scheduledMessageRecord;
                      sessionId := p_sessionId p;
                      phoneNumber := p_phoneNumber p;
                      chatId := effectiveChatId;
                      messageType := p_messageType p;
                      messageContent := messageContent;
                      mediaUrl := p_mediaUrl p |};
           delay := scheduledDate - nowMs now;
           attemptsMade := 0;
           finished := false |} in
      let st :=
        with_queue (fun q =>
          if existsb (fun j => String.eqb (jobId j) (jobId job)) q
          then q else (q ++ [job])%list) st in
      let st :=
        with_messages
          (update (by_id (id scheduledMessageRecord)) (set_job_id (jobId job))) st in
      (Return (set_job_id (jobId job) scheduledMessageRecord), st)
    end end.


Definition schedule19pmReminder (now : Clock)
    (sessionId phoneNumber content : string) (firstMessageTime : DateTime)
    : M ScheduledMessage :=
  let scheduledFor := calculate19pmReminderTime firstMessageTime in
  let validScheduledFor := getNextValidBusinessTime scheduledFor None in
  scheduleMessage now
    (mkParams sessionId phoneNumber None "form_reminder_19pm" content
              validScheduledFor None ["chatbotUrl"]).

Definition scheduleVideoTestimonial (now : Clock)
    (sessionId phoneNumber content : string) (firstMessageTime : DateTime)
    (videoUrl : option string) : M ScheduledMessage :=
  let scheduledFor := calculateVideoTestimonialTime firstMessageTime in
  let validScheduledFor := getNextValidBusinessTime scheduledFor None in
  scheduleMessage now
    (mkParams sessionId phoneNumber None "video_testimonial" content
              validScheduledFor videoUrl []).

(** The four texts are those of the templates [appointment_reminder_1] to
    [appointment_reminder_4]. *)
Definition scheduleAppointmentReminders (now : Clock)
    (sessionId phoneNumber : string) (contents : string * string * string * string)
    (appointmentLinkSentTime : DateTime) : M (list ScheduledMessage) :=
  let '(c1, c2, c3, c4) := contents in
  let reminder1Time := calculateNextAppointmentReminderTime appointmentLinkSentTime in
  reminder1 <- scheduleMessage now
    (mkParams sessionId phoneNumber None "appointment_reminder_1" c1 reminder1Time None []) ;;
  let scheduledMessages := [reminder1] in
  let reminder2Time := calculateNextAppointmentReminderTime reminder1Time in
  reminder2 <- scheduleMessage now
    (mkParams sessionId phoneNumber None "appointment_reminder_2" c2 reminder2Time None []) ;;
  let scheduledMessages := (scheduledMessages ++ [reminder2])%list in
  let reminder3Time := calculateNextAppointmentReminderTime reminder2Time in
  reminder3 <- scheduleMessage now
    (mkParams sessionId phoneNumber None "appointment_reminder_3" c3 reminder3Time None []) ;;
  let scheduledMessages := (scheduledMessages ++ [reminder3])%list in
  let reminder4Time := calculateNextAppointmentReminderTime reminder3Time in
  reminder4 <- scheduleMessage now
    (mkParams sessionId phoneNumber None "appointment_reminder_4" c4 reminder4Time None []) ;;
  let scheduledMessages := (scheduledMessages ++ [reminder4])%list in
  ret scheduledMessages.

(** What the queue does when asked to drop the job with a given [job_id]:
    [true] when [messageQueue.getJob] and [job.remove()] resolve, [false]
    when one of them rejects (Redis cannot be reached, or Bull refuses to
    remove the job, as it may for one that a worker holds). *)
Definition QueueCalls : Type := option string -> bool.

(** Every call on the queue resolves. *)
Definition resolves : QueueCalls := fun _ => true.

(** [cancelScheduledMessage]: only a [pending] row is cancelled.  Its job is
    taken out of the queue first; when that call rejects, the [catch]
    answers [false] and the row stays as it is. *)
Definition cancelScheduledMessageVia (removes : QueueCalls) (now : Clock)
    (scheduledMessageId : Z) (st : State) : bool * State :=
  match select (by_id scheduledMessageId) (scheduled_messages st) with
  | [] => (false, st)
  | row :: _ =>
    if negb (MessageStatus_eqb (msg_status row) pending) then (false, st)
    else if removes (job_id row) then
      let st :=
        match job_id row with
        | Some j => with_queue (filter (fun job => negb (String.eqb (jobId job) j))) st
        | None => st
        end in
      let st :=
        with_messages
          (update (by_id scheduledMessageId) (set_msg_status cancelled (nowMs now))) st in
      (true, st)
    else (false, st)
  end.

(** The call when the queue lets the job go. *)
Definition cancelScheduledMessage : Clock -> Z -> State -> bool * State :=
  cancelScheduledMessageVia resolves.

(** The loop [for (const row of result.rows)] with its counter. *)
Fixpoint cancelEach (now : Clock) (ids : list Z) (cancelledCount : Z)
    (st : State) : Z * State :=
  match ids with
  | [] => (cancelledCount, st)
  | i :: rest =>
    let '(cancelled_, st') := cancelScheduledMessage now i st in
    cancelEach now rest (if cancelled_ then cancelledCount + 1 else cancelledCount) st'
  end.

Definition cancelSessionMessages (now : Clock) (sessionId : string)
    (messageTypePattern : string) (st : State) : Z * State :=
  let rows :=
    select (fun m => String.eqb (msg_session_id m) sessionId
                     && MessageStatus_eqb (msg_status m) pending
                     && like messageTypePattern (message_type m))
           (scheduled_messages st) in
  cancelEach now (map id rows) 0 st.

(** The same loop and the same query when calls on the queue may reject. *)
Fixpoint cancelEachVia (removes : QueueCalls) (now : Clock) (ids : list Z)
    (cancelledCount : Z) (st : State) : Z * State :=
  match ids with
  | [] => (cancelledCount, st)
  | i :: rest =>
    let '(cancelled_, st') := cancelScheduledMessageVia removes now i st in
    cancelEachVia removes now rest
      (if cancelled_ then cancelledCount + 1 else cancelledCount) st'
  end.

Definition cancelSessionMessagesVia (removes : QueueCalls) (now : Clock)
    (sessionId : string) (messageTypePattern : string) (st : State) : Z * State :=
  let rows :=
    select (fun m => String.eqb (msg_session_id m) sessionId
                     && MessageStatus_eqb (msg_status m) pending
                     && like messageTypePattern (message_type m))
           (scheduled_messages st) in
  cancelEachVia removes now (map id rows) 0 st.

(** The default of the second argument. *)
Definition MATCH_ALL : string := "%".

Definition cancelAllPendingMessages (now : Clock) (st : State) : Z * State :=
  let rows :=
    select (fun m => MessageStatus_eqb (msg_status m) pending) (scheduled_messages st) in
  cancelEach now (map id rows) 0 st.

Definition cancelAllPendingMessagesVia (removes : QueueCalls) (now : Clock)
    (st : State) : Z * State :=
  let rows :=
    select (fun m => MessageStatus_eqb (msg_status m) pending) (scheduled_messages st) in
  cancelEachVia removes now (map id rows) 0 st.

(** [sendWhatsAppMessage]: the message goes to [chatId] when there is one,
    otherwise to the identifier made from the phone number. *)
Definition sendWhatsAppMessage (transport : Transport)
    (phoneNumber message : string) (mediaUrl chatId : option string) : M unit :=
  fun st =>
    let whatsappId :=
      if truthy chatId then chatId else phoneToWhatsAppId phoneNumber in
    let msg := {| to := whatsappId; body := Content message;
                  media := if truthy mediaUrl then mediaUrl else None |} in
    if transport msg
    then (Return tt, with_outbox (fun o => (o ++ [msg])%list) st)
    else (Throw "send failed", st).

Inductive JobResult : Type :=
| Skipped (reason : string)
| Success (scheduledMessageId : Z) (messageType : string) (sentAt : Z).

(** The body of the [try] block of [processScheduledMessage]. *)
Definition processAttempt (now : Clock) (transport : Transport)
    (job : JobData) : M JobResult :=
  fun st =>
    match select (by_id (scheduledMessageId job)) (scheduled_messages st) with
    | [] => (Throw "Scheduled message not found in database", st)
    | row :: _ =>
      if MessageStatus_eqb (msg_status row) cancelled then
        (Return (Skipped "cancelled"), st)
      else
        let sessionStatus :=
          match select (by_session_id (sessionId job)) (sessions st) with
          | s :: _ => Some (status s)
          | [] => None
          end in
        let isStatus (v : SessionStatus) :=
          match sessionStatus with
          | Some x => SessionStatus_eqb x v
          | None => false
          end in
        let cancelRow :=
          with_messages
            (update (by_id (scheduledMessageId job))
                    (set_msg_status cancelled (nowMs now))) in
        if prefix "appointment_reminder" (messageType job)
           && negb (isStatus completed) then
          (Return (Skipped "session_not_completed"), cancelRow st)
        else if (String.eqb (messageType job) "form_reminder_19pm"
                 || String.eqb (messageType job) "video_testimonial")
                && negb (isStatus active) then
          (Return (Skipped "session_not_active"), cancelRow st)
        else
          let effectiveChatId := orElse (chatId job) (msg_chat_id row) in
          match sendWhatsAppMessage transport (phoneNumber job)
                  (messageContent job) (mediaUrl job) effectiveChatId st with
          | (Throw e, st') => (Throw e, st')
          | (Return _, st') =>
            (Return (Success (scheduledMessageId job) (messageType job) (nowMs now)),
             with_messages
               (update (by_id (scheduledMessageId job)) (set_msg_sent (nowMs now))) st')
          end
    end.

(** [processScheduledMessage]: the [catch] block records the failure and
    throws again, so that Bull can retry. *)
Definition processScheduledMessage (now : Clock) (transport : Transport)
    (job : JobData) : M JobResult :=
  fun st =>
    match processAttempt now transport job st with
    | (Return r, st') => (Return r, st')
    | (Throw e, st') =>
      (Throw e,
       with_messages
         (update (by_id (scheduledMessageId job)) (set_msg_failed e (nowMs now))) st')
    end.

End MessageScheduler.

(** ** The Bull worker (lib/messageQueue.js, [initializeWorker])

    Bull hands an unfinished job of the queue to [processScheduledMessage].
    A job that returns is complete and is kept ([removeOnComplete: false]);
    a job that throws is run again later unless [attempts: 3] have been
    made.  When a job becomes due is not modelled. *)
Module Worker.
Import Store MessageScheduler.

Definition ATTEMPTS : Z := 3.

Definition settle (ok : bool) (j : Job) : Job :=
  if ok then mkJob (jobId j) (data j) (delay j) (attemptsMade j + 1) true
  else mkJob (jobId j) (data j) (delay j) (attemptsMade j + 1)
             (ATTEMPTS <=? attemptsMade j + 1).

Definition run (now : Clock) (transport : Transport) (jid : string)
    (st : State) : option (Completion JobResult) * State :=
  match select (fun j => String.eqb (jobId j) jid && negb (finished j)) (queue st) with
  | [] => (None, st)
  | job :: _ =>
    match processScheduledMessage now transport (data job) st with
    | (Return r, st') =>
      (Some (Return r),
       with_queue (update (fun j => String.eqb (jobId j) jid) (settle true)) st')
    | (Throw e, st') =>
      (Some (Throw e),
       with_queue (update (fun j => String.eqb (jobId j) jid) (settle false)) st')
    end
  end.

End Worker.

(** ** lib/sessionManager.js *)
Module SessionManager.
Import Store MessageScheduler.

Definition SESSION_TTL_MS : Z := 24 * 60 * 60 * 1000.

Definition BASE_URL : string := "http://localhost:3000".

(** [`session_${timestamp}_${random}`]; [random] is the text that
    [Math.random().toString(36).substring(2, 15)] produced. *)
Definition generateSessionId (now : Clock) (random : string) : string :=
  "session_" ++ Z_to_string (nowMs now) ++ "_" ++ random.

Definition clearPendingUser (phoneNumber : string) (st : State) : State :=
  match pendingUsersMap st with
  | None => st
  | Some _ =>
    let normalizedPhone := keepChars isDigit phoneNumber in
    with_pendingUsers
      (option_map (filter (fun k => negb (String.eqb k normalizedPhone)))) st
  end.

Record Created : Type := mkCreated {
  c_sessionId : string;
  c_phoneNumber : string;
  c_expiresAt : Z;
  c_chatbotUrl : string
}.

Definition activeFor (phoneNumber : string) (s : Session) : bool :=
  String.eqb (phone_number s) phoneNumber && SessionStatus_eqb (status s) active.

(** The loop over [existingSessions.rows]. *)
Fixpoint cancelForSessions (now : Clock) (rows : list Session) (st : State) : State :=
  match rows with
  | [] => st
  | row :: rest =>
    cancelForSessions now rest (snd (cancelSessionMessages now (session_id row) MATCH_ALL st))
  end.

(** The same loop when calls on the queue may reject. *)
Fixpoint cancelForSessionsVia (removes : QueueCalls) (now : Clock)
    (rows : list Session) (st : State) : State :=
  match rows with
  | [] => st
  | row :: rest =>
    cancelForSessionsVia removes now rest
      (snd (cancelSessionMessagesVia removes now (session_id row) MATCH_ALL st))
  end.

(** [createSession], with [cancel] for its loop over [existingSessions.rows].
    Between [BEGIN] and [COMMIT] only the statements on [client] belong to
    the transaction; [cancelSessionMessages] works on the scheduler's own
    pool and on Redis, so a [ROLLBACK] restores the [sessions] table and
    nothing else.  The insert is refused when the primary key is taken or
    when the partial unique index [idx_sessions_phone_active] finds another
    active row of the phone. *)
Definition createSessionWith (cancel : Clock -> list Session -> State -> State)
    (now : Clock) (phoneNumber : string)
    (chatId : option string) (random : string) : M Created :=
  fun st =>
    let snapshot := sessions st in
    let existingSessions := select (activeFor phoneNumber) (sessions st) in
    let st := cancel now existingSessions st in
    let st := with_sessions (update (activeFor phoneNumber) (set_status expired)) st in
    let sessionId := generateSessionId now random in
    let expiresAt := nowMs now + SESSION_TTL_MS in
    if existsb (by_session_id sessionId) (sessions st)
       || existsb (activeFor phoneNumber) (sessions st) then
      (Throw "duplicate key value violates unique constraint",
       with_sessions (fun _ => snapshot) st)
    else
      let row :=
        {| session_id := sessionId;
           phone_number := phoneNumber;
           chat_id := chatId;
           created_at := nowMs now;
           expires_at := expiresAt;
           form_data := "{}";
           status := active;
           completed_at := None;
           form_sent_at := Some (nowMs now);
           form_completed_at := None;
           appointment_sent_at := None;
           appointment_scheduled_at := None;
           reminders_sent_form := [];
           reminders_sent_appointment := [] |} in
      (Return {| c_sessionId := sessionId;
                 c_phoneNumber := phoneNumber;
                 c_expiresAt := expiresAt;
                 c_chatbotUrl := BASE_URL ++ "/chatbot?session=" ++ sessionId |},
       with_sessions (fun rows => (rows ++ [row])%list) st).

(** [createSession] when the queue lets every job go, and when its calls
    may reject. *)
Definition createSession : Clock -> string -> option string -> string -> M Created :=
  createSessionWith cancelForSessions.

Definition createSessionVia (removes : QueueCalls)
    : Clock -> string -> option string -> string -> M Created :=
  createSessionWith (cancelForSessionsVia removes).

Definition resetSession := createSession.

(** The [SET] clause of [markCompleted]. *)
Definition completeRow (now : Clock) (formData : string) (s : Session) : Session :=
  mkSession (session_id s) (phone_number s) (chat_id s) (created_at s)
    (expires_at s) formData completed (Some (nowMs now)) (form_sent_at s)
    (Some (nowMs now)) (Some (nowMs now)) (appointment_scheduled_at s)
    (reminders_sent_form s) (reminders_sent_appointment s).

Definition markCompleted (now : Clock) (sessionId : string)
    (formData : string) : M Session :=
  fun st =>
    let st := with_sessions (update (by_session_id sessionId) (completeRow now formData)) st in
    match select (by_session_id sessionId) (sessions st) with
    | [] => (Throw "Session not found", st)
    | session :: _ => (Return session, clearPendingUser (phone_number session) st)
    end.

Definition expireSession (now : Clock) (sessionId : string) (st : State) : State :=
  let st := snd (cancelSessionMessages now sessionId MATCH_ALL st) in
  let phoneNumber :=
    match select (by_session_id sessionId) (sessions st) with
    | row :: _ => Some (phone_number row)
    | [] => None
    end in
  let st := with_sessions (update (by_session_id sessionId) (set_status expired)) st in
  match phoneNumber with
  | Some (String c rest) => clearPendingUser (String c rest) st
  | _ => st
  end.

(** [expireSession] when calls on the queue may reject: the messages whose
    job the queue does not let go stay [pending], and the session is expired
    all the same. *)
Definition expireSessionVia (removes : QueueCalls) (now : Clock)
    (sessionId : string) (st : State) : State :=
  let st := snd (cancelSessionMessagesVia removes now sessionId MATCH_ALL st) in
  let phoneNumber :=
    match select (by_session_id sessionId) (sessions st) with
    | row :: _ => Some (phone_number row)
    | [] => None
    end in
  let st := with_sessions (update (by_session_id sessionId) (set_status expired)) st in
  match phoneNumber with
  | Some (String c rest) => clearPendingUser (String c rest) st
  | _ => st
  end.

Definition getSession (now : Clock) (sessionId : string)
    (st : State) : option Session * State :=
  match select (by_session_id sessionId) (sessions st) with
  | [] => (None, st)
  | session :: _ =>
    if expires_at session <? nowMs now
    then (None, expireSession now sessionId st)
    else (Some session, st)
  end.

Definition getSessionVia (removes : QueueCalls) (now : Clock) (sessionId : string)
    (st : State) : option Session * State :=
  match select (by_session_id sessionId) (sessions st) with
  | [] => (None, st)
  | session :: _ =>
    if expires_at session <? nowMs now
    then (None, expireSessionVia removes now sessionId st)
    else (Some session, st)
  end.

(** The loop over the rows that [cleanupExpiredSessions] has expired. *)
Fixpoint cleanupEach (now : Clock) (rows : list Session) (st : State) : State :=
  match rows with
  | [] => st
  | row :: rest =>
    let st := snd (cancelSessionMessages now (session_id row) MATCH_ALL st) in
    let st := match phone_number row with
              | String c r => clearPendingUser (String c r) st
              | EmptyString => st
              end in
    cleanupEach now rest st
  end.

Definition cleanupExpiredSessions (now : Clock) (st : State) : Z * State :=
  let lapsed (s : Session) :=
    (expires_at s <? nowMs now) && SessionStatus_eqb (status s) active in
  let rows := select lapsed (sessions st) in
  let st := with_sessions (update lapsed (set_status expired)) st in
  (Z.of_nat (List.length rows), cleanupEach now rows st).

(** The clean-up when calls on the queue may reject. *)
Fixpoint cleanupEachVia (removes : QueueCalls) (now : Clock)
    (rows : list Session) (st : State) : State :=
  match rows with
  | [] => st
  | row :: rest =>
    let st := snd (cancelSessionMessagesVia removes now (session_id row) MATCH_ALL st) in
    let st := match phone_number row with
              | String c r => clearPendingUser (String c r) st
              | EmptyString => st
              end in
    cleanupEachVia removes now rest st
  end.

Definition cleanupExpiredSessionsVia (removes : QueueCalls) (now : Clock)
    (st : State) : Z * State :=
  let lapsed (s : Session) :=
    (expires_at s <? nowMs now) && SessionStatus_eqb (status s) active in
  let rows := select lapsed (sessions st) in
  let st := with_sessions (update lapsed (set_status expired)) st in
  (Z.of_nat (List.length rows), cleanupEachVia removes now rows st).

End SessionManager.

(** ** server.js: [POST /api/bot/appointment-scheduled] *)
Module Server.
Import Store MessageScheduler.

Record Response : Type := mkResponse {
  http_status : Z;
  matched : option (string * string)
}.

Definition bookRow (now : Clock) (s : Session) : Session :=
  set_status completed (set_appointment_scheduled_at (Some (nowMs now)) s).

(** The row that [ORDER BY created_at DESC LIMIT 1] keeps. *)
Fixpoint latest (rows : list Session) : option Session :=
  match rows with
  | [] => None
  | r :: rest =>
    match latest rest with
    | Some r' => if created_at r <? created_at r' then Some r' else Some r
    | None => Some r
    end
  end.

Definition isNull (v : option Z) : bool :=
  match v with None => true | Some _ => false end.

(** The handler, with a database pool in place.  The statement of the
    phone branch puts [ORDER BY ... LIMIT 1] in an [UPDATE]; PostgreSQL
    has no such clause and rejects the statement, which the handler
    answers with 500.  [updateLimit] says whether the server accepts the
    clause; it is [false] for PostgreSQL. *)
Definition appointmentScheduled (updateLimit : bool) (now : Clock)
    (phone session_id_ : option string) (st : State) : Response * State :=
  if negb (truthy phone) && negb (truthy session_id_) then (mkResponse 400 None, st)
  else
    let answer (target : option Session) (st : State) :=
      match target with
      | Some row =>
        (mkResponse 200 (Some (session_id row, phone_number row)),
         with_sessions (update (by_session_id (session_id row)) (bookRow now)) st)
      | None => (mkResponse 404 None, st)
      end in
    match session_id_, phone with
    | Some (String c r), _ =>
      answer (hd_error (select (by_session_id (String c r)) (sessions st))) st
    | _, Some phone =>
      let normalizedPhone := keepChars (fun c => isDigit c || Ascii.eqb c "+") phone in
      if updateLimit then
        answer (latest (select (fun s => String.eqb (phone_number s) normalizedPhone
                                          && isNull (appointment_scheduled_at s))
                               (sessions st))) st
      else (mkResponse 500 None, st)
    | _, None => (mkResponse 400 None, st)
    end.

End Server.

(** ** lib/reminder-scheduler.js: the periodic sweep *)
Module ReminderScheduler.
Import Store MessageScheduler ReminderPolicy.

Definition AVI_WEBSITE_API_URL : string := "https://avi-website-frankfurt.onrender.com".

Definition APPOINTMENT_LINK : string := "https://www.baz-f.co.il/appointment.html".

(** [REMINDER_MESSAGES] has a text under the key
    [`${type}Reminder${stage}`]; [getReminderMessage] throws otherwise. *)
Definition hasReminderMessage (type : string) (stage : Z) : bool :=
  if String.eqb type "form" then (1 <=? stage) && (stage <=? 3)
  else if String.eqb type "appointment" then (1 <=? stage) && (stage <=? 4)
  else false.

Definition isNotNull (v : option Z) : bool :=
  match v with Some _ => true | None => false end.

(** The sweep's view of the chat client: [ready] is [whatsappClient]
    being set, [transport] what a send does. *)
Record Client : Type := mkClient {
  ready : bool;
  transport : Transport
}.

(** [sendFormReminder] and [sendAppointmentReminder] differ in the link
    and in the list they extend.  Every failure is caught and logged. *)
Definition sendReminder (type : string) (link : string) (client : Client)
    (session : Session) (stage : Z) (st : State) : State :=
  if hasReminderMessage type stage then
    if ready client && truthy (chat_id session) then
      let msg := {| to := chat_id session;
                    body := ReminderText type stage link;
                    media := None |} in
      if transport client msg then
        let st := with_outbox (fun o => (o ++ [msg])%list) st in
        let f := reminders_sent_form session in
        let a := reminders_sent_appointment session in
        let '(f, a) :=
          if String.eqb type "form" then ((f ++ [stage])%list, a)
          else (f, (a ++ [stage])%list) in
        with_sessions
          (update (by_session_id (session_id session)) (set_reminders_sent f a)) st
      else st
    else st
  else st.

Definition sendFormReminder (client : Client) (session : Session) (stage : Z)
    : State -> State :=
  let formUrl := AVI_WEBSITE_API_URL ++ "/chatbot?session=" ++ session_id session in
  sendReminder "form" formUrl client session stage.

Definition sendAppointmentReminder (client : Client) (session : Session) (stage : Z)
    : State -> State :=
  sendReminder "appointment" APPOINTMENT_LINK client session stage.

(** [new Date(column)]: a [Date] object, which is truthy; for a [null]
    column it is the epoch. *)
Definition newDate (column : option Z) : option Z :=
  Some (match column with Some t => t | None => 0 end).

(** The loop over the selected rows: the policy is asked with
    [new Date(session.form_sent_at)] (or [appointment_sent_at]), and
    [if (nextStage)] is false for [null] and for [0]. *)
Fixpoint sweepRows (IS_TEST_MODE : bool) (now : Clock) (type : string)
    (sentAt : Session -> option Z) (alreadySent : Session -> list Z)
    (send : Session -> Z -> State -> State)
    (rows : list Session) (st : State) : State :=
  match rows with
  | [] => st
  | session :: rest =>
    let st :=
      match getNextReminderStage IS_TEST_MODE now (newDate (sentAt session))
              (alreadySent session) type with
      | Return (Some nextStage) =>
        if nextStage =? 0 then st else send session nextStage st
      | _ => st
      end in
    sweepRows IS_TEST_MODE now type sentAt alreadySent send rest st
  end.

Definition needsFormReminder (now : Clock) (s : Session) : bool :=
  SessionStatus_eqb (status s) active
  && isNotNull (form_sent_at s)
  && negb (isNotNull (form_completed_at s))
  && (nowMs now <? expires_at s).

Definition needsAppointmentReminder (now : Clock) (s : Session) : bool :=
  SessionStatus_eqb (status s) completed
  && isNotNull (appointment_sent_at s)
  && negb (isNotNull (appointment_scheduled_at s))
  && (nowMs now <? expires_at s).

Definition checkFormReminders (IS_TEST_MODE : bool) (now : Clock)
    (client : Client) (st : State) : State :=
  if negb IS_TEST_MODE && negb (OperatingHours.isWithinOperatingHours now) then st
  else
    let rows := select (needsFormReminder now) (sessions st) in
    sweepRows IS_TEST_MODE now "form" form_sent_at reminders_sent_form
              (sendFormReminder client) rows st.

Definition checkAppointmentReminders (IS_TEST_MODE : bool) (now : Clock)
    (client : Client) (st : State) : State :=
  if negb IS_TEST_MODE && negb (OperatingHours.isWithinOperatingHours now) then st
  else
    let rows := select (needsAppointmentReminder now) (sessions st) in
    sweepRows IS_TEST_MODE now "appointment" appointment_sent_at
              reminders_sent_appointment (sendAppointmentReminder client) rows st.

Definition checkAndSendReminders (IS_TEST_MODE : bool) (now : Clock)
    (client : Client) (st : State) : State :=
  checkAppointmentReminders IS_TEST_MODE now client
    (checkFormReminders IS_TEST_MODE now client st).

End ReminderScheduler.

(** ** The system as a whole

    One step is one call of an operation above, at any clock reading, with
    any arguments and any behaviour of the transport.  The worker may be
    handed any job data at all, whether or not the queue still has the
    job: this covers retries and jobs picked up again after a stall.  The
    operations that cancel messages occur twice: as they run when every
    call on the queue resolves, and with any behaviour [removes] of the
    queue, which covers a job that the queue will not remove because a
    worker holds it.  Each call runs to completion before the next one
    starts: a cancellation that lands between the status check of the
    worker and its send is not a sequence of steps. *)
Module System.
Import Store MessageScheduler.

Inductive step : State -> State -> Prop :=
| step_scheduleMessage now p st :
    step st (snd (scheduleMessage now p st))
| step_scheduleAppointmentReminders now sid phone contents t st :
    step st (snd (scheduleAppointmentReminders now sid phone contents t st))
| step_cancelScheduledMessage now i st :
    step st (snd (cancelScheduledMessage now i st))
| step_cancelSessionMessages now sid pattern st :
    step st (snd (cancelSessionMessages now sid pattern st))
| step_cancelAllPendingMessages now st :
    step st (snd (cancelAllPendingMessages now st))
| step_processScheduledMessage now transport job st :
    step st (snd (processScheduledMessage now transport job st))
| step_workerRun now transport jid st :
    step st (snd (Worker.run now transport jid st))
| step_createSession now phone chat random st :
    step st (snd (SessionManager.createSession now phone chat random st))
| step_markCompleted now sid formData st :
    step st (snd (SessionManager.markCompleted now sid formData st))
| step_expireSession now sid st :
    step st (SessionManager.expireSession now sid st)
| step_getSession now sid st :
    step st (snd (SessionManager.getSession now sid st))
| step_cleanupExpiredSessions now st :
    step st (snd (SessionManager.cleanupExpiredSessions now st))
| step_appointmentScheduled updateLimit now phone sid st :
    step st (snd (Server.appointmentScheduled updateLimit now phone sid st))
| step_checkAndSendReminders testMode now client st :
    step st (ReminderScheduler.checkAndSendReminders testMode now client st)
| step_cancelScheduledMessageVia removes now i st :
    step st (snd (cancelScheduledMessageVia removes now i st))
| step_cancelSessionMessagesVia removes now sid pattern st :
    step st (snd (cancelSessionMessagesVia removes now sid pattern st))
| step_cancelAllPendingMessagesVia removes now st :
    step st (snd (cancelAllPendingMessagesVia removes now st))
| step_createSessionVia removes now phone chat random st :
    step st (snd (SessionManager.createSessionVia removes now phone chat random st))
| step_expireSessionVia removes now sid st :
    step st (SessionManager.expireSessionVia removes now sid st)
| step_getSessionVia removes now sid st :
    step st (snd (SessionManager.getSessionVia removes now sid st))
| step_cleanupExpiredSessionsVia removes now st :
    step st (snd (SessionManager.cleanupExpiredSessionsVia removes now st)).

Inductive reachable (st : State) : State -> Prop :=
| reach_refl : reachable st st
| reach_step st1 st2 : reachable st st1 -> step st1 st2 -> reachable st st2.

Definition idsBelow (st : State) : Prop :=
  forall m, In m (scheduled_messages st) -> id m < next_id st.

(** Primary keys are unique and the sequence behind [scheduled_messages.id]
    is ahead of every row. *)
Definition wellFormed (st : State) : Prop :=
  NoDup (map id (scheduled_messages st))
  /\ idsBelow st
  /\ NoDup (map session_id (sessions st)).


(** At most one active session per phone number. *)
Definition oneActivePerPhone (rows : list Session) : Prop :=
  forall phoneNumber,
    (List.length (select (SessionManager.activeFor phoneNumber) rows) <= 1)%nat.

(** A sequence of [createSession] calls, each with its clock reading and
    arguments; calls that throw leave their (partial) effects. *)
Fixpoint createSessions
    (calls : list (Clock * string * option string * string)) (st : State) : State :=
  match calls with
  | [] => st
  | (now, phoneNumber, chatId, random) :: rest =>
    createSessions rest (snd (SessionManager.createSession now phoneNumber chatId random st))
  end.


End System.

(** ** lib/operating-hours.js: the next opening *)
Module OperatingHoursNext.
Import OperatingHours.

(** A [Date] is given here by its reading in the zone of the server: the
    milliseconds between 1970-01-01T00:00 local time and the local time it
    shows.  [setDate] and [setHours] set the local calendar fields, so this
    reading of the result is exact; its epoch value depends on the offset
    of the zone on the target day, which need not be today's.

    [nextTime.setDate(nextTime.getDate() + days); nextTime.setHours(9, 0, 0, 0)]
    on a copy of [now]: 09:00 local time, [days] days after today. *)
Definition atNine (now : Clock) (days : Z) : Z :=
  (JSDate.localMs now / MS_PER_DAY + days) * MS_PER_DAY + 9 * MS_PER_HOUR.

Definition getNextOperatingTime (now : Clock) : Z :=
  let day := JSDate.getDay now in
  let hour := JSDate.getHours now in
  if isWithinOperatingHours now then JSDate.localMs now
  else if day =? 6 then atNine now 1
  else if (day =? 5) && (15 <=? hour) then atNine now 2
  else if hour <? 9 then atNine now 0
  else if 21 <=? hour then atNine now 1
  else atNine now 1.

End OperatingHoursNext.

(** ** lib/reminder-messages.js *)
Module ReminderMessages.

Definition getReminderTypes : list string := ["form"; "appointment"].

Definition getMaxStage (type : string) : Z :=
  if String.eqb type "form" then 3
  else if String.eqb type "appointment" then 4
  else 0.

End ReminderMessages.

(** ** stupid-bot.js: phone numbers and chat ids *)
Module BotHelpers.
Import MessageScheduler.

(** [s.split('@')[0]]: the text before the first [@]. *)
Fixpoint beforeAt (s : string) : string :=
  match s with
  | EmptyString => EmptyString
  | String c rest => if Ascii.eqb c "@" then EmptyString else String c (beforeAt rest)
  end.

(** [chatId] is a string or [null]; the empty string is falsy. *)
Definition extractPhoneNumber (chatId : option string) : option string :=
  match chatId with
  | Some (String c rest) => Some (beforeAt (String c rest))
  | _ => None
  end.

Definition formatPhoneNumber (phoneNumber : option string) : option string :=
  match phoneNumber with
  | Some (String c rest) => Some (keepChars isDigit (String c rest))
  | _ => None
  end.

End BotHelpers.

(** ** The LID mapping helper

    The table [lid_mappings], with [lid] as its key: one row per [lid], in
    the order of first insertion. *)
Module LidMapping.

Record Mapping : Type := mkMapping {
  lid : string;
  lm_phone_number : string;
  lm_name : option string;
  lm_created_at : Z;
  lm_updated_at : Z
}.

(** [dbPool] of the module: [None] until [setDbPool] is called. *)
Definition Db : Type := option (list Mapping).

(** [INSERT ... ON CONFLICT (lid) DO UPDATE SET phone_number =
    EXCLUDED.phone_number, name = COALESCE(EXCLUDED.name, lid_mappings.name),
    updated_at = NOW()] *)
Fixpoint upsert (now : Z) (cleanLid cleanPhone : string) (name : option string)
    (rows : list Mapping) : list Mapping :=
  match rows with
  | [] => [mkMapping cleanLid cleanPhone name now now]
  | r :: rest =>
    if String.eqb (lid r) cleanLid then
      mkMapping (lid r) cleanPhone
        (match name with Some n => Some n | None => lm_name r end)
        (lm_created_at r) now :: rest
    else r :: upsert now cleanLid cleanPhone name rest
  end.

Definition storeLidMapping (now : Z) (lid_ phoneNumber : option string)
    (name : option string) (db : Db) : bool * Db :=
  match db with
  | None => (false, db)
  | Some rows =>
    match lid_, phoneNumber with
    | Some (String a l), Some (String b p) =>
      let cleanLid := BotHelpers.beforeAt (String a l) in
      let cleanPhone := BotHelpers.beforeAt (String b p) in
      (true, Some (upsert now cleanLid cleanPhone name rows))
    | _, _ => (false, db)
    end
  end.

Definition getPhoneFromLid (lid_ : option string) (db : Db) : option string :=
  match db, lid_ with
  | Some rows, Some (String a l) =>
    let cleanLid := BotHelpers.beforeAt (String a l) in
    match filter (fun r => String.eqb (lid r) cleanLid) rows with
    | r :: _ => Some (lm_phone_number r)
    | [] => None
    end
  | _, _ => None
  end.

End LidMapping.

(** ** lib/sessionManager.js: further queries *)
Module SessionQueries.
Import Store MessageScheduler SessionManager.


Definition getAllActiveSessions (st : State) : list (string * string) :=
  map (fun s => (session_id s, phone_number s))
      (select (fun s => SessionStatus_eqb (status s) active) (sessions st)).

Definition expireAllActiveSessions (st : State) : Z * State :=
  let isActive (s : Session) := SessionStatus_eqb (status s) active in
  (Z.of_nat (List.length (select isActive (sessions st))),
   with_sessions (update isActive (set_status expired)) st).

End SessionQueries.

(** ** The form submission handler ([POST] of the chatbot's form)

    The texts come from [getMessage]; whether the request to Monday.com
    goes through is [mondayUp].  The handler's clock readings are taken at
    one instant.  The answer is the HTTP status. *)
Module FormSubmission.
Import Store MessageScheduler SessionManager TimezoneHelper.






End FormSubmission.

(** ** Notions of the specification, and concrete scenarios *)
Module Scenario.
Import Store TimezoneHelper.

(** The clock of a server that runs in the Israel zone, at the wall-clock
    time [dt], in a summer week without a change of the offset (UTC+3). *)
Definition israelClock (dt : DateTime) : Clock :=
  mkClock (toDate 180 dt) (-180) 180 (fun _ => 180).

(** The clock of a server whose zone is [offset] minutes east of UTC, at
    the wall-clock time [dt] of that zone. *)
Definition zoneClock (offset : Z) (dt : DateTime) : Clock :=
  mkClock (toDate offset dt) (- offset) offset (fun _ => offset).

(** The calendar date of [dt] is in the holiday list. *)
Definition onListedHoliday (dt : DateTime) : bool :=
  OperatingHours.includes_str OperatingHours.JEWISH_HOLIDAYS
    (Calendar.isoDate (dayNumber dt)).

(** A rule passes the three checks of the loop body of
    [getNextReminderStage]: not sent yet, delay elapsed, inside its hour
    window if it has one. *)
Definition passesChecks (now : Clock) (minutesSince : Q)
    (alreadySent : list Z) (rule : ReminderPolicy.TimingRule) : bool :=
  negb (ReminderPolicy.includes alreadySent (ReminderPolicy.stage rule))
  && negb (ReminderPolicy.Qltb minutesSince
             (inject_Z (ReminderPolicy.delayMinutes rule)))
  && match ReminderPolicy.windowStart rule, ReminderPolicy.windowEnd rule with
     | Some ws, Some we => OperatingHours.isWithinTimeWindow now ws we
     | _, _ => true
     end.

(** What a sweep may change: it appends reminder texts to the outbox and
    rewrites [reminders_sent]; the rows of [sessions] keep their ids and
    statuses, and the job tables, the id sequence and the [pendingUsers] map
    are as before. *)
Definition sweptFrom (st st' : State) : Prop :=
  scheduled_messages st' = scheduled_messages st
  /\ queue st' = queue st
  /\ next_id st' = next_id st
  /\ pendingUsersMap st' = pendingUsersMap st
  /\ map session_id (sessions st') = map session_id (sessions st)
  /\ map status (sessions st') = map status (sessions st)
  /\ exists extra,
       outbox st' = (outbox st ++ extra)%list
       /\ forall x, In x extra ->
            media x = None
            /\ truthy (to x) = true
            /\ exists type stage link, body x = ReminderText type stage link.

(** No stage is recorded twice in a session's [reminders_sent]. *)
Definition stagesDistinct (rows : list Session) : Prop :=
  forall s, In s rows ->
    NoDup (reminders_sent_form s) /\ NoDup (reminders_sent_appointment s).

(** How a step may change a row of [sessions]: id and phone stay, and the
    status does not become [active]. *)
Definition rowEvolves (s s' : Session) : Prop :=
  session_id s' = session_id s
  /\ phone_number s' = phone_number s
  /\ (status s' = active -> status s = active).

(** How a step may change [scheduled_messages]: rows keep their ids, and
    new rows take ids from the sequence. *)
Definition messagesEvolve (st st' : State) : Prop :=
  next_id st <= next_id st'
  /\ exists new,
       map id (scheduled_messages st') = (map id (scheduled_messages st) ++ new)%list
       /\ NoDup new
       /\ forall i, In i new -> next_id st <= i < next_id st'.

(** The session exists and is not active. *)
Definition notActive (sessionId : string) (st : State) : Prop :=
  (exists s, In s (sessions st) /\ session_id s = sessionId)
  /\ forall s, In s (sessions st) -> session_id s = sessionId -> status s <> active.

(** Day numbers: Sunday 6 April 2025, Sunday 13 April 2025 (Pesach), and
    the week of Thursday 8 May 2025. *)
Definition SUN_2025_04_06 : Z := 20184.
Definition MON_2025_04_07 : Z := 20185.
Definition SUN_2025_04_13 : Z := 20191.
Definition THU_2025_05_08 : Z := 20216.
Definition FRI_2025_05_09 : Z := 20217.
Definition SAT_2025_05_10 : Z := 20218.
Definition SUN_2025_05_11 : Z := 20219.
Definition MON_2025_05_12 : Z := 20220.
Definition TUE_2025_05_13 : Z := 20221.
Definition WED_2025_05_14 : Z := 20222.

Definition thursday_evening : DateTime := at_ THU_2025_05_08 21 0.
Definition holiday_morning : DateTime := at_ SUN_2025_04_13 10 0.
Definition thursday_morning : DateTime := at_ THU_2025_05_08 10 0.

Definition saturday_noon : Clock := israelClock (at_ SAT_2025_05_10 12 0).

Definition phone : string := "972501234567".
Definition chat : string := "972501234567@s.whatsapp.net".

(** A user triggers the bot on Thursday 8 May 2025 at 17:30. *)
Definition trigger : Clock := israelClock (at_ THU_2025_05_08 17 30).
Definition sid : string := SessionManager.generateSessionId trigger "k3x9q".
Definition st_active : State :=
  snd (SessionManager.createSession trigger phone (Some chat) "k3x9q" Store.empty).

(** A transport that accepts every send, and a chat client that is up. *)
Definition transport_ok : MessageScheduler.Transport := fun _ => true.
Definition client_ok : ReminderScheduler.Client :=
  ReminderScheduler.mkClient true transport_ok.

(** A session whose form link was never sent. *)
Definition never_sent : Session :=
  {| session_id := "session_0_none"; phone_number := phone;
     chat_id := Some chat; created_at := 0; expires_at := 86400000;
     form_data := "{}"; status := active; completed_at := None;
     form_sent_at := None; form_completed_at := None;
     appointment_sent_at := None; appointment_scheduled_at := None;
     reminders_sent_form := []; reminders_sent_appointment := [] |}.

(** A sweep on Sunday 6 April 2025 at 18:30 and one on the next morning at
    10:00, for a form link sent three days before the first. *)
Definition sweep_evening : Clock := israelClock (at_ SUN_2025_04_06 18 30).
Definition sweep_morning : Clock := israelClock (at_ MON_2025_04_07 10 0).
Definition link_sent : Z := nowMs sweep_evening - 3 * MS_PER_DAY.

Definition active_row : Session :=
  {| session_id := sid; phone_number := phone; chat_id := Some chat;
     created_at := nowMs trigger;
     expires_at := nowMs trigger + SessionManager.SESSION_TTL_MS;
     form_data := "{}"; status := active; completed_at := None;
     form_sent_at := Some (nowMs trigger); form_completed_at := None;
     appointment_sent_at := None; appointment_scheduled_at := None;
     reminders_sent_form := []; reminders_sent_appointment := [] |}.

(** The form link is enqueued at once; the first attempt to send it fails
    (the socket is down), and Bull keeps the job for a retry.  A minute
    later all messages of the session are cancelled. *)
Definition link_job_id : string :=
  "chatbot_link_" ++ sid ++ "_" ++ Z_to_string (nowMs trigger).
Definition link_job : JobData :=
  {| scheduledMessageId := 1; sessionId := sid; phoneNumber := phone;
     chatId := Some chat; messageType := "chatbot_link";
     messageContent := "link"; mediaUrl := None |}.
Definition a_minute_later : Clock := israelClock (at_ THU_2025_05_08 17 31).

(** The form is completed on Thursday at 17:40 and the four appointment
    reminders are enqueued; the user books an appointment at 17:50; the
    first reminder comes due on Sunday at 09:00. *)
Definition form_done : Clock := israelClock (at_ THU_2025_05_08 17 40).
Definition booking : Clock := israelClock (at_ THU_2025_05_08 17 50).
Definition sunday_nine : Clock := israelClock (at_ SUN_2025_05_11 9 0).
Definition st_completed : State :=
  snd (SessionManager.markCompleted form_done sid "{}" st_active).
Definition st_chain : State :=
  snd (MessageScheduler.scheduleAppointmentReminders form_done sid phone
         ("r1", "r2", "r3", "r4")
         (getNowInIsrael (israelOffset form_done) (nowMs form_done))
         st_completed).
Definition st_booked : State :=
  snd (Server.appointmentScheduled false booking None (Some sid) st_chain).
Definition thursday_seven : Clock := israelClock (at_ THU_2025_05_08 19 0).
Definition reminder1_job_id : string :=
  "appointment_reminder_1_" ++ sid ++ "_" ++ Z_to_string (nowMs form_done).

(** The 19:00 reminder is enqueued after the trigger; the form is then
    completed without the reminder being cancelled. *)
Definition st_reminded : State :=
  snd (MessageScheduler.schedule19pmReminder trigger sid phone "r19"
         (getNowInIsrael (israelOffset trigger) (nowMs trigger)) st_active).
Definition st_reminded_completed : State :=
  snd (SessionManager.markCompleted form_done sid "{}" st_reminded).
Definition reminder19_job : JobData :=
  {| scheduledMessageId := 1; sessionId := sid; phoneNumber := phone;
     chatId := Some chat; messageType := "form_reminder_19pm";
     messageContent := "r19"; mediaUrl := None |}.

End Scenario.

(** ** Notions used in the statements *)
Module Notions.
Import Store MessageScheduler ReminderScheduler.


(** Rows that differ at most in their lists of sent reminders. *)
Definition sameButReminders (s s' : Session) : Prop :=
  s' = set_reminders_sent (reminders_sent_form s') (reminders_sent_appointment s') s.

(** Every character of [s] satisfies [p]. *)
Fixpoint everyChar (p : ascii -> bool) (s : string) : bool :=
  match s with
  | EmptyString => true
  | String c rest => p c && everyChar p rest
  end.

(** The chat id that [scheduleMessage] settles on, the id of its job, the
    row it inserts and the job it adds. *)
Definition chatOf (p : ScheduleParams) (st : State) : option string :=
  if negb (truthy (p_chatId p)) && truthy (Some (p_sessionId p)) then
    match select (by_session_id (p_sessionId p)) (sessions st) with
    | row :: _ => chat_id row
    | [] => p_chatId p
    end
  else p_chatId p.

Definition jobIdOf (now : Clock) (p : ScheduleParams) : string :=
  (p_messageType p ++ "_" ++ p_sessionId p ++ "_" ++ Z_to_string (nowMs now))%string.

Definition rowOf (now : Clock) (p : ScheduleParams) (st : State) : ScheduledMessage :=
  {| id := next_id st;
     msg_session_id := p_sessionId p;
     msg_phone_number := p_phoneNumber p;
     msg_chat_id := chatOf p st;
     message_type := p_messageType p;
     message_content := p_messageContent p;
     scheduled_for := p_scheduledFor p;
     msg_status := pending;
     job_id := Some (jobIdOf now p);
     sent_at := None;
     error_message := None;
     retry_count := 0;
     msg_created_at := nowMs now;
     updated_at := nowMs now |}.

Definition jobOf (now : Clock) (p : ScheduleParams) (st : State) : Job :=
  {| jobId := jobIdOf now p;
     data := {| scheduledMessageId := next_id st;
                sessionId := p_sessionId p;
                phoneNumber := p_phoneNumber p;
                chatId := chatOf p st;
                messageType := p_messageType p;
                messageContent := p_messageContent p;
                mediaUrl := p_mediaUrl p |};
     delay := TimezoneHelper.toDate (israelOffsetAt now (p_scheduledFor p))
                (p_scheduledFor p) - nowMs now;
     attemptsMade := 0;
     finished := false |}.

Definition scheduled (now : Clock) (p : ScheduleParams) (st : State) : State :=
  {| sessions := sessions st;
     scheduled_messages := (scheduled_messages st ++ [rowOf now p st])%list;
     next_id := next_id st + 1;
     queue := (queue st ++ [jobOf now p st])%list;
     pendingUsersMap := pendingUsersMap st;
     outbox := outbox st |}.

End Notions.

(** * Properties *)

Local Open Scope list_scope.

Module ListFacts.

Lemma NoDup_map_eq {A B : Type} (f : A -> B) (l : list A) (x y : A) :
  NoDup (map f l) -> In x l -> In y l -> f x = f y -> x = y.
Proof.
  induction l as [|a l IH]; cbn; [tauto|].
  intros Hnd [E1|H1] [E2|H2] Hf; inversion Hnd as [|? ? Hnot Hnd']; subst.
  - reflexivity.
  - exfalso. apply Hnot. rewrite Hf. apply in_map. exact H2.
  - exfalso. apply Hnot. rewrite <- Hf. apply in_map. exact H1.
  - apply IH; assumption.
Qed.

Lemma filter_nil_all {A : Type} (p : A -> bool) (l : list A) :
  filter p l = [] -> forall x, In x l -> p x = false.
Proof.
  intros H x Hx. destruct (p x) eqn:E; [|reflexivity].
  assert (In x (filter p l)) by (apply filter_In; tauto).
  rewrite H in *. contradiction.
Qed.

Lemma filter_head {A : Type} (p : A -> bool) (l : list A) x rest :
  filter p l = x :: rest -> In x l /\ p x = true.
Proof.
  intros H. apply filter_In. rewrite H. left. reflexivity.
Qed.

End ListFacts.

(** ** Wall-clock arithmetic *)
Module TimeFacts.
Import TimezoneHelper.

Lemma dayNumber_plusDays n t : dayNumber (plusDays n t) = dayNumber t + n.
Proof.
  unfold dayNumber, plusDays, MS_PER_DAY.
  rewrite Z.div_add by lia. reflexivity.
Qed.

Lemma dayNumber_setHour h t : 0 <= h < 24 -> dayNumber (setHour h t) = dayNumber t.
Proof.
  intros Hh. unfold setHour, dayNumber, MS_PER_DAY, MS_PER_HOUR.
  rewrite Z.add_comm, Z.div_add by lia.
  rewrite Z.div_small by lia. reflexivity.
Qed.

Lemma hour_setHour h t : 0 <= h < 24 -> hour (setHour h t) = h.
Proof.
  intros Hh. unfold setHour, hour, MS_PER_DAY, MS_PER_HOUR.
  rewrite Z.add_comm, Z.mod_add by lia.
  rewrite Z.mod_small by lia.
  apply Z.div_mul. lia.
Qed.

Lemma weekday_range t : 1 <= weekday t <= 7.
Proof.
  unfold weekday. pose proof (Z.mod_pos_bound (dayNumber t + 3) 7). lia.
Qed.

Lemma weekday_shift n t :
  weekday (plusDays n t) = (weekday t - 1 + n) mod 7 + 1.
Proof.
  unfold weekday. rewrite dayNumber_plusDays.
  replace (dayNumber t + n + 3) with ((dayNumber t + 3) + n) by lia.
  rewrite Z.add_mod by lia.
  replace ((dayNumber t + 3) mod 7 + 1 - 1) with ((dayNumber t + 3) mod 7) by lia.
  rewrite (Z.add_mod ((dayNumber t + 3) mod 7) n) by lia.
  rewrite Z.mod_mod by lia. reflexivity.
Qed.

Lemma weekday_setHour h t : 0 <= h < 24 -> weekday (setHour h t) = weekday t.
Proof. intros Hh. unfold weekday. now rewrite dayNumber_setHour. Qed.

Lemma hour_range t : 0 <= hour t < 24.
Proof.
  unfold hour, MS_PER_DAY, MS_PER_HOUR.
  pose proof (Z.mod_pos_bound t 86400000).
  split.
  - apply Z.div_pos; lia.
  - apply Z.div_lt_upper_bound; lia.
Qed.

(** The wall clock as day, hour and remainder. *)
Lemma split_time t :
  exists r, t = dayNumber t * MS_PER_DAY + hour t * MS_PER_HOUR + r
            /\ 0 <= r < MS_PER_HOUR.
Proof.
  unfold dayNumber, hour, MS_PER_DAY, MS_PER_HOUR.
  exists ((t mod 86400000) mod 3600000). split.
  - pose proof (Z.div_mod t 86400000).
    pose proof (Z.div_mod (t mod 86400000) 3600000). lia.
  - apply Z.mod_pos_bound. lia.
Qed.

Lemma isIsraeliWeekend_spec t :
  isIsraeliWeekend t = true <-> weekday t = 5 \/ weekday t = 6.
Proof.
  unfold isIsraeliWeekend, WEEKDAYS.FRIDAY, WEEKDAYS.SATURDAY.
  rewrite orb_true_iff, !Z.eqb_eq. reflexivity.
Qed.

Lemma isIsraeliWeekday_spec t :
  isIsraeliWeekday t = true <-> weekday t <> 5 /\ weekday t <> 6.
Proof.
  pose proof (weekday_range t) as Hr.
  unfold isIsraeliWeekday, ISRAELI_WEEKDAYS. cbn [existsb].
  unfold WEEKDAYS.SUNDAY, WEEKDAYS.MONDAY, WEEKDAYS.TUESDAY,
    WEEKDAYS.WEDNESDAY, WEEKDAYS.THURSDAY.
  rewrite !orb_true_iff, !Z.eqb_eq. split; intros H.
  - lia.
  - assert (weekday t = 7 \/ weekday t = 1 \/ weekday t = 2
            \/ weekday t = 3 \/ weekday t = 4) by lia.
    tauto.
Qed.

Lemma isWithinBusinessHours_spec t :
  isWithinBusinessHours t None = true <-> 9 <= hour t < 20.
Proof.
  unfold isWithinBusinessHours. cbn.
  rewrite andb_true_iff, Z.leb_le, Z.ltb_lt. reflexivity.
Qed.

Lemma isValidReminderTime_spec t :
  isValidReminderTime t None = true
  <-> (weekday t <> 5 /\ weekday t <> 6) /\ 9 <= hour t < 20.
Proof.
  unfold isValidReminderTime.
  rewrite andb_true_iff, isIsraeliWeekday_spec, isWithinBusinessHours_spec.
  reflexivity.
Qed.

Lemma setHour_later h k t :
  0 <= h < 24 -> 1 <= k -> t < setHour h (plusDays k t).
Proof.
  intros Hh Hk. unfold setHour. rewrite dayNumber_plusDays.
  destruct (split_time t) as (r & Ht & Hr).
  pose proof (hour_range t). unfold MS_PER_DAY, MS_PER_HOUR in *. nia.
Qed.

Lemma setHour_later_today h t : hour t < h -> t < setHour h t.
Proof.
  intros Hh. unfold setHour.
  destruct (split_time t) as (r & Ht & Hr).
  unfold MS_PER_DAY, MS_PER_HOUR in *. nia.
Qed.

End TimeFacts.

(** ** Clock and calendar *)
Module CalendarProps.
Import TimezoneHelper TimeFacts.

Lemma rolls_forward_rec (n : nat) (t : DateTime) :
  isValidReminderTime t None = false ->
  exists r,
    getNextValidBusinessTime_rec (S (S n)) t None = Some r
    /\ t < r
    /\ isValidReminderTime r None = true
    /\ (weekday t = WEEKDAYS.THURSDAY -> 20 <= hour t ->
        r = setHour 9 (plusDays 3 t)).
Proof.
  intros Hinv.
  assert (Hnv : ~ ((weekday t <> 5 /\ weekday t <> 6) /\ 9 <= hour t < 20)).
  { rewrite <- isValidReminderTime_spec, Hinv. discriminate. }
  pose proof (weekday_range t) as Hw.
  pose proof (hour_range t) as Hh.
  unfold WEEKDAYS.THURSDAY.
  cbn [getNextValidBusinessTime_rec hoursOr BUSINESS_HOURS h_start h_end].
  rewrite Hinv.
  destruct (isIsraeliWeekend t) eqn:Hwe.
  - (* Friday or Saturday: Sunday at the start hour *)
    apply isIsraeliWeekend_spec in Hwe.
    eexists. split; [reflexivity|].
    unfold WEEKDAYS.FRIDAY.
    destruct (weekday t =? 5) eqn:Hfri;
      [apply Z.eqb_eq in Hfri | apply Z.eqb_neq in Hfri].
    + repeat split.
      * apply setHour_later; lia.
      * apply isValidReminderTime_spec.
        rewrite weekday_setHour, hour_setHour, weekday_shift, Hfri by lia.
        cbn. lia.
      * lia.
    + assert (Hsat : weekday t = 6) by lia.
      repeat split.
      * apply setHour_later; lia.
      * apply isValidReminderTime_spec.
        rewrite weekday_setHour, hour_setHour, weekday_shift, Hsat by lia.
        cbn. lia.
      * lia.
  - (* a weekday outside the hours *)
    assert (Hwd : weekday t <> 5 /\ weekday t <> 6).
    { split; intros E; rewrite <- not_true_iff_false in Hwe;
        apply Hwe, isIsraeliWeekend_spec; tauto. }
    assert (Hout : isWithinBusinessHours t None = false).
    { apply not_true_iff_false. rewrite isWithinBusinessHours_spec. tauto. }
    rewrite Hout. cbn [negb].
    destruct (hour t <? 9) eqn:Hearly;
      [apply Z.ltb_lt in Hearly | apply Z.ltb_ge in Hearly].
    + eexists. split; [reflexivity|]. repeat split.
      * apply setHour_later_today. exact Hearly.
      * apply isValidReminderTime_spec.
        rewrite weekday_setHour, hour_setHour by lia. lia.
      * lia.
    + assert (Hlate : 20 <= hour t) by lia.
      apply Z.leb_le in Hlate. rewrite Hlate. apply Z.leb_le in Hlate.
      set (next := setHour 9 (plusDays 1 t)).
      assert (Hnw : weekday next = (weekday t - 1 + 1) mod 7 + 1).
      { unfold next. rewrite weekday_setHour, weekday_shift by lia. reflexivity. }
      assert (Hnh : hour next = 9) by (unfold next; apply hour_setHour; lia).
      destruct (isIsraeliWeekend next) eqn:Hnwe.
      * (* Thursday evening: the next day is Friday, the call recurses *)
        apply isIsraeliWeekend_spec in Hnwe.
        assert (Hthu : weekday t = 4).
        { assert (weekday t = 1 \/ weekday t = 2 \/ weekday t = 3
                  \/ weekday t = 4 \/ weekday t = 7) as Hc by lia.
          destruct Hc as [E|[E|[E|[E|E]]]]; rewrite E in Hnw;
            cbn in Hnw; lia. }
        assert (Hfri : weekday next = 5) by (rewrite Hnw, Hthu; reflexivity).
        cbn [getNextValidBusinessTime_rec hoursOr BUSINESS_HOURS h_start h_end].
        assert (Hninv : isValidReminderTime next None = false).
        { apply not_true_iff_false. rewrite isValidReminderTime_spec. lia. }
        rewrite Hninv.
        assert (Hnwe' : isIsraeliWeekend next = true)
          by (apply isIsraeliWeekend_spec; tauto).
        try rewrite Hnwe'. unfold WEEKDAYS.FRIDAY. rewrite Hfri. cbn [Z.eqb Pos.eqb].
        eexists. split; [reflexivity|].
        assert (Heq : setHour 9 (plusDays 2 next) = setHour 9 (plusDays 3 t)).
        { unfold setHour. rewrite !dayNumber_plusDays. unfold next.
          rewrite dayNumber_setHour, dayNumber_plusDays by lia.
          f_equal. f_equal. lia. }
        rewrite Heq. repeat split.
        -- apply setHour_later; lia.
        -- apply isValidReminderTime_spec.
           rewrite weekday_setHour, hour_setHour, weekday_shift, Hthu by lia.
           cbn. lia.
      * eexists. split; [reflexivity|]. fold next. repeat split.
        -- apply setHour_later; lia.
        -- apply isValidReminderTime_spec. rewrite Hnh.
           rewrite <- not_true_iff_false, isIsraeliWeekend_spec in Hnwe. lia.
        -- intros Hthu _. exfalso.
           rewrite <- not_true_iff_false, isIsraeliWeekend_spec in Hnwe.
           apply Hnwe. rewrite Hnw, Hthu. left. reflexivity.
Qed.

(** C4 (as amended).  For every instant that is not a valid reminder time
    of lib/timezoneHelper.js (a Friday or Saturday, or an hour outside
    09:00-20:00 on Sunday to Thursday), [getNextValidBusinessTime] returns,
    with a recursion depth of at most two, a strictly later instant that is
    a valid reminder time.  The recursive call is the one made on a
    Thursday evening, whose next day is a Friday: the result is then
    Sunday 09:00.  The holiday list is not consulted. *)
Theorem getNextValidBusinessTime_rolls_forward :
  forall (fuel : nat) (t : DateTime),
    (2 <= fuel)%nat ->
    isValidReminderTime t None = false ->
    getNextValidBusinessTime_rec fuel t None
      = Some (getNextValidBusinessTime t None)
    /\ t < getNextValidBusinessTime t None
    /\ isValidReminderTime (getNextValidBusinessTime t None) None = true
    /\ (weekday t = WEEKDAYS.THURSDAY -> 20 <= hour t ->
        getNextValidBusinessTime t None = setHour 9 (plusDays 3 t)).
Proof.
  intros fuel t Hfuel Hinv.
  destruct fuel as [|[|n]]; try lia.
  destruct (rolls_forward_rec n t Hinv) as (r & Hr & Hlt & Hval & Hthu).
  destruct (rolls_forward_rec 0 t Hinv) as (r0 & Hr0 & _).
  assert (Hsame : getNextValidBusinessTime t None = r).
  { unfold getNextValidBusinessTime. rewrite Hr0.
    destruct (rolls_forward_rec n t Hinv) as (r' & Hr' & _).
    clear - Hr Hr0 Hinv.
    (* the depth-two run and the deeper run agree *)
    revert Hr Hr0.
    cbn [getNextValidBusinessTime_rec hoursOr BUSINESS_HOURS h_start h_end].
    rewrite Hinv.
    destruct (isIsraeliWeekend t); [congruence|].
    destruct (negb (isWithinBusinessHours t None)); [|congruence].
    destruct (hour t <? 9); [congruence|].
    destruct (20 <=? hour t); [|congruence].
    destruct (isIsraeliWeekend (setHour 9 (plusDays 1 t))); [|congruence].
    destruct (isValidReminderTime (setHour 9 (plusDays 1 t)) None); congruence. }
  rewrite Hsame. auto.
Qed.

Lemma getNextValidBusinessTime_rolls_forward_witness :
  (2 <= 2)%nat
  /\ isValidReminderTime Scenario.thursday_evening None = false
  /\ getNextValidBusinessTime_rec 2 Scenario.thursday_evening None
     = Some (getNextValidBusinessTime Scenario.thursday_evening None)
  /\ Scenario.thursday_evening
     < getNextValidBusinessTime Scenario.thursday_evening None
  /\ isValidReminderTime
       (getNextValidBusinessTime Scenario.thursday_evening None) None = true
  /\ getNextValidBusinessTime Scenario.thursday_evening None
     = at_ Scenario.SUN_2025_05_11 9 0.
Proof.
  split; [apply le_n|].
  split; [reflexivity|].
  destruct (getNextValidBusinessTime_rolls_forward 2 Scenario.thursday_evening
              (le_n 2) eq_refl) as (Hrec & Hlt & Hval & Hthu).
  split; [exact Hrec|]. split; [exact Hlt|]. split; [exact Hval|].
  rewrite Hthu; [reflexivity|reflexivity|discriminate].
Defined.

(** C4 (counterexample).  Sunday 13 April 2025, 10:00, is on the holiday
    list, and the sweep's gate [isWithinOperatingHours] is closed at that
    instant; [getNextValidBusinessTime] gives the instant back unchanged,
    so the result is not strictly later and lies on a blocked day. *)
Lemma getNextValidBusinessTime_ignores_holidays :
  Scenario.onListedHoliday Scenario.holiday_morning = true
  /\ OperatingHours.isJewishHoliday
       (Scenario.israelClock Scenario.holiday_morning) = true
  /\ OperatingHours.isWithinOperatingHours
       (Scenario.israelClock Scenario.holiday_morning) = false
  /\ getNextValidBusinessTime Scenario.holiday_morning None
     = Scenario.holiday_morning
  /\ ~ (Scenario.holiday_morning
        < getNextValidBusinessTime Scenario.holiday_morning None).
Proof.
  repeat split; try (vm_compute; reflexivity).
  vm_compute. discriminate.
Qed.

End CalendarProps.

(** ** Enqueueing *)
Module SchedulerProps.
Import Store TimezoneHelper MessageScheduler.

Lemma wellFormed_idsBelow st : System.wellFormed st -> System.idsBelow st.
Proof. intros (_ & H & _). exact H. Qed.

Lemma update_none {A} (p : A -> bool) (f : A -> A) rows :
  (forall r, In r rows -> p r = false) -> update p f rows = rows.
Proof.
  intros H. unfold update. induction rows as [|r rows IH]; cbn; [reflexivity|].
  rewrite (H r (or_introl eq_refl)). f_equal. apply IH.
  intros r' Hr'. apply H. right. exact Hr'.
Qed.

Lemma update_app {A} (p : A -> bool) (f : A -> A) xs ys :
  update p f (xs ++ ys) = update p f xs ++ update p f ys.
Proof. apply map_app. Qed.

(** What one successful [scheduleMessage] does. *)
Lemma scheduleMessage_ok now p st :
  System.idsBelow st ->
  existsb (by_session_id (p_sessionId p)) (sessions st) = true ->
  MessageTemplates.validateVariables (p_messageType p) (p_variables p) = Return tt ->
  MessageTemplates.getMessage (p_messageType p) (p_messageContent p)
  = Return (p_messageContent p) ->
  exists m st',
    scheduleMessage now p st = (Return m, st')
    /\ scheduled_messages st' = scheduled_messages st ++ [m]
    /\ sessions st' = sessions st
    /\ System.idsBelow st'
    /\ id m = next_id st
    /\ message_type m = p_messageType p
    /\ msg_session_id m = p_sessionId p
    /\ msg_status m = pending
    /\ scheduled_for m = p_scheduledFor p.
Proof.
  intros Hb Hs Hv Hg.
  assert (Hupd : forall f (r : ScheduledMessage),
             id r = next_id st ->
             update (by_id (next_id st)) f (scheduled_messages st ++ [r])
             = scheduled_messages st ++ [f r]).
  { intros f r Hr. rewrite update_app. f_equal.
    - apply update_none. intros r' Hr'. unfold by_id.
      apply Z.eqb_neq. specialize (Hb r' Hr'). lia.
    - cbn. unfold by_id. rewrite Hr, Z.eqb_refl. reflexivity. }
  destruct (scheduleMessage now p st) as [r st'] eqn:E.
  unfold scheduleMessage in E. rewrite Hv, Hg in E.
  cbn [with_next_id sessions] in E. rewrite Hs in E. cbn [negb] in E.
  injection E as <- <-.
  eexists. eexists. split; [reflexivity|].
  cbn [with_messages with_queue with_next_id scheduled_messages sessions
       next_id id set_job_id message_type msg_session_id msg_status
       scheduled_for].
  rewrite Hupd by reflexivity.
  repeat split; try reflexivity.
  intros m Hm.
  cbn [with_messages with_queue with_next_id scheduled_messages next_id] in *.
  rewrite Hupd in Hm by reflexivity.
  apply in_app_or in Hm. destruct Hm as [Hm|[Hm|[]]].
  - specialize (Hb m Hm). lia.
  - subst m. cbn. lia.
Qed.

Lemma at_setHour h t : setHour h t = at_ (dayNumber t) h 0.
Proof. unfold setHour, at_. lia. Qed.

Lemma st_active_idsBelow : System.idsBelow Scenario.st_active.
Proof. intros m Hm. vm_compute in Hm. destruct Hm. Defined.

(** Four messages enqueued one after the other, at given times. *)
Lemma chain_of_four now sessionId phoneNumber c1 c2 c3 c4
      (t1 t2 t3 t4 : DateTime) st :
  System.idsBelow st ->
  existsb (by_session_id sessionId) (sessions st) = true ->
  exists m1 m2 m3 m4 st',
    (reminder1 <- scheduleMessage now
       (mkParams sessionId phoneNumber None "appointment_reminder_1" c1 t1 None []) ;;
     reminder2 <- scheduleMessage now
       (mkParams sessionId phoneNumber None "appointment_reminder_2" c2 t2 None []) ;;
     reminder3 <- scheduleMessage now
       (mkParams sessionId phoneNumber None "appointment_reminder_3" c3 t3 None []) ;;
     reminder4 <- scheduleMessage now
       (mkParams sessionId phoneNumber None "appointment_reminder_4" c4 t4 None []) ;;
     ret ((([reminder1] ++ [reminder2]) ++ [reminder3]) ++ [reminder4])) st
    = (Return [m1; m2; m3; m4], st')
    /\ scheduled_messages st' = scheduled_messages st ++ [m1; m2; m3; m4]
    /\ map message_type [m1; m2; m3; m4]
       = ["appointment_reminder_1"; "appointment_reminder_2";
          "appointment_reminder_3"; "appointment_reminder_4"]%string
    /\ scheduled_for m1 = t1 /\ scheduled_for m2 = t2
    /\ scheduled_for m3 = t3 /\ scheduled_for m4 = t4.
Proof.
  intros Hb Hs. unfold bind, ret.
  destruct (scheduleMessage_ok now
              (mkParams sessionId phoneNumber None "appointment_reminder_1" c1 t1 None [])
              st Hb Hs eq_refl eq_refl)
    as (m1 & st1 & E1 & R1 & S1 & B1 & _ & T1 & _ & _ & F1).
  rewrite E1. rewrite <- S1 in Hs.
  destruct (scheduleMessage_ok now
              (mkParams sessionId phoneNumber None "appointment_reminder_2" c2 t2 None [])
              st1 B1 Hs eq_refl eq_refl)
    as (m2 & st2 & E2 & R2 & S2 & B2 & _ & T2 & _ & _ & F2).
  rewrite E2. rewrite <- S2 in Hs.
  destruct (scheduleMessage_ok now
              (mkParams sessionId phoneNumber None "appointment_reminder_3" c3 t3 None [])
              st2 B2 Hs eq_refl eq_refl)
    as (m3 & st3 & E3 & R3 & S3 & B3 & _ & T3 & _ & _ & F3).
  rewrite E3. rewrite <- S3 in Hs.
  destruct (scheduleMessage_ok now
              (mkParams sessionId phoneNumber None "appointment_reminder_4" c4 t4 None [])
              st3 B3 Hs eq_refl eq_refl)
    as (m4 & st4 & E4 & R4 & S4 & B4 & _ & T4 & _ & _ & F4).
  rewrite E4.
  exists m1, m2, m3, m4, st4.
  split; [reflexivity|].
  split; [rewrite R4, R3, R2, R1, <- !app_assoc; reflexivity|].
  split; [cbn [map]; rewrite T1, T2, T3, T4; reflexivity|].
  repeat split; assumption.
Qed.

(** C9.  The four appointment reminders are enqueued in order, and the
    fire time of each of the stages 2, 3 and 4 is
    [calculateNextAppointmentReminderTime] of the fire time that the stage
    before it was enqueued with, which is already adjusted to the
    calendar; only stage 1 is computed from the time the appointment link
    was sent. *)
Theorem appointment_chain_from_previous_stage :
  forall now sessionId phoneNumber contents (t0 : DateTime) st,
    System.idsBelow st ->
    existsb (by_session_id sessionId) (sessions st) = true ->
    exists m1 m2 m3 m4 st',
      scheduleAppointmentReminders now sessionId phoneNumber contents t0 st
        = (Return [m1; m2; m3; m4], st')
      /\ scheduled_messages st' = scheduled_messages st ++ [m1; m2; m3; m4]
      /\ map message_type [m1; m2; m3; m4]
         = ["appointment_reminder_1"; "appointment_reminder_2";
            "appointment_reminder_3"; "appointment_reminder_4"]%string
      /\ scheduled_for m1 = calculateNextAppointmentReminderTime t0
      /\ scheduled_for m2 = calculateNextAppointmentReminderTime (scheduled_for m1)
      /\ scheduled_for m3 = calculateNextAppointmentReminderTime (scheduled_for m2)
      /\ scheduled_for m4 = calculateNextAppointmentReminderTime (scheduled_for m3).
Proof.
  intros now sessionId phoneNumber [[[c1 c2] c3] c4] t0 st Hb Hs.
  destruct (chain_of_four now sessionId phoneNumber c1 c2 c3 c4
              (calculateNextAppointmentReminderTime t0)
              (calculateNextAppointmentReminderTime
                 (calculateNextAppointmentReminderTime t0))
              (calculateNextAppointmentReminderTime
                 (calculateNextAppointmentReminderTime
                    (calculateNextAppointmentReminderTime t0)))
              (calculateNextAppointmentReminderTime
                 (calculateNextAppointmentReminderTime
                    (calculateNextAppointmentReminderTime
                       (calculateNextAppointmentReminderTime t0))))
              st Hb Hs)
    as (m1 & m2 & m3 & m4 & st' & E & Hrows & Hty & F1 & F2 & F3 & F4).
  exists m1, m2, m3, m4, st'.
  split; [exact E|].
  split; [exact Hrows|].
  split; [exact Hty|].
  split; [exact F1|].
  split; [rewrite F1; exact F2|].
  split; [rewrite F2; exact F3|].
  rewrite F3; exact F4.
Qed.

(** The scenario of a blocked first stage.  The link is sent on Thursday
    at 10:00; the candidate for stage 1 is Friday 19:00, which is moved to
    Sunday 09:00; stage 2 is then Monday 19:00, where the unmoved candidate
    would have given Sunday 09:00. *)
Lemma appointment_chain_from_previous_stage_witness :
  System.idsBelow Scenario.st_active
  /\ existsb (by_session_id Scenario.sid) (sessions Scenario.st_active) = true
  /\ exists m1 m2 m3 m4 st',
       scheduleAppointmentReminders Scenario.trigger Scenario.sid Scenario.phone
         ("r1", "r2", "r3", "r4")%string Scenario.thursday_morning
         Scenario.st_active
         = (Return [m1; m2; m3; m4], st')
       /\ scheduled_for m1 = at_ Scenario.SUN_2025_05_11 9 0
       /\ scheduled_for m2 = at_ Scenario.MON_2025_05_12 19 0
       /\ scheduled_for m3 = at_ Scenario.TUE_2025_05_13 19 0
       /\ scheduled_for m4 = at_ Scenario.WED_2025_05_14 19 0
       /\ calculateNextAppointmentReminderTime (at_ Scenario.FRI_2025_05_09 19 0)
          = at_ Scenario.SUN_2025_05_11 9 0.
Proof.
  split; [exact st_active_idsBelow|].
  split; [reflexivity|].
  destruct (appointment_chain_from_previous_stage Scenario.trigger Scenario.sid
              Scenario.phone ("r1", "r2", "r3", "r4")%string
              Scenario.thursday_morning Scenario.st_active st_active_idsBelow eq_refl)
    as (m1 & m2 & m3 & m4 & st' & E & _ & _ & F1 & F2 & F3 & F4).
  exists m1, m2, m3, m4, st'.
  split; [exact E|].
  rewrite F4, F3, F2, F1.
  repeat split; vm_compute; reflexivity.
Defined.

End SchedulerProps.

(** ** Reminder policy *)
Module PolicyProps.
Import ReminderPolicy.

Lemma Qltb_minutes now t0 d :
  Qltb (minutesSince now t0) (inject_Z d) = (nowMs now - t0 <? d * MS_PER_MINUTE).
Proof.
  unfold Qltb, minutesSince, MS_PER_MINUTE.
  destruct (Qle_bool (inject_Z d) (nowMs now - t0 # 60000)) eqn:E.
  - apply Qle_bool_iff in E. unfold Qle in E. cbn in E.
    cbn. symmetry. apply Z.ltb_ge. lia.
  - cbn. symmetry. apply Z.ltb_lt.
    destruct (Z.lt_ge_cases (nowMs now - t0) (d * 60000)) as [H|H]; [exact H|].
    exfalso. rewrite <- not_true_iff_false in E. apply E.
    apply Qle_bool_iff. unfold Qle. cbn. lia.
Qed.

Lemma includes_spec sent s : includes sent s = true <-> In s sent.
Proof.
  unfold includes. rewrite existsb_exists. split.
  - intros (x & Hx & E). apply Z.eqb_eq in E. subst. exact Hx.
  - intros H. exists s. split; [exact H|apply Z.eqb_refl].
Qed.

(** The loop returns the first rule that passes the checks. *)
Lemma firstEligible_find now ms sent rules :
  firstEligible now ms sent rules
  = option_map stage (find (Scenario.passesChecks now ms sent) rules).
Proof.
  induction rules as [|rule rest IH]; [reflexivity|].
  cbn [firstEligible find]. unfold Scenario.passesChecks at 1.
  destruct (includes sent (stage rule)); [exact IH|].
  destruct (Qltb ms (inject_Z (delayMinutes rule))); [exact IH|].
  cbn [negb andb].
  destruct (windowStart rule) as [ws|], (windowEnd rule) as [we|];
    try reflexivity.
  destruct (OperatingHours.isWithinTimeWindow now ws we); cbn [negb];
    [reflexivity|exact IH].
Qed.

Lemma firstEligible_skip now ms sent pre rest :
  (forall r, In r pre -> Scenario.passesChecks now ms sent r = false) ->
  firstEligible now ms sent (pre ++ rest) = firstEligible now ms sent rest.
Proof.
  intros H. rewrite !firstEligible_find.
  induction pre as [|r pre IH]; [reflexivity|].
  cbn [app find]. rewrite (H r (or_introl eq_refl)).
  apply IH. intros r' Hr'. apply H. right. exact Hr'.
Qed.

Lemma firstEligible_sound now ms sent rules s :
  firstEligible now ms sent rules = Some s ->
  exists rule, In rule rules /\ stage rule = s
               /\ Scenario.passesChecks now ms sent rule = true.
Proof.
  rewrite firstEligible_find.
  destruct (find _ rules) as [rule|] eqn:E; [|discriminate].
  intros [= <-]. apply find_some in E. exists rule. tauto.
Qed.

Lemma stages_distinct tm type rules :
  REMINDER_TIMING tm type = Some rules -> NoDup (map stage rules).
Proof.
  unfold REMINDER_TIMING.
  destruct (String.eqb type "form"), (String.eqb type "appointment"), tm;
    intros [= <-]; cbn; repeat constructor; cbn; intuition congruence.
Qed.

(** C5.  A stage returned by [getNextReminderStage] is not in the list of
    stages already sent, and the delay configured for that stage in the
    funnel's rule table has elapsed since the stage-zero time at the
    evaluation instant. *)
Theorem nextStage_unsent_and_elapsed :
  forall (IS_TEST_MODE : bool) (now : Clock) (sentAt : option Z)
         (alreadySent : list Z) (type : string) (s : Z),
    getNextReminderStage IS_TEST_MODE now sentAt alreadySent type
      = Return (Some s) ->
    ~ In s alreadySent
    /\ exists t0 rules,
         sentAt = Some t0
         /\ REMINDER_TIMING IS_TEST_MODE type = Some rules
         /\ (exists rule, In rule rules /\ stage rule = s)
         /\ (forall rule, In rule rules -> stage rule = s ->
             delayMinutes rule * MS_PER_MINUTE <= nowMs now - t0).
Proof.
  intros tm now sentAt sent type s H.
  unfold getNextReminderStage in H.
  destruct sentAt as [t0|]; [|discriminate].
  destruct (REMINDER_TIMING tm type) as [rules|] eqn:Et; [|discriminate].
  injection H as H.
  destruct (firstEligible_sound _ _ _ _ _ H) as (rule & Hin & Hst & Hp).
  unfold Scenario.passesChecks in Hp.
  apply andb_true_iff in Hp. destruct Hp as [Hp _].
  apply andb_true_iff in Hp. destruct Hp as [Hns Hel].
  apply negb_true_iff in Hns, Hel.
  rewrite Qltb_minutes in Hel. apply Z.ltb_ge in Hel.
  split.
  - intros Hc. apply includes_spec in Hc. congruence.
  - exists t0, rules. repeat split; [exists rule; tauto|].
    intros rule' Hin' Hst'.
    assert (rule' = rule).
    { apply (ListFacts.NoDup_map_eq stage rules); try assumption.
      - exact (stages_distinct _ _ _ Et).
      - congruence. }
    subst rule'. exact Hel.
Qed.

Lemma nextStage_unsent_and_elapsed_witness :
  getNextReminderStage false Scenario.sweep_morning (Some Scenario.link_sent)
    [1] "form" = Return (Some 2)
  /\ ~ In 2 [1]
  /\ exists t0 rules,
       Some Scenario.link_sent = Some t0
       /\ REMINDER_TIMING false "form" = Some rules
       /\ (exists rule, In rule rules /\ stage rule = 2)
       /\ (forall rule, In rule rules -> stage rule = 2 ->
           delayMinutes rule * MS_PER_MINUTE
           <= nowMs Scenario.sweep_morning - t0).
Proof.
  split; [vm_compute; reflexivity|].
  apply (nextStage_unsent_and_elapsed false Scenario.sweep_morning
           (Some Scenario.link_sent) [1] "form" 2).
  vm_compute. reflexivity.
Defined.

(** C6 (as amended).  When the iteration reaches a rule with an hour
    window and the current instant is outside that window, the rule is
    passed over in this evaluation and the iteration goes on with the
    later rules: the answer is the first later rule that passes all
    checks, if there is one.  The stage that was passed over is not
    marked; an evaluation at a later instant at which it passes the checks,
    and no earlier rule does, returns it. *)
Theorem window_skip_continues_with_later_rules :
  forall (IS_TEST_MODE : bool) (now : Clock) (t0 : Z) (alreadySent : list Z)
         (type : string) (pre : list TimingRule) (rule : TimingRule)
         (rest : list TimingRule) (ws we : Z),
    REMINDER_TIMING IS_TEST_MODE type = Some (pre ++ rule :: rest) ->
    (forall r, In r pre ->
       Scenario.passesChecks now (minutesSince now t0) alreadySent r = false) ->
    windowStart rule = Some ws ->
    windowEnd rule = Some we ->
    OperatingHours.isWithinTimeWindow now ws we = false ->
    getNextReminderStage IS_TEST_MODE now (Some t0) alreadySent type
      = Return (option_map stage
                  (find (Scenario.passesChecks now (minutesSince now t0) alreadySent)
                        rest))
    /\ forall now' : Clock,
         (forall r, In r pre ->
            Scenario.passesChecks now' (minutesSince now' t0) alreadySent r = false) ->
         Scenario.passesChecks now' (minutesSince now' t0) alreadySent rule = true ->
         getNextReminderStage IS_TEST_MODE now' (Some t0) alreadySent type
           = Return (Some (stage rule)).
Proof.
  intros tm now t0 sent type pre rule rest ws we Et Hpre Hws Hwe Hout.
  unfold getNextReminderStage. rewrite Et. split.
  - rewrite firstEligible_skip by exact Hpre.
    rewrite firstEligible_find. cbn [find].
    unfold Scenario.passesChecks at 1. rewrite Hws, Hwe, Hout.
    rewrite andb_false_r. reflexivity.
  - intros now' Hpre' Hrule.
    rewrite firstEligible_skip by exact Hpre'.
    rewrite firstEligible_find. cbn [find]. rewrite Hrule. reflexivity.
Qed.

Lemma sent_stage_fails_checks now ms r :
  In r [mkRule 1 60 None None] -> Scenario.passesChecks now ms [1] r = false.
Proof. intros [<-|[]]. reflexivity. Defined.

Lemma window_skip_continues_with_later_rules_witness :
  REMINDER_TIMING false "form"
    = Some ([mkRule 1 60 None None]
              ++ mkRule 2 1440 (Some 9) (Some 12)
              :: [mkRule 3 2880 (Some 18) (Some 20)])
  /\ OperatingHours.isWithinTimeWindow Scenario.sweep_evening 9 12 = false
  /\ getNextReminderStage false Scenario.sweep_evening (Some Scenario.link_sent)
       [1] "form" = Return (Some 3)
  /\ getNextReminderStage false Scenario.sweep_morning (Some Scenario.link_sent)
       [1] "form" = Return (Some 2).
Proof.
  split; [reflexivity|]. split; [reflexivity|].
  destruct (window_skip_continues_with_later_rules false Scenario.sweep_evening
              Scenario.link_sent [1] "form" [mkRule 1 60 None None]
              (mkRule 2 1440 (Some 9) (Some 12))
              [mkRule 3 2880 (Some 18) (Some 20)] 9 12
              eq_refl (sent_stage_fails_checks _ _) eq_refl eq_refl eq_refl)
    as [Hnow Hlater].
  split.
  - rewrite Hnow. vm_compute. reflexivity.
  - apply (Hlater Scenario.sweep_morning (sent_stage_fails_checks _ _)).
    vm_compute. reflexivity.
Defined.

(** C6 (counterexample).  Stage 1 of the form funnel has been sent and the
    link is three days old.  On Sunday at 18:30 the rule of stage 2 is
    reached: it is unsent, its delay of one day has elapsed, and 18:30 is
    outside its window 09:00-12:00.  The evaluation returns stage 3, a
    later stage of the same funnel, ahead of it. *)
Lemma later_stage_returned_ahead :
  ~ In 2 [1]
  /\ 1440 * MS_PER_MINUTE <= nowMs Scenario.sweep_evening - Scenario.link_sent
  /\ OperatingHours.isWithinTimeWindow Scenario.sweep_evening 9 12 = false
  /\ getNextReminderStage false Scenario.sweep_evening (Some Scenario.link_sent)
       [1] "form" = Return (Some 3).
Proof.
  split; [intros [H|[]]; discriminate|].
  split; [vm_compute; discriminate|].
  split; vm_compute; reflexivity.
Qed.

End PolicyProps.

(** ** Cancellation *)
Module CancelProps.
Import Store MessageScheduler.

Lemma like_match_all s : like MATCH_ALL s = true.
Proof.
  unfold MATCH_ALL. cbn [like]. cbn.
  induction s as [|c s IH]; [reflexivity|].
  cbn. exact IH.
Qed.

Lemma id_set_msg_status v t m : id (set_msg_status v t m) = id m.
Proof. reflexivity. Qed.

(** The rows after [cancelScheduledMessage], when ids are unique. *)
Lemma cancelScheduledMessage_rows now i st :
  NoDup (map id (scheduled_messages st)) ->
  scheduled_messages (snd (cancelScheduledMessage now i st))
  = map (fun m => if (id m =? i) && MessageStatus_eqb (msg_status m) pending
                  then set_msg_status cancelled (nowMs now) m else m)
        (scheduled_messages st).
Proof.
  intros Hnd. unfold cancelScheduledMessage, cancelScheduledMessageVia, resolves.
  destruct (select (by_id i) (scheduled_messages st)) as [|row rest] eqn:E.
  - cbn [snd]. symmetry. rewrite <- (map_id (scheduled_messages st)) at 2.
    apply map_ext_in. intros m Hm.
    pose proof (ListFacts.filter_nil_all _ _ E m Hm) as Hno.
    unfold by_id in Hno. rewrite Hno. reflexivity.
  - apply ListFacts.filter_head in E. destruct E as [Hin Hid].
    unfold by_id in Hid. apply Z.eqb_eq in Hid.
    assert (Huniq : forall m, In m (scheduled_messages st) -> id m = i -> m = row).
    { intros m Hm Hmi.
      apply (ListFacts.NoDup_map_eq id (scheduled_messages st)); congruence. }
    destruct (MessageStatus_eqb (msg_status row) pending) eqn:Hp; cbn [negb snd].
    + assert (Hrows : forall st0, scheduled_messages
                (with_messages (update (by_id i) (set_msg_status cancelled (nowMs now))) st0)
              = update (by_id i) (set_msg_status cancelled (nowMs now))
                  (scheduled_messages st0)) by reflexivity.
      rewrite Hrows.
      assert (Hq : scheduled_messages
                     match job_id row with
                     | Some j => with_queue
                                   (filter (fun job => negb (String.eqb (jobId job) j))) st
                     | None => st
                     end = scheduled_messages st)
        by (destruct (job_id row); reflexivity).
      rewrite Hq. unfold update. apply map_ext_in. intros m Hm.
      unfold by_id. destruct (id m =? i) eqn:Hmi; [|reflexivity].
      apply Z.eqb_eq in Hmi. rewrite (Huniq m Hm Hmi), Hp. reflexivity.
    + symmetry. rewrite <- (map_id (scheduled_messages st)) at 2.
      apply map_ext_in. intros m Hm.
      destruct (id m =? i) eqn:Hmi; [|reflexivity].
      apply Z.eqb_eq in Hmi. rewrite (Huniq m Hm Hmi), Hp. reflexivity.
Qed.

Lemma cancelScheduledMessage_frame now i st :
  sessions (snd (cancelScheduledMessage now i st)) = sessions st
  /\ next_id (snd (cancelScheduledMessage now i st)) = next_id st
  /\ outbox (snd (cancelScheduledMessage now i st)) = outbox st
  /\ pendingUsersMap (snd (cancelScheduledMessage now i st)) = pendingUsersMap st.
Proof.
  unfold cancelScheduledMessage, cancelScheduledMessageVia, resolves.
  destruct (select (by_id i) (scheduled_messages st)) as [|row rest];
    [cbn; tauto|].
  destruct (negb (MessageStatus_eqb (msg_status row) pending));
    [cbn; tauto|].
  destruct (job_id row); cbn; tauto.
Qed.

Lemma map_id_cancel (p : ScheduledMessage -> bool) t rows :
  map id (map (fun m => if p m then set_msg_status cancelled t m else m) rows)
  = map id rows.
Proof.
  rewrite map_map. apply map_ext. intros m. destruct (p m); reflexivity.
Qed.

Lemma cancelEach_rows now ids : forall n st,
  NoDup (map id (scheduled_messages st)) ->
  scheduled_messages (snd (cancelEach now ids n st))
  = map (fun m => if existsb (Z.eqb (id m)) ids
                     && MessageStatus_eqb (msg_status m) pending
                  then set_msg_status cancelled (nowMs now) m else m)
        (scheduled_messages st).
Proof.
  induction ids as [|i ids IH]; intros n st Hnd.
  - cbn. symmetry. apply map_id.
  - cbn [cancelEach].
    destruct (cancelScheduledMessage now i st) as [c st1] eqn:E.
    assert (E1 : st1 = snd (cancelScheduledMessage now i st)) by (rewrite E; reflexivity).
    pose proof (cancelScheduledMessage_rows now i st Hnd) as Hrows.
    rewrite <- E1 in Hrows.
    rewrite IH.
    2:{ rewrite Hrows, map_id_cancel. exact Hnd. }
    rewrite Hrows, map_map. apply map_ext. intros m.
    cbn [existsb].
    destruct (id m =? i) eqn:Hmi.
    + destruct (MessageStatus_eqb (msg_status m) pending) eqn:Hp; cbn [andb orb].
      * cbn. rewrite andb_false_r. reflexivity.
      * rewrite Hp, andb_false_r. reflexivity.
    + cbn [andb orb]. reflexivity.
Qed.

Lemma cancelEach_frame now ids : forall n st,
  sessions (snd (cancelEach now ids n st)) = sessions st
  /\ next_id (snd (cancelEach now ids n st)) = next_id st
  /\ outbox (snd (cancelEach now ids n st)) = outbox st
  /\ pendingUsersMap (snd (cancelEach now ids n st)) = pendingUsersMap st.
Proof.
  induction ids as [|i ids IH]; intros n st; [cbn; tauto|].
  cbn [cancelEach].
  pose proof (cancelScheduledMessage_frame now i st) as Hf.
  destruct (cancelScheduledMessage now i st) as [c st1]. cbn [snd] in Hf.
  destruct (IH (if c then n + 1 else n) st1) as (A & B & C & D).
  destruct Hf as (A' & B' & C' & D').
  repeat split; congruence.
Qed.

(** The rows after [cancelSessionMessages]: exactly the pending rows of
    the session whose type matches the pattern become [cancelled]. *)
Lemma cancelSessionMessages_rows now sid pat st :
  NoDup (map id (scheduled_messages st)) ->
  scheduled_messages (snd (cancelSessionMessages now sid pat st))
  = map (fun m => if String.eqb (msg_session_id m) sid
                     && MessageStatus_eqb (msg_status m) pending
                     && like pat (message_type m)
                  then set_msg_status cancelled (nowMs now) m else m)
        (scheduled_messages st).
Proof.
  intros Hnd. unfold cancelSessionMessages.
  rewrite cancelEach_rows by exact Hnd.
  apply map_ext_in. intros m Hm.
  set (P := fun m => String.eqb (msg_session_id m) sid
                     && MessageStatus_eqb (msg_status m) pending
                     && like pat (message_type m)).
  change (String.eqb (msg_session_id m) sid
          && MessageStatus_eqb (msg_status m) pending
          && like pat (message_type m)) with (P m).
  assert (Hex : existsb (Z.eqb (id m)) (map id (select P (scheduled_messages st)))
                = P m).
  { destruct (P m) eqn:HP.
    - apply existsb_exists. exists (id m). split; [|apply Z.eqb_refl].
      apply in_map. apply filter_In. tauto.
    - apply not_true_iff_false. intros Hc.
      apply existsb_exists in Hc. destruct Hc as (x & Hx & Hxe).
      apply Z.eqb_eq in Hxe. subst x.
      apply in_map_iff in Hx. destruct Hx as (m' & Hid & Hm').
      apply filter_In in Hm'. destruct Hm' as [Hm' HP'].
      assert (m' = m)
        by (apply (ListFacts.NoDup_map_eq id (scheduled_messages st)); congruence).
      congruence. }
  rewrite Hex. destruct (P m) eqn:HP; cbn [andb]; [|reflexivity].
  unfold P in HP. apply andb_true_iff in HP. destruct HP as [HP _].
  apply andb_true_iff in HP. destruct HP as [_ HP]. rewrite HP. reflexivity.
Qed.

Lemma cancelSessionMessages_frame now sid pat st :
  sessions (snd (cancelSessionMessages now sid pat st)) = sessions st
  /\ next_id (snd (cancelSessionMessages now sid pat st)) = next_id st
  /\ outbox (snd (cancelSessionMessages now sid pat st)) = outbox st
  /\ pendingUsersMap (snd (cancelSessionMessages now sid pat st)) = pendingUsersMap st.
Proof. apply cancelEach_frame. Qed.

(** *** When calls on the queue may reject *)

Lemma cancelEachVia_resolves now ids : forall n st,
  cancelEachVia resolves now ids n st = cancelEach now ids n st.
Proof.
  induction ids as [|i ids IH]; intros n st; [reflexivity|].
  cbn [cancelEachVia cancelEach]. unfold cancelScheduledMessage.
  destruct (cancelScheduledMessageVia resolves now i st) as [c st1]. apply IH.
Qed.

Lemma cancelSessionMessagesVia_resolves now sid pat st :
  cancelSessionMessagesVia resolves now sid pat st
  = cancelSessionMessages now sid pat st.
Proof. apply cancelEachVia_resolves. Qed.


Lemma cancelScheduledMessageVia_frame removes now i st :
  sessions (snd (cancelScheduledMessageVia removes now i st)) = sessions st
  /\ next_id (snd (cancelScheduledMessageVia removes now i st)) = next_id st
  /\ outbox (snd (cancelScheduledMessageVia removes now i st)) = outbox st
  /\ pendingUsersMap (snd (cancelScheduledMessageVia removes now i st))
     = pendingUsersMap st.
Proof.
  unfold cancelScheduledMessageVia.
  destruct (select (by_id i) (scheduled_messages st)) as [|row rest];
    [cbn; tauto|].
  destruct (negb (MessageStatus_eqb (msg_status row) pending));
    [cbn; tauto|].
  destruct (removes (job_id row)); [|cbn; tauto].
  destruct (job_id row); cbn; tauto.
Qed.


Lemma cancelEachVia_frame removes now ids : forall n st,
  sessions (snd (cancelEachVia removes now ids n st)) = sessions st
  /\ next_id (snd (cancelEachVia removes now ids n st)) = next_id st
  /\ outbox (snd (cancelEachVia removes now ids n st)) = outbox st
  /\ pendingUsersMap (snd (cancelEachVia removes now ids n st)) = pendingUsersMap st.
Proof.
  induction ids as [|i ids IH]; intros n st; [cbn; tauto|].
  cbn [cancelEachVia].
  pose proof (cancelScheduledMessageVia_frame removes now i st) as Hf.
  destruct (cancelScheduledMessageVia removes now i st) as [c st1]. cbn [snd] in Hf.
  destruct (IH (if c then n + 1 else n) st1) as (A & B & C & D).
  destruct Hf as (A' & B' & C' & D').
  repeat split; congruence.
Qed.


Lemma cancelSessionMessagesVia_frame removes now sid pat st :
  sessions (snd (cancelSessionMessagesVia removes now sid pat st)) = sessions st
  /\ next_id (snd (cancelSessionMessagesVia removes now sid pat st)) = next_id st
  /\ outbox (snd (cancelSessionMessagesVia removes now sid pat st)) = outbox st
  /\ pendingUsersMap (snd (cancelSessionMessagesVia removes now sid pat st))
     = pendingUsersMap st.
Proof. apply cancelEachVia_frame. Qed.



End CancelProps.

(** ** A cancelled row stays cancelled *)
Module Stability.
Import Store MessageScheduler System.

Lemma in_update {A} (q : A -> bool) (f : A -> A) rows x :
  In x (update q f rows) <-> exists y, In y rows /\ x = if q y then f y else y.
Proof.
  unfold update. rewrite in_map_iff. split; intros (y & H1 & H2); exists y.
  - split; [exact H2|symmetry; exact H1].
  - split; [symmetry; exact H2|exact H1].
Qed.





































End Stability.

(** ** The worker's recheck *)
Module WorkerProps.
Import Store MessageScheduler System.





(** C1 (the code at the failing input).  The form is completed, the four
    appointment reminders are enqueued, and the webhook records the
    booking by session id (answer 200): [appointment_scheduled_at] is set
    and the status stays [completed].  No job is cancelled.  When the
    first reminder comes due the worker checks only that the session is
    [completed], and sends it.  The sweep, in contrast, reminds the
    session on Thursday at 19:00 if no booking was recorded and leaves it
    alone once it was.  The phone branch of the webhook answers 500 on
    PostgreSQL and records nothing; on a server that accepts its statement
    it records the booking, and the reminder is sent all the same. *)
Lemma booked_session_still_reminded :
  Server.http_status
    (fst (Server.appointmentScheduled false Scenario.booking None
            (Some Scenario.sid) Scenario.st_chain)) = 200
  /\ map appointment_scheduled_at (sessions Scenario.st_booked)
     = [Some (nowMs Scenario.booking)]
  /\ map msg_status (scheduled_messages Scenario.st_booked)
     = [pending; pending; pending; pending]
  /\ fst (Worker.run Scenario.sunday_nine Scenario.transport_ok
            Scenario.reminder1_job_id Scenario.st_booked)
     = Some (Return (Success 1 "appointment_reminder_1"
                       (nowMs Scenario.sunday_nine)))
  /\ outbox (snd (Worker.run Scenario.sunday_nine Scenario.transport_ok
                    Scenario.reminder1_job_id Scenario.st_booked))
     = [ {| to := Some Scenario.chat; body := Content "r1"; media := None |} ]
  /\ outbox (ReminderScheduler.checkAppointmentReminders false
               Scenario.thursday_seven Scenario.client_ok Scenario.st_chain)
     = [ {| to := Some Scenario.chat;
            body := ReminderText "appointment" 1 ReminderScheduler.APPOINTMENT_LINK;
            media := None |} ]
  /\ ReminderScheduler.checkAppointmentReminders false Scenario.thursday_seven
       Scenario.client_ok Scenario.st_booked
     = Scenario.st_booked
  /\ Server.appointmentScheduled false Scenario.booking (Some Scenario.phone)
       None Scenario.st_chain
     = (Server.mkResponse 500 None, Scenario.st_chain)
  /\ map appointment_scheduled_at
       (sessions (snd (Server.appointmentScheduled true Scenario.booking
                         (Some Scenario.phone) None Scenario.st_chain)))
     = [Some (nowMs Scenario.booking)]
  /\ fst (Worker.run Scenario.sunday_nine Scenario.transport_ok
            Scenario.reminder1_job_id
            (snd (Server.appointmentScheduled true Scenario.booking
                    (Some Scenario.phone) None Scenario.st_chain)))
     = Some (Return (Success 1 "appointment_reminder_1"
                       (nowMs Scenario.sunday_nine))).
Proof.
  repeat split; vm_compute; reflexivity.
Qed.

End WorkerProps.

(** ** Sessions *)
Module SessionProps.
Import Store MessageScheduler SessionManager System.

Lemma select_update_same {A} (p : A -> bool) (f : A -> A) rows :
  (forall x, p (f x) = p x) ->
  select p (update p f rows) = map f (select p rows).
Proof.
  intros Hp. unfold select, update.
  induction rows as [|r rows IH]; [reflexivity|].
  cbn [map filter]. destruct (p r) eqn:E.
  - rewrite Hp, E. cbn [map]. f_equal. exact IH.
  - rewrite E. exact IH.
Qed.

Lemma update_update {A} (p : A -> bool) (f g : A -> A) rows :
  (forall x, p (f x) = p x) ->
  update p g (update p f rows) = update p (fun x => g (f x)) rows.
Proof.
  intros Hp. unfold update. rewrite map_map. apply map_ext. intros r.
  destruct (p r) eqn:E; [rewrite Hp, E|rewrite E]; reflexivity.
Qed.

Lemma completeRow_twice now1 now2 fd1 fd2 s :
  completeRow now2 fd2 (completeRow now1 fd1 s) = completeRow now2 fd2 s.
Proof. reflexivity. Qed.

Lemma clearPendingUser_twice phone f g st :
  clearPendingUser phone (with_sessions g (clearPendingUser phone (with_sessions f st)))
  = clearPendingUser phone (with_sessions (fun rows => g (f rows)) st).
Proof.
  destruct st as [ss ms n q [keys|] o]; unfold clearPendingUser; cbn;
    [|reflexivity].
  unfold with_pendingUsers; cbn. f_equal. f_equal.
  induction keys as [|k keys IH]; [reflexivity|].
  cbn. destruct (negb (String.eqb k (keepChars isDigit phone))) eqn:E; cbn.
  - rewrite E. f_equal. exact IH.
  - exact IH.
Qed.

(** C2 (as amended).  For a session id that is present in the store,
    [markCompleted] is never an error, the first time or again: each call
    returns the session row, completed, with [completed_at],
    [form_completed_at] and [appointment_sent_at] set to the clock reading
    of that call.  Two calls leave the store exactly as the second call
    alone would have left it; they leave it as the first call did, and
    return the same row, when both calls read the same clock value.  The
    call throws, and changes nothing, exactly when no session has the
    id. *)
Theorem markCompleted_repeated :
  forall (now1 now2 : Clock) (sessionId formData : string) (st : State),
    (forall row rest,
       select (by_session_id sessionId) (sessions st) = row :: rest ->
       markCompleted now1 sessionId formData st
         = (Return (completeRow now1 formData row),
            snd (markCompleted now1 sessionId formData st))
       /\ markCompleted now2 sessionId formData
            (snd (markCompleted now1 sessionId formData st))
          = (Return (completeRow now2 formData row),
             snd (markCompleted now2 sessionId formData st))
       /\ (forall s,
             In s (sessions (snd (markCompleted now2 sessionId formData
                                    (snd (markCompleted now1 sessionId formData st))))) ->
             session_id s = sessionId ->
             status s = completed
             /\ completed_at s = Some (nowMs now2)
             /\ form_completed_at s = Some (nowMs now2)
             /\ appointment_sent_at s = Some (nowMs now2))
       /\ (nowMs now1 = nowMs now2 ->
           markCompleted now2 sessionId formData
             (snd (markCompleted now1 sessionId formData st))
           = markCompleted now1 sessionId formData st))
    /\ (select (by_session_id sessionId) (sessions st) = [] ->
        markCompleted now1 sessionId formData st = (Throw "Session not found", st))
    /\ (forall e, fst (markCompleted now1 sessionId formData st) = Throw e ->
        select (by_session_id sessionId) (sessions st) = []).
Proof.
  intros now1 now2 sid fd st.
  assert (Hkeep : forall now x,
             by_session_id sid (completeRow now fd x) = by_session_id sid x)
    by reflexivity.
  assert (Hone : forall now row rest st0,
             select (by_session_id sid) (sessions st0) = row :: rest ->
             markCompleted now sid fd st0
             = (Return (completeRow now fd row),
                clearPendingUser (phone_number row)
                  (with_sessions (update (by_session_id sid) (completeRow now fd)) st0))).
  { intros now row rest st0 E. unfold markCompleted.
    cbn [sessions with_sessions].
    rewrite select_update_same by apply Hkeep. rewrite E. reflexivity. }
  split; [|split].
  - intros row rest E.
    rewrite (Hone now1 row rest st E). cbn [snd fst].
    assert (E1 : select (by_session_id sid)
                   (sessions (clearPendingUser (phone_number row)
                      (with_sessions
                         (update (by_session_id sid) (completeRow now1 fd)) st)))
                 = completeRow now1 fd row :: map (completeRow now1 fd) rest).
    { assert (Hs : forall p st0, sessions (clearPendingUser p st0) = sessions st0).
      { intros p st0. unfold clearPendingUser.
        destruct (pendingUsersMap st0); reflexivity. }
      rewrite Hs. cbn [sessions with_sessions].
      rewrite select_update_same by apply Hkeep. rewrite E. reflexivity. }
    assert (Htwo : markCompleted now2 sid fd
                     (clearPendingUser (phone_number row)
                        (with_sessions
                           (update (by_session_id sid) (completeRow now1 fd)) st))
                   = (Return (completeRow now2 fd row),
                      snd (markCompleted now2 sid fd st))).
    { rewrite (Hone now2 _ _ _ E1), (Hone now2 row rest st E). cbn [snd].
      rewrite completeRow_twice. f_equal.
      change (phone_number (completeRow now1 fd row)) with (phone_number row).
      rewrite clearPendingUser_twice. f_equal.
      unfold with_sessions. f_equal.
      rewrite update_update by apply Hkeep. reflexivity. }
    split; [reflexivity|]. split; [exact Htwo|]. split.
    + rewrite Htwo. cbn [snd]. rewrite (Hone now2 row rest st E). cbn [snd].
      intros s Hs Hid.
      assert (Hs' : In s (update (by_session_id sid) (completeRow now2 fd) (sessions st))).
      { revert Hs. unfold clearPendingUser.
        destruct (pendingUsersMap _); cbn; tauto. }
      apply Stability.in_update in Hs'. destruct Hs' as (y & _ & ->).
      destruct (by_session_id sid y) eqn:Ey.
      * cbn. tauto.
      * unfold by_session_id in Ey. rewrite Hid, String.eqb_refl in Ey.
        discriminate.
    + intros Hsame. rewrite Htwo, (Hone now2 row rest st E). cbn [snd].
      unfold completeRow. rewrite Hsame. reflexivity.
  - intros E. unfold markCompleted. cbn [sessions with_sessions].
    rewrite select_update_same by apply Hkeep. rewrite E. cbn [map].
    f_equal. destruct st; unfold with_sessions; cbn. f_equal.
    apply SchedulerProps.update_none.
    intros r Hr. apply (ListFacts.filter_nil_all _ _ E r Hr).
  - intros e He.
    destruct (select (by_session_id sid) (sessions st)) as [|row rest] eqn:E;
      [reflexivity|].
    rewrite (Hone now1 row rest st E) in He. discriminate.
Qed.

Lemma st_active_row :
  select (by_session_id Scenario.sid) (sessions Scenario.st_active)
  = [Scenario.active_row].
Proof. vm_compute. reflexivity. Defined.

Lemma markCompleted_repeated_witness :
  select (by_session_id Scenario.sid) (sessions Scenario.st_active)
    = [Scenario.active_row]
  /\ markCompleted Scenario.booking Scenario.sid "{}"
       (snd (markCompleted Scenario.form_done Scenario.sid "{}" Scenario.st_active))
     = (Return (completeRow Scenario.booking "{}" Scenario.active_row),
        snd (markCompleted Scenario.booking Scenario.sid "{}" Scenario.st_active)).
Proof.
  split; [exact st_active_row|].
  destruct (markCompleted_repeated Scenario.form_done Scenario.booking
              Scenario.sid "{}" Scenario.st_active) as (Hpresent & _ & _).
  destruct (Hpresent Scenario.active_row [] st_active_row) as (_ & Htwo & _).
  exact Htwo.
Defined.

(** C2 (counterexample).  The form is completed at 17:40 and
    [markCompleted] is called again at 17:50: the three persisted
    timestamps move from 17:40 to 17:50, and the second call returns a row
    that differs from the one the first call returned. *)
Lemma markCompleted_again_moves_timestamps :
  map (fun s => (completed_at s, form_completed_at s, appointment_sent_at s))
      (sessions (snd (markCompleted Scenario.form_done Scenario.sid "{}"
                        Scenario.st_active)))
    = [(Some (nowMs Scenario.form_done), Some (nowMs Scenario.form_done),
        Some (nowMs Scenario.form_done))]
  /\ map (fun s => (completed_at s, form_completed_at s, appointment_sent_at s))
      (sessions (snd (markCompleted Scenario.booking Scenario.sid "{}"
                        (snd (markCompleted Scenario.form_done Scenario.sid "{}"
                                Scenario.st_active)))))
    = [(Some (nowMs Scenario.booking), Some (nowMs Scenario.booking),
        Some (nowMs Scenario.booking))]
  /\ nowMs Scenario.form_done <> nowMs Scenario.booking
  /\ fst (markCompleted Scenario.booking Scenario.sid "{}"
            (snd (markCompleted Scenario.form_done Scenario.sid "{}"
                    Scenario.st_active)))
     <> fst (markCompleted Scenario.form_done Scenario.sid "{}" Scenario.st_active).
Proof.
  split; [vm_compute; reflexivity|].
  split; [vm_compute; reflexivity|].
  split; [vm_compute; discriminate|].
  vm_compute. discriminate.
Qed.

Lemma cancelForSessions_sessions now rows : forall st,
  sessions (cancelForSessions now rows st) = sessions st.
Proof.
  induction rows as [|row rows IH]; intros st; [reflexivity|].
  cbn [cancelForSessions]. rewrite IH.
  apply (CancelProps.cancelSessionMessages_frame now (session_id row) MATCH_ALL st).
Qed.

(** After the pending rows of the given sessions were cancelled, none of
    their rows is pending, and no other row has changed. *)
Lemma cancelForSessions_rows now rows : forall st,
  NoDup (map id (scheduled_messages st)) ->
  scheduled_messages (cancelForSessions now rows st)
  = map (fun m => if existsb (fun r => String.eqb (msg_session_id m) (session_id r)) rows
                     && MessageStatus_eqb (msg_status m) pending
                  then set_msg_status cancelled (nowMs now) m else m)
        (scheduled_messages st).
Proof.
  induction rows as [|row rows IH]; intros st Hnd.
  - cbn. symmetry. apply map_id.
  - cbn [cancelForSessions].
    pose proof (CancelProps.cancelSessionMessages_rows now (session_id row)
                  MATCH_ALL st Hnd) as Hrows.
    rewrite IH.
    2:{ rewrite Hrows, CancelProps.map_id_cancel. exact Hnd. }
    rewrite Hrows, map_map. apply map_ext. intros m.
    rewrite CancelProps.like_match_all, andb_true_r. cbn [existsb].
    destruct (String.eqb (msg_session_id m) (session_id row)) eqn:Es.
    + destruct (MessageStatus_eqb (msg_status m) pending) eqn:Hp; cbn [andb orb].
      * cbn. rewrite andb_false_r. reflexivity.
      * rewrite Hp, andb_false_r. reflexivity.
    + cbn [andb orb]. reflexivity.
Qed.

Lemma activeFor_expired q p s :
  activeFor q (if activeFor p s then set_status expired s else s)
  = if String.eqb q p then false else activeFor q s.
Proof.
  destruct s as [sid ph ch cr ex fd stt ca fs fc asn asc rf ra].
  unfold activeFor, set_status. cbn [phone_number status].
  destruct (String.eqb q p) eqn:Eqp.
  - apply String.eqb_eq in Eqp. subst q.
    destruct (String.eqb ph p) eqn:Ep, stt; cbn; rewrite ?Ep; reflexivity.
  - destruct (String.eqb ph p) eqn:Ep; [|reflexivity].
    apply String.eqb_eq in Ep. subst ph.
    destruct stt; cbn; rewrite String.eqb_sym, Eqp; reflexivity.
Qed.

Lemma select_after_expiry q p rows :
  select (activeFor q) (update (activeFor p) (set_status expired) rows)
  = if String.eqb q p then [] else
      update (activeFor p) (set_status expired) (select (activeFor q) rows).
Proof.
  unfold select, update. induction rows as [|s rows IH].
  - destruct (String.eqb q p); reflexivity.
  - cbn [map filter]. rewrite activeFor_expired.
    destruct (String.eqb q p) eqn:Eqp; [exact IH|].
    destruct (activeFor q s) eqn:Eq; [cbn [map]; f_equal|]; exact IH.
Qed.

Lemma createSession_keeps_invariant now phone chat random st :
  oneActivePerPhone (sessions st) ->
  oneActivePerPhone (sessions (snd (createSession now phone chat random st))).
Proof.
  intros Hinv. unfold createSession, createSessionWith.
  cbn [sessions with_sessions]. rewrite cancelForSessions_sessions.
  match goal with
  | |- context [if ?c then _ else _] => destruct c
  end; cbn [snd sessions with_sessions]; [exact Hinv|].
  rewrite cancelForSessions_sessions.
  intros q. unfold select. rewrite filter_app. fold (@select Session).
  rewrite select_after_expiry, length_app.
  cbn [filter].
  match goal with
  | |- context [activeFor q ?r] =>
      replace (activeFor q r) with (String.eqb q phone)
        by (unfold activeFor; cbn; rewrite andb_true_r; apply String.eqb_sym)
  end.
  destruct (String.eqb q phone) eqn:Eqp; cbn [List.length]; [lia|].
  unfold update. rewrite length_map. specialize (Hinv q). lia.
Qed.

Lemma cancelForSessionsVia_sessions removes now rows : forall st,
  sessions (cancelForSessionsVia removes now rows st) = sessions st.
Proof.
  induction rows as [|row rows IH]; intros st; [reflexivity|].
  cbn [cancelForSessionsVia]. rewrite IH.
  apply (CancelProps.cancelSessionMessagesVia_frame removes now (session_id row)
           MATCH_ALL st).
Qed.


(** The [sessions] table after [createSession] and the completion of the
    call do not depend on what the loop over the old sessions does to the
    messages and the queue. *)
Lemma createSessionWith_sessions cancel now phone chat random st :
  (forall rows st0, sessions (cancel now rows st0) = sessions st0) ->
  fst (createSessionWith cancel now phone chat random st)
  = fst (createSession now phone chat random st)
  /\ sessions (snd (createSessionWith cancel now phone chat random st))
     = sessions (snd (createSession now phone chat random st)).
Proof.
  intros Hcancel. unfold createSession, createSessionWith.
  cbn [sessions with_sessions].
  rewrite Hcancel, cancelForSessions_sessions.
  match goal with
  | |- context [if ?c then _ else _] => destruct c
  end; cbn [fst snd sessions with_sessions];
    rewrite ?Hcancel, ?cancelForSessions_sessions; split; reflexivity.
Qed.

Lemma createSessionVia_sessions removes now phone chat random st :
  fst (createSessionVia removes now phone chat random st)
  = fst (createSession now phone chat random st)
  /\ sessions (snd (createSessionVia removes now phone chat random st))
     = sessions (snd (createSession now phone chat random st)).
Proof.
  apply createSessionWith_sessions. intros rows st0.
  apply cancelForSessionsVia_sessions.
Qed.




Lemma empty_wellFormed : wellFormed Store.empty.
Proof.
  repeat split; try constructor. intros m [].
Defined.

Lemma empty_oneActive : oneActivePerPhone (sessions Store.empty).
Proof. intros q. apply le_S, le_n. Defined.




End SessionProps.

(** ** More on the calendar *)
Module CalendarMore.
Import TimezoneHelper TimeFacts.

Lemma plusDays_zero t : plusDays 0 t = t.
Proof. unfold plusDays. lia. Qed.

Lemma setHour_plusDays h j k t :
  0 <= h < 24 ->
  setHour 9 (plusDays j (setHour h (plusDays k t))) = setHour 9 (plusDays (k + j) t).
Proof.
  intros Hh.
  assert (Hd : dayNumber (plusDays j (setHour h (plusDays k t)))
               = dayNumber (plusDays (k + j) t)).
  { rewrite dayNumber_plusDays, dayNumber_setHour, !dayNumber_plusDays by lia. lia. }
  unfold setHour at 1 3. rewrite Hd. reflexivity.
Qed.

(** Where an invalid time is moved to. *)
Lemma moved_shape t :
  isValidReminderTime t None = false ->
  exists k, 0 <= k <= 3
            /\ getNextValidBusinessTime t None = setHour 9 (plusDays k t)
            /\ (k = 0 -> hour t < 9)
            /\ (k = 3 -> 20 <= hour t).
Proof.
  intros Hinv. unfold getNextValidBusinessTime.
  cbn [getNextValidBusinessTime_rec hoursOr BUSINESS_HOURS h_start h_end].
  rewrite Hinv.
  destruct (isIsraeliWeekend t) eqn:Hwe.
  - destruct (weekday t =? WEEKDAYS.FRIDAY);
      [exists 2|exists 1]; repeat split; try lia.
  - destruct (negb (isWithinBusinessHours t None)) eqn:Hout.
    + destruct (hour t <? 9) eqn:Hearly.
      * exists 0. rewrite plusDays_zero. apply Z.ltb_lt in Hearly.
        repeat split; try lia.
      * destruct (20 <=? hour t) eqn:Hlate.
        -- apply Z.leb_le in Hlate.
           destruct (isIsraeliWeekend (setHour 9 (plusDays 1 t))) eqn:Hnwe.
           ++ assert (Hn : isValidReminderTime (setHour 9 (plusDays 1 t)) None = false).
              { apply not_true_iff_false. rewrite isValidReminderTime_spec.
                apply isIsraeliWeekend_spec in Hnwe. lia. }
              rewrite Hn.
              destruct (weekday (setHour 9 (plusDays 1 t)) =? WEEKDAYS.FRIDAY).
              ** exists 3. rewrite setHour_plusDays by lia.
                 repeat split; try lia.
              ** exists 2. rewrite setHour_plusDays by lia.
                 repeat split; try lia.
           ++ exists 1. repeat split; try lia.
        -- exfalso. apply negb_true_iff in Hout.
           rewrite <- not_true_iff_false, isWithinBusinessHours_spec in Hout.
           apply Z.ltb_ge in Hearly. apply Z.leb_gt in Hlate. lia.
    + exfalso. apply negb_false_iff in Hout.
      unfold isValidReminderTime in Hinv. rewrite Hout, andb_true_r in Hinv.
      rewrite <- not_true_iff_false, isIsraeliWeekday_spec in Hinv.
      rewrite <- not_true_iff_false, isIsraeliWeekend_spec in Hwe. lia.
Qed.

Lemma valid_fixed t :
  isValidReminderTime t None = true -> getNextValidBusinessTime t None = t.
Proof.
  intros Hv. unfold getNextValidBusinessTime.
  cbn [getNextValidBusinessTime_rec]. rewrite Hv. reflexivity.
Qed.

Lemma moved_valid t :
  isValidReminderTime t None = false ->
  t < getNextValidBusinessTime t None
  /\ isValidReminderTime (getNextValidBusinessTime t None) None = true.
Proof.
  intros Hinv.
  destruct (CalendarProps.rolls_forward_rec 0 t Hinv) as (r & Hr & Hlt & Hval & _).
  unfold getNextValidBusinessTime. rewrite Hr. split; assumption.
Qed.

(** X1.  For every time, valid or not: the result of
    [getNextValidBusinessTime] is a valid reminder time; it is not before
    the argument and falls on the same calendar day or on one of the next
    three; a valid time is returned as it is, a time that is moved lands at
    09:00:00.000 sharp, and applying the function again changes nothing. *)
Theorem getNextValidBusinessTime_total :
  forall t : DateTime,
    isValidReminderTime (getNextValidBusinessTime t None) None = true
    /\ t <= getNextValidBusinessTime t None
    /\ dayNumber t <= dayNumber (getNextValidBusinessTime t None) <= dayNumber t + 3
    /\ getNextValidBusinessTime (getNextValidBusinessTime t None) None
       = getNextValidBusinessTime t None
    /\ (isValidReminderTime t None = true -> getNextValidBusinessTime t None = t)
    /\ (isValidReminderTime t None = false ->
        hour (getNextValidBusinessTime t None) = 9
        /\ getNextValidBusinessTime t None mod MS_PER_HOUR = 0).
Proof.
  intros t.
  destruct (isValidReminderTime t None) eqn:Hv.
  - rewrite (valid_fixed t Hv). rewrite (valid_fixed t Hv), Hv.
    repeat split; try lia; try discriminate.
  - destruct (moved_valid t Hv) as [Hlt Hval].
    destruct (moved_shape t Hv) as (k & Hk & Hr & Hk0 & Hk3).
    split; [exact Hval|]. split; [lia|]. split.
    + rewrite Hr, dayNumber_setHour, dayNumber_plusDays by lia. lia.
    + split; [apply valid_fixed; exact Hval|].
      split; [discriminate|]. intros _. rewrite Hr. split.
      * apply hour_setHour. lia.
      * unfold setHour, MS_PER_DAY, MS_PER_HOUR.
        replace (dayNumber (plusDays k t) * 86400000 + 9 * 3600000)
          with ((dayNumber (plusDays k t) * 24 + 9) * 3600000) by lia.
        apply Z.mod_mul. lia.
Qed.

Lemma getNextValidBusinessTime_total_witness :
  isValidReminderTime Scenario.thursday_evening None = false
  /\ hour (getNextValidBusinessTime Scenario.thursday_evening None) = 9
  /\ isValidReminderTime Scenario.thursday_morning None = true
  /\ getNextValidBusinessTime Scenario.thursday_morning None
     = Scenario.thursday_morning.
Proof.
  split; [reflexivity|].
  destruct (getNextValidBusinessTime_total Scenario.thursday_evening)
    as (_ & _ & _ & _ & _ & Hmoved).
  split; [exact (proj1 (Hmoved eq_refl))|].
  split; [reflexivity|].
  destruct (getNextValidBusinessTime_total Scenario.thursday_morning)
    as (_ & _ & _ & _ & Hfixed & _).
  exact (Hfixed eq_refl).
Defined.

(** X2.  The target of the 19:00 reminder is always after the first
    message, at 19:00:00.000 of the first message's calendar day or of the
    next one; the target of the video is at 20:00:00.000 of the same
    calendar day as the 19:00 target. *)
Theorem one_time_targets_in_the_future :
  forall t : DateTime,
    t < calculate19pmReminderTime t
    /\ dayNumber t <= dayNumber (calculate19pmReminderTime t) <= dayNumber t + 1
    /\ hour (calculate19pmReminderTime t) = 19
    /\ calculate19pmReminderTime t mod MS_PER_HOUR = 0
    /\ calculate19pmReminderTime t < calculateVideoTestimonialTime t
    /\ dayNumber (calculateVideoTestimonialTime t)
       = dayNumber (calculate19pmReminderTime t)
    /\ hour (calculateVideoTestimonialTime t) = 20
    /\ calculateVideoTestimonialTime t mod MS_PER_HOUR = 0.
Proof.
  intros t.
  assert (Hlater : t < calculate19pmReminderTime t).
  { unfold calculate19pmReminderTime.
    destruct (hour t <? 18) eqn:E.
    - apply Z.ltb_lt in E. apply setHour_later_today. lia.
    - apply setHour_later; lia. }
  assert (Hday : dayNumber (calculateVideoTestimonialTime t)
                 = dayNumber (calculate19pmReminderTime t)).
  { unfold calculateVideoTestimonialTime. apply dayNumber_setHour. lia. }
  assert (H19 : calculate19pmReminderTime t
                = dayNumber (calculate19pmReminderTime t) * MS_PER_DAY + 19 * MS_PER_HOUR).
  { unfold calculate19pmReminderTime.
    destruct (hour t <? 18); unfold setHour at 1;
      rewrite dayNumber_setHour by lia; reflexivity. }
  assert (H20 : calculateVideoTestimonialTime t
                = dayNumber (calculate19pmReminderTime t) * MS_PER_DAY + 20 * MS_PER_HOUR).
  { unfold calculateVideoTestimonialTime at 1. unfold setHour. reflexivity. }
  split; [exact Hlater|].
  split.
  { unfold calculate19pmReminderTime.
    destruct (hour t <? 18);
      rewrite dayNumber_setHour, ?dayNumber_plusDays by lia; lia. }
  split; [unfold calculate19pmReminderTime;
          destruct (hour t <? 18); apply hour_setHour; lia|].
  split.
  { rewrite H19. unfold MS_PER_DAY, MS_PER_HOUR.
    replace (dayNumber (calculate19pmReminderTime t) * 86400000 + 19 * 3600000)
      with ((dayNumber (calculate19pmReminderTime t) * 24 + 19) * 3600000) by lia.
    apply Z.mod_mul. lia. }
  split; [rewrite H20, H19 at 1; unfold MS_PER_HOUR; lia|].
  split; [exact Hday|].
  split; [unfold calculateVideoTestimonialTime; apply hour_setHour; lia|].
  rewrite H20. unfold MS_PER_DAY, MS_PER_HOUR.
  replace (dayNumber (calculate19pmReminderTime t) * 86400000 + 20 * 3600000)
    with ((dayNumber (calculate19pmReminderTime t) * 24 + 20) * 3600000) by lia.
  apply Z.mod_mul. lia.
Qed.

Lemma one_time_targets_in_the_future_bounds t :
  t < calculate19pmReminderTime t /\ t < calculateVideoTestimonialTime t.
Proof.
  assert (H19 : t < calculate19pmReminderTime t).
  { unfold calculate19pmReminderTime.
    destruct (hour t <? 18) eqn:E.
    - apply Z.ltb_lt in E. apply setHour_later_today. lia.
    - apply setHour_later; lia. }
  split; [exact H19|].
  unfold calculateVideoTestimonialTime, setHour at 1.
  assert (Hc : calculate19pmReminderTime t
               = dayNumber (calculate19pmReminderTime t) * MS_PER_DAY
                 + 19 * MS_PER_HOUR).
  { unfold calculate19pmReminderTime.
    destruct (hour t <? 18); unfold setHour at 1;
      rewrite dayNumber_setHour by lia; reflexivity. }
  unfold MS_PER_HOUR in *. lia.
Qed.

End CalendarMore.

(** ** More on enqueueing *)
Module SchedulerMore.
Import Store TimezoneHelper MessageScheduler TimeFacts.

Lemma nextValid_later_valid t :
  t <= getNextValidBusinessTime t None
  /\ isValidReminderTime (getNextValidBusinessTime t None) None = true.
Proof.
  destruct (isValidReminderTime t None) eqn:Hv.
  - rewrite (CalendarMore.valid_fixed t Hv). split; [lia|exact Hv].
  - destruct (CalendarMore.moved_valid t Hv). split; [lia|assumption].
Qed.

Lemma nextAppointment_later_valid t :
  t < calculateNextAppointmentReminderTime t
  /\ isValidReminderTime (calculateNextAppointmentReminderTime t) None = true.
Proof.
  unfold calculateNextAppointmentReminderTime.
  destruct (nextValid_later_valid (setHour 19 (plusDays 1 t))) as [Hle Hv].
  split; [|exact Hv].
  pose proof (setHour_later 19 1 t). lia.
Qed.

(** Four messages enqueued one after the other: their times, status and
    owner. *)
Lemma chain_of_four_rows now sessionId phoneNumber c1 c2 c3 c4
      (t1 t2 t3 t4 : DateTime) st :
  System.idsBelow st ->
  existsb (by_session_id sessionId) (sessions st) = true ->
  exists m1 m2 m3 m4 st',
    (reminder1 <- scheduleMessage now
       (mkParams sessionId phoneNumber None "appointment_reminder_1" c1 t1 None []) ;;
     reminder2 <- scheduleMessage now
       (mkParams sessionId phoneNumber None "appointment_reminder_2" c2 t2 None []) ;;
     reminder3 <- scheduleMessage now
       (mkParams sessionId phoneNumber None "appointment_reminder_3" c3 t3 None []) ;;
     reminder4 <- scheduleMessage now
       (mkParams sessionId phoneNumber None "appointment_reminder_4" c4 t4 None []) ;;
     ret ((([reminder1] ++ [reminder2]) ++ [reminder3]) ++ [reminder4])) st
    = (Return [m1; m2; m3; m4], st')
    /\ scheduled_for m1 = t1 /\ scheduled_for m2 = t2
    /\ scheduled_for m3 = t3 /\ scheduled_for m4 = t4
    /\ forall m, In m [m1; m2; m3; m4] ->
         msg_status m = pending /\ msg_session_id m = sessionId.
Proof.
  intros Hb Hs. unfold bind, ret.
  destruct (SchedulerProps.scheduleMessage_ok now
              (mkParams sessionId phoneNumber None "appointment_reminder_1" c1 t1 None [])
              st Hb Hs eq_refl eq_refl)
    as (m1 & st1 & E1 & _ & S1 & B1 & _ & _ & O1 & P1 & F1).
  rewrite E1. rewrite <- S1 in Hs.
  destruct (SchedulerProps.scheduleMessage_ok now
              (mkParams sessionId phoneNumber None "appointment_reminder_2" c2 t2 None [])
              st1 B1 Hs eq_refl eq_refl)
    as (m2 & st2 & E2 & _ & S2 & B2 & _ & _ & O2 & P2 & F2).
  rewrite E2. rewrite <- S2 in Hs.
  destruct (SchedulerProps.scheduleMessage_ok now
              (mkParams sessionId phoneNumber None "appointment_reminder_3" c3 t3 None [])
              st2 B2 Hs eq_refl eq_refl)
    as (m3 & st3 & E3 & _ & S3 & B3 & _ & _ & O3 & P3 & F3).
  rewrite E3. rewrite <- S3 in Hs.
  destruct (SchedulerProps.scheduleMessage_ok now
              (mkParams sessionId phoneNumber None "appointment_reminder_4" c4 t4 None [])
              st3 B3 Hs eq_refl eq_refl)
    as (m4 & st4 & E4 & _ & S4 & B4 & _ & _ & O4 & P4 & F4).
  rewrite E4.
  exists m1, m2, m3, m4, st4.
  split; [reflexivity|].
  repeat (split; [assumption|]).
  intros m [<-|[<-|[<-|[<-|[]]]]]; split; assumption.
Qed.

(** X3.  The four appointment reminders are enqueued for strictly
    increasing times, the first of them after the time the appointment link
    was sent, and each of them is a valid reminder time: Sunday to
    Thursday, between 09:00 and 20:00. *)
Theorem appointment_chain_increasing_and_valid :
  forall now sessionId phoneNumber contents (t0 : DateTime) st,
    System.idsBelow st ->
    existsb (by_session_id sessionId) (sessions st) = true ->
    exists m1 m2 m3 m4 st',
      scheduleAppointmentReminders now sessionId phoneNumber contents t0 st
        = (Return [m1; m2; m3; m4], st')
      /\ t0 < scheduled_for m1
      /\ scheduled_for m1 < scheduled_for m2
      /\ scheduled_for m2 < scheduled_for m3
      /\ scheduled_for m3 < scheduled_for m4
      /\ forall m, In m [m1; m2; m3; m4] ->
           isValidReminderTime (scheduled_for m) None = true
           /\ msg_status m = pending
           /\ msg_session_id m = sessionId.
Proof.
  intros now sessionId phoneNumber [[[c1 c2] c3] c4] t0 st Hb Hs.
  destruct (chain_of_four_rows now sessionId phoneNumber c1 c2 c3 c4
              (calculateNextAppointmentReminderTime t0)
              (calculateNextAppointmentReminderTime
                 (calculateNextAppointmentReminderTime t0))
              (calculateNextAppointmentReminderTime
                 (calculateNextAppointmentReminderTime
                    (calculateNextAppointmentReminderTime t0)))
              (calculateNextAppointmentReminderTime
                 (calculateNextAppointmentReminderTime
                    (calculateNextAppointmentReminderTime
                       (calculateNextAppointmentReminderTime t0))))
              st Hb Hs)
    as (m1 & m2 & m3 & m4 & st' & E & F1 & F2 & F3 & F4 & Hrows).
  exists m1, m2, m3, m4, st'.
  split; [exact E|].
  rewrite <- F3 in F4. rewrite <- F2 in F3. rewrite <- F1 in F2.
  destruct (nextAppointment_later_valid t0) as [L1 V1]. rewrite <- F1 in L1, V1.
  destruct (nextAppointment_later_valid (scheduled_for m1)) as [L2 V2].
  rewrite <- F2 in L2, V2.
  destruct (nextAppointment_later_valid (scheduled_for m2)) as [L3 V3].
  rewrite <- F3 in L3, V3.
  destruct (nextAppointment_later_valid (scheduled_for m3)) as [L4 V4].
  rewrite <- F4 in L4, V4.
  repeat (split; [assumption|]).
  intros m Hm. destruct (Hrows m Hm) as [Hp Ho].
  split; [|split; assumption].
  destruct Hm as [<-|[<-|[<-|[<-|[]]]]]; assumption.
Qed.

Lemma appointment_chain_increasing_and_valid_witness :
  System.idsBelow Scenario.st_active
  /\ existsb (by_session_id Scenario.sid) (sessions Scenario.st_active) = true
  /\ exists m1 m2 m3 m4 st',
       scheduleAppointmentReminders Scenario.trigger Scenario.sid Scenario.phone
         ("r1", "r2", "r3", "r4")%string Scenario.thursday_morning
         Scenario.st_active
         = (Return [m1; m2; m3; m4], st')
       /\ Scenario.thursday_morning < scheduled_for m1
       /\ scheduled_for m3 < scheduled_for m4.
Proof.
  split; [exact SchedulerProps.st_active_idsBelow|].
  split; [reflexivity|].
  destruct (appointment_chain_increasing_and_valid Scenario.trigger Scenario.sid
              Scenario.phone ("r1", "r2", "r3", "r4")%string
              Scenario.thursday_morning Scenario.st_active
              SchedulerProps.st_active_idsBelow eq_refl)
    as (m1 & m2 & m3 & m4 & st' & E & L1 & _ & _ & L4 & _).
  exists m1, m2, m3, m4, st'. repeat split; assumption.
Defined.

(** X4.  The two one-time form messages are always enqueued for a valid
    reminder time (Sunday to Thursday, 09:00 to 20:00) that lies after the
    first message, never before the target computed for them. *)
Theorem one_time_sends_enqueued_in_business_hours :
  forall now sessionId phoneNumber content (t : DateTime) videoUrl st,
    System.idsBelow st ->
    existsb (by_session_id sessionId) (sessions st) = true ->
    (exists m st',
       schedule19pmReminder now sessionId phoneNumber content t st = (Return m, st')
       /\ isValidReminderTime (scheduled_for m) None = true
       /\ calculate19pmReminderTime t <= scheduled_for m
       /\ t < scheduled_for m
       /\ msg_status m = pending)
    /\ (exists m st',
          scheduleVideoTestimonial now sessionId phoneNumber content t videoUrl st
            = (Return m, st')
          /\ isValidReminderTime (scheduled_for m) None = true
          /\ calculateVideoTestimonialTime t <= scheduled_for m
          /\ t < scheduled_for m
          /\ msg_status m = pending).
Proof.
  intros now sessionId phoneNumber content t videoUrl st Hb Hs.
  destruct (CalendarMore.one_time_targets_in_the_future_bounds t) as [B19 B20].
  split.
  - unfold schedule19pmReminder.
    destruct (SchedulerProps.scheduleMessage_ok now
                (mkParams sessionId phoneNumber None "form_reminder_19pm" content
                   (getNextValidBusinessTime (calculate19pmReminderTime t) None) None
                   ["chatbotUrl"%string])
                st Hb Hs eq_refl eq_refl)
      as (m & st' & E & _ & _ & _ & _ & _ & _ & Hp & Hfor).
    exists m, st'. split; [exact E|]. cbn [p_scheduledFor] in Hfor. rewrite Hfor.
    destruct (nextValid_later_valid (calculate19pmReminderTime t)) as [Hle Hv].
    repeat split; try assumption. lia.
  - unfold scheduleVideoTestimonial.
    destruct (SchedulerProps.scheduleMessage_ok now
                (mkParams sessionId phoneNumber None "video_testimonial" content
                   (getNextValidBusinessTime (calculateVideoTestimonialTime t) None)
                   videoUrl [])
                st Hb Hs eq_refl eq_refl)
      as (m & st' & E & _ & _ & _ & _ & _ & _ & Hp & Hfor).
    exists m, st'. split; [exact E|]. cbn [p_scheduledFor] in Hfor. rewrite Hfor.
    destruct (nextValid_later_valid (calculateVideoTestimonialTime t)) as [Hle Hv].
    repeat split; try assumption. lia.
Qed.

Lemma one_time_sends_enqueued_in_business_hours_witness :
  System.idsBelow Scenario.st_active
  /\ existsb (by_session_id Scenario.sid) (sessions Scenario.st_active) = true
  /\ exists m st',
       scheduleVideoTestimonial Scenario.trigger Scenario.sid Scenario.phone
         "video" (at_ Scenario.THU_2025_05_08 17 30) None Scenario.st_active
         = (Return m, st')
       /\ isValidReminderTime (scheduled_for m) None = true.
Proof.
  split; [exact SchedulerProps.st_active_idsBelow|].
  split; [reflexivity|].
  destruct (one_time_sends_enqueued_in_business_hours Scenario.trigger Scenario.sid
              Scenario.phone "video"%string (at_ Scenario.THU_2025_05_08 17 30) None
              Scenario.st_active SchedulerProps.st_active_idsBelow eq_refl)
    as (_ & m & st' & E & Hv & _).
  exists m, st'. split; assumption.
Defined.

(** C7 (the code against the claim).  The targets are as the claim has
    them: the target of the 19:00 reminder is 19:00 of the first message's
    day when that message is before 18:00 and 19:00 of the next calendar
    day otherwise, the target of the second message is 20:00 of the same
    day, one hour later, and a trigger on Thursday at 17:30 gives the
    targets Thursday 19:00 and Thursday 20:00.  [schedule19pmReminder]
    enqueues the first message for its target when that is a Sunday to
    Thursday.  [scheduleVideoTestimonial], however, never enqueues the
    second message for its target: it passes the target through
    [getNextValidBusinessTime], whose window is 9 <= hour < 20, so that
    20:00 is not a valid time; whatever the time of the first message, the
    second message is enqueued for 09:00 of a later calendar day than its
    target, and for the trigger on Thursday at 17:30 for Sunday 09:00. *)
Theorem video_message_is_never_enqueued_for_twenty :
  forall t : DateTime,
    calculate19pmReminderTime t
      = at_ (dayNumber t + (if hour t <? 18 then 0 else 1)) 19 0
    /\ calculateVideoTestimonialTime t
       = at_ (dayNumber (calculate19pmReminderTime t)) 20 0
    /\ calculateVideoTestimonialTime t
       = calculate19pmReminderTime t + MS_PER_HOUR
    /\ calculate19pmReminderTime (at_ Scenario.THU_2025_05_08 17 30)
       = at_ Scenario.THU_2025_05_08 19 0
    /\ calculateVideoTestimonialTime (at_ Scenario.THU_2025_05_08 17 30)
       = at_ Scenario.THU_2025_05_08 20 0
    /\ isValidReminderTime (calculateVideoTestimonialTime t) None = false
    /\ getNextValidBusinessTime (at_ Scenario.THU_2025_05_08 20 0) None
       = at_ Scenario.SUN_2025_05_11 9 0
    /\ forall now sessionId phoneNumber content videoUrl st,
         System.idsBelow st ->
         existsb (by_session_id sessionId) (sessions st) = true ->
         (exists m st',
            schedule19pmReminder now sessionId phoneNumber content t st
              = (Return m, st')
            /\ message_type m = "form_reminder_19pm"%string
            /\ (isIsraeliWeekday (calculate19pmReminderTime t) = true ->
                scheduled_for m = calculate19pmReminderTime t))
         /\ exists m st',
              scheduleVideoTestimonial now sessionId phoneNumber content t
                videoUrl st = (Return m, st')
              /\ In m (scheduled_messages st')
              /\ message_type m = "video_testimonial"%string
              /\ msg_status m = pending
              /\ scheduled_for m
                 = getNextValidBusinessTime (calculateVideoTestimonialTime t) None
              /\ hour (scheduled_for m) = 9
              /\ dayNumber (calculateVideoTestimonialTime t)
                 < dayNumber (scheduled_for m)
              /\ scheduled_for m <> calculateVideoTestimonialTime t.
Proof.
  intros t.
  assert (H19 : calculate19pmReminderTime t
                = at_ (dayNumber t + (if hour t <? 18 then 0 else 1)) 19 0).
  { unfold calculate19pmReminderTime. destruct (hour t <? 18).
    - rewrite SchedulerProps.at_setHour. f_equal. lia.
    - rewrite SchedulerProps.at_setHour, dayNumber_plusDays. reflexivity. }
  assert (Hh19 : hour (calculate19pmReminderTime t) = 19).
  { unfold calculate19pmReminderTime.
    destruct (hour t <? 18); apply hour_setHour; lia. }
  assert (H20 : calculateVideoTestimonialTime t
                = at_ (dayNumber (calculate19pmReminderTime t)) 20 0).
  { unfold calculateVideoTestimonialTime. apply SchedulerProps.at_setHour. }
  assert (Hh20 : hour (calculateVideoTestimonialTime t) = 20).
  { unfold calculateVideoTestimonialTime. apply hour_setHour. lia. }
  assert (Hinv : isValidReminderTime (calculateVideoTestimonialTime t) None = false).
  { apply not_true_iff_false. rewrite isValidReminderTime_spec. lia. }
  split; [exact H19|]. split; [exact H20|].
  split.
  { rewrite H20. set (d := dayNumber (calculate19pmReminderTime t)).
    assert (E : calculate19pmReminderTime t = at_ d 19 0).
    { unfold d, calculate19pmReminderTime.
      destruct (hour t <? 18); rewrite SchedulerProps.at_setHour at 1;
        rewrite dayNumber_setHour by lia; reflexivity. }
    rewrite E. unfold at_, MS_PER_HOUR, MS_PER_MINUTE. lia. }
  split; [reflexivity|]. split; [reflexivity|]. split; [exact Hinv|].
  split; [vm_compute; reflexivity|].
  intros now sessionId phoneNumber content videoUrl st Hb Hs. split.
  - unfold schedule19pmReminder.
    destruct (SchedulerProps.scheduleMessage_ok now
                (mkParams sessionId phoneNumber None "form_reminder_19pm" content
                   (getNextValidBusinessTime (calculate19pmReminderTime t) None) None
                   ["chatbotUrl"%string])
                st Hb Hs eq_refl eq_refl)
      as (m & st' & E & _ & _ & _ & _ & Hty & _ & _ & Hfor).
    exists m, st'. split; [exact E|]. split; [exact Hty|].
    intros Hwd. rewrite Hfor. cbn [p_scheduledFor].
    apply CalendarMore.valid_fixed.
    unfold isValidReminderTime. rewrite Hwd.
    apply isWithinBusinessHours_spec. lia.
  - unfold scheduleVideoTestimonial.
    destruct (SchedulerProps.scheduleMessage_ok now
                (mkParams sessionId phoneNumber None "video_testimonial" content
                   (getNextValidBusinessTime (calculateVideoTestimonialTime t) None)
                   videoUrl [])
                st Hb Hs eq_refl eq_refl)
      as (m & st' & E & Hrows & _ & _ & _ & Hty & _ & Hp & Hfor).
    exists m, st'. split; [exact E|].
    split; [rewrite Hrows; apply in_or_app; right; left; reflexivity|].
    split; [exact Hty|]. split; [exact Hp|]. split; [exact Hfor|].
    rewrite Hfor. cbn [p_scheduledFor].
    destruct (CalendarMore.moved_shape _ Hinv) as (k & Hk & Hr & Hk0 & _).
    assert (1 <= k) by (destruct (Z.eq_dec k 0) as [E0|]; [specialize (Hk0 E0)|]; lia).
    assert (Hd : dayNumber (getNextValidBusinessTime (calculateVideoTestimonialTime t) None)
                 = dayNumber (calculateVideoTestimonialTime t) + k)
      by (rewrite Hr, dayNumber_setHour, dayNumber_plusDays by lia; reflexivity).
    split; [rewrite Hr; apply hour_setHour; lia|].
    split; [lia|].
    intros Heq. rewrite Heq in Hd. lia.
Qed.

Lemma video_message_is_never_enqueued_for_twenty_witness :
  System.idsBelow Scenario.st_active
  /\ existsb (by_session_id Scenario.sid) (sessions Scenario.st_active) = true
  /\ exists m st',
       scheduleVideoTestimonial Scenario.trigger Scenario.sid Scenario.phone
         "video" (at_ Scenario.THU_2025_05_08 17 30) None Scenario.st_active
         = (Return m, st')
       /\ scheduled_for m = at_ Scenario.SUN_2025_05_11 9 0
       /\ scheduled_for m <> at_ Scenario.THU_2025_05_08 20 0.
Proof.
  split; [exact SchedulerProps.st_active_idsBelow|].
  split; [reflexivity|].
  destruct (video_message_is_never_enqueued_for_twenty
              (at_ Scenario.THU_2025_05_08 17 30))
    as (_ & _ & _ & _ & Htarget & _ & Hmoved & Hsched).
  destruct (Hsched Scenario.trigger Scenario.sid Scenario.phone "video"%string
              None Scenario.st_active SchedulerProps.st_active_idsBelow eq_refl)
    as (_ & m & st' & E & _ & _ & _ & Hfor & _ & _ & Hne).
  exists m, st'. split; [exact E|].
  rewrite Htarget in Hfor, Hne. split; [|exact Hne].
  rewrite Hfor. exact Hmoved.
Defined.

End SchedulerMore.

(** ** More on operating hours *)
Module HoursMore.
Import OperatingHours OperatingHoursNext.

Lemma local_split (now : Clock) :
  exists r, JSDate.localMs now
            = (JSDate.localMs now / MS_PER_DAY) * MS_PER_DAY
              + JSDate.getHours now * MS_PER_HOUR + r
            /\ 0 <= r < MS_PER_HOUR
            /\ 0 <= JSDate.getHours now < 24.
Proof.
  destruct (TimeFacts.split_time (JSDate.localMs now)) as (r & Hs & Hr).
  exists r. split; [exact Hs|]. split; [exact Hr|].
  apply (TimeFacts.hour_range (JSDate.localMs now)).
Qed.

Lemma atNine_shape now k :
  0 <= k <= 2 -> (k = 0 -> JSDate.getHours now < 9) ->
  JSDate.localMs now < atNine now k
  /\ TimezoneHelper.dayNumber (atNine now k)
     = TimezoneHelper.dayNumber (JSDate.localMs now) + k
  /\ TimezoneHelper.hour (atNine now k) = 9
  /\ atNine now k mod MS_PER_HOUR = 0.
Proof.
  intros Hk H0.
  destruct (local_split now) as (r & Hs & Hr & Hh).
  assert (Hshape : atNine now k
                   = 9 * MS_PER_HOUR
                     + (JSDate.localMs now / MS_PER_DAY + k) * MS_PER_DAY)
    by (unfold atNine; lia).
  split; [|split; [|split]].
  - unfold atNine.
    set (d := JSDate.localMs now / MS_PER_DAY) in *.
    set (h := JSDate.getHours now) in *.
    unfold MS_PER_DAY, MS_PER_HOUR in *.
    assert (k = 0 \/ 1 <= k) as [E|E] by lia.
    + specialize (H0 E). lia.
    + lia.
  - unfold TimezoneHelper.dayNumber. rewrite Hshape.
    unfold MS_PER_DAY, MS_PER_HOUR. rewrite Z.div_add by lia. reflexivity.
  - unfold TimezoneHelper.hour. rewrite Hshape.
    unfold MS_PER_DAY, MS_PER_HOUR. rewrite Z.mod_add by lia. reflexivity.
  - unfold atNine, MS_PER_DAY, MS_PER_HOUR.
    replace ((JSDate.localMs now / 86400000 + k) * 86400000 + 9 * 3600000)
      with (((JSDate.localMs now / 86400000 + k) * 24 + 9) * 3600000) by lia.
    apply Z.mod_mul. lia.
Qed.

(** X5.  [getNextOperatingTime], read in the zone of the server.  When the
    gate is open it is the current time.  When it is closed it is a later
    time at 09:00:00.000, on the same calendar day or on one of the next
    two. *)
Theorem getNextOperatingTime_later_at_nine :
  forall now : Clock,
    (isWithinOperatingHours now = true ->
     getNextOperatingTime now = JSDate.localMs now)
    /\ (isWithinOperatingHours now = false ->
        JSDate.localMs now < getNextOperatingTime now
        /\ TimezoneHelper.dayNumber (JSDate.localMs now)
           <= TimezoneHelper.dayNumber (getNextOperatingTime now)
           <= TimezoneHelper.dayNumber (JSDate.localMs now) + 2
        /\ TimezoneHelper.hour (getNextOperatingTime now) = 9
        /\ getNextOperatingTime now mod MS_PER_HOUR = 0).
Proof.
  intros now. unfold getNextOperatingTime. split; intros Hopen; rewrite Hopen.
  - reflexivity.
  - assert (forall k, 0 <= k <= 2 -> (k = 0 -> JSDate.getHours now < 9) ->
              JSDate.localMs now < atNine now k
              /\ TimezoneHelper.dayNumber (JSDate.localMs now)
                 <= TimezoneHelper.dayNumber (atNine now k)
                 <= TimezoneHelper.dayNumber (JSDate.localMs now) + 2
              /\ TimezoneHelper.hour (atNine now k) = 9
              /\ atNine now k mod MS_PER_HOUR = 0) as Hshape.
    { intros k Hk H0. destruct (atNine_shape now k Hk H0) as (A & B & C & D).
      repeat split; try assumption; lia. }
    destruct (JSDate.getDay now =? 6); [apply Hshape; lia|].
    destruct ((JSDate.getDay now =? 5) && (15 <=? JSDate.getHours now));
      [apply Hshape; lia|].
    destruct (JSDate.getHours now <? 9) eqn:E9.
    { apply Z.ltb_lt in E9. apply Hshape; lia. }
    destruct (21 <=? JSDate.getHours now); apply Hshape; lia.
Qed.

Lemma getNextOperatingTime_later_at_nine_witness :
  isWithinOperatingHours Scenario.saturday_noon = false
  /\ JSDate.localMs Scenario.saturday_noon
     < getNextOperatingTime Scenario.saturday_noon
  /\ TimezoneHelper.hour (getNextOperatingTime Scenario.saturday_noon) = 9
  /\ isWithinOperatingHours Scenario.sweep_morning = true
  /\ getNextOperatingTime Scenario.sweep_morning
     = JSDate.localMs Scenario.sweep_morning.
Proof.
  split; [reflexivity|].
  destruct (getNextOperatingTime_later_at_nine Scenario.saturday_noon)
    as [_ Hclosed].
  destruct (Hclosed eq_refl) as (Hlater & _ & Hnine & _).
  split; [exact Hlater|]. split; [exact Hnine|].
  split; [reflexivity|].
  exact (proj1 (getNextOperatingTime_later_at_nine Scenario.sweep_morning) eq_refl).
Defined.

Lemma zoneClock_local offset dt :
  JSDate.localMs (Scenario.zoneClock offset dt) = dt.
Proof.
  unfold JSDate.localMs, Scenario.zoneClock, TimezoneHelper.toDate.
  cbn [nowMs timezoneOffset]. unfold MS_PER_MINUTE. lia.
Qed.

Lemma getDay_weekday offset dt :
  JSDate.getDay (Scenario.zoneClock offset dt) = TimezoneHelper.weekday dt mod 7.
Proof.
  unfold JSDate.getDay. rewrite zoneClock_local.
  unfold TimezoneHelper.weekday, TimezoneHelper.dayNumber.
  set (d := dt / MS_PER_DAY).
  replace (d + 4) with ((d + 3) + 1) by lia.
  rewrite Z.add_mod by lia.
  rewrite (Z.add_mod ((d + 3) mod 7) 1) by lia.
  rewrite Z.mod_mod by lia. reflexivity.
Qed.

(** X6.  The two calendars agree up to holidays: on a server that runs in
    the zone of the wall clock, every valid reminder time of
    lib/timezoneHelper.js (Sunday to Thursday, 09:00 to 20:00) whose date is
    not a listed holiday lies inside the operating hours of
    lib/operating-hours.js. *)
Theorem valid_reminder_time_is_within_operating_hours :
  forall (offset : Z) (dt : TimezoneHelper.DateTime),
    TimezoneHelper.isValidReminderTime dt None = true ->
    isJewishHoliday (Scenario.zoneClock offset dt) = false ->
    isWithinOperatingHours (Scenario.zoneClock offset dt) = true.
Proof.
  intros offset dt Hv Hh.
  apply TimeFacts.isValidReminderTime_spec in Hv.
  destruct Hv as [[H5 H6] Hhour].
  pose proof (TimeFacts.weekday_range dt) as Hr.
  unfold isWithinOperatingHours. rewrite Hh.
  assert (Hday : JSDate.getDay (Scenario.zoneClock offset dt) <> 6
                 /\ JSDate.getDay (Scenario.zoneClock offset dt) <> 5).
  { rewrite getDay_weekday.
    assert (TimezoneHelper.weekday dt = 1 \/ TimezoneHelper.weekday dt = 2
            \/ TimezoneHelper.weekday dt = 3 \/ TimezoneHelper.weekday dt = 4
            \/ TimezoneHelper.weekday dt = 7) as Hc by lia.
    destruct Hc as [E|[E|[E|[E|E]]]]; rewrite E; cbn; lia. }
  destruct Hday as [Hn6 Hn5].
  apply Z.eqb_neq in Hn6, Hn5. rewrite Hn6, Hn5.
  assert (Hhours : JSDate.getHours (Scenario.zoneClock offset dt)
                   = TimezoneHelper.hour dt).
  { unfold JSDate.getHours. rewrite zoneClock_local. reflexivity. }
  rewrite Hhours.
  assert (E1 : (TimezoneHelper.hour dt <? 9) = false) by (apply Z.ltb_ge; lia).
  assert (E2 : (21 <=? TimezoneHelper.hour dt) = false) by (apply Z.leb_gt; lia).
  rewrite E1, E2. reflexivity.
Qed.

Lemma valid_reminder_time_is_within_operating_hours_witness :
  TimezoneHelper.isValidReminderTime Scenario.thursday_morning None = true
  /\ isJewishHoliday (Scenario.zoneClock 180 Scenario.thursday_morning) = false
  /\ isWithinOperatingHours (Scenario.zoneClock 180 Scenario.thursday_morning) = true.
Proof.
  split; [reflexivity|]. split; [reflexivity|].
  apply (valid_reminder_time_is_within_operating_hours 180
           Scenario.thursday_morning); reflexivity.
Defined.

End HoursMore.

(** ** More on the reminder policy *)
Module PolicyMore.
Import ReminderPolicy.

Lemma returned_rule tm now sentAt sent type s :
  getNextReminderStage tm now sentAt sent type = Return (Some s) ->
  exists t0 rules rule,
    sentAt = Some t0
    /\ REMINDER_TIMING tm type = Some rules
    /\ In rule rules /\ stage rule = s
    /\ Scenario.passesChecks now (minutesSince now t0) sent rule = true.
Proof.
  unfold getNextReminderStage. intros H.
  destruct sentAt as [t0|]; [|discriminate].
  destruct (REMINDER_TIMING tm type) as [rules|] eqn:Et; [|discriminate].
  injection H as H.
  destruct (PolicyProps.firstEligible_sound _ _ _ _ _ H) as (rule & Hin & Hst & Hp).
  exists t0, rules, rule. tauto.
Qed.

(** X8.  Every stage that the policy returns has a reminder text: it lies
    between 1 and [getMaxStage] of the funnel, so [getReminderMessage] does
    not throw for it, and it is not 0, so the caller's test [if (nextStage)]
    lets it through. *)
Theorem returned_stage_has_a_message :
  forall (IS_TEST_MODE : bool) (now : Clock) (sentAt : option Z)
         (alreadySent : list Z) (type : string) (s : Z),
    getNextReminderStage IS_TEST_MODE now sentAt alreadySent type = Return (Some s) ->
    1 <= s <= ReminderMessages.getMaxStage type
    /\ ReminderScheduler.hasReminderMessage type s = true
    /\ In type ReminderMessages.getReminderTypes.
Proof.
  intros tm now sentAt sent type s H.
  destruct (returned_rule _ _ _ _ _ _ H) as (t0 & rules & rule & _ & Et & Hin & Hst & _).
  unfold REMINDER_TIMING in Et.
  unfold ReminderMessages.getMaxStage, ReminderScheduler.hasReminderMessage,
    ReminderMessages.getReminderTypes.
  destruct (String.eqb type "form") eqn:Ef.
  - apply String.eqb_eq in Ef. subst type.
    destruct tm; injection Et as <-; cbn in Hin;
      repeat (destruct Hin as [<-|Hin];
              [cbn in Hst; subst s; cbn; repeat split; try lia; auto|]);
      destruct Hin.
  - destruct (String.eqb type "appointment") eqn:Ea; [|discriminate].
    apply String.eqb_eq in Ea. subst type.
    destruct tm; injection Et as <-; cbn in Hin;
      repeat (destruct Hin as [<-|Hin];
              [cbn in Hst; subst s; cbn; repeat split; try lia; auto|]);
      destruct Hin.
Qed.

Lemma returned_stage_has_a_message_witness :
  getNextReminderStage false Scenario.sweep_morning (Some Scenario.link_sent)
    [1] "form" = Return (Some 2)
  /\ 1 <= 2 <= ReminderMessages.getMaxStage "form".
Proof.
  split; [vm_compute; reflexivity|].
  apply (returned_stage_has_a_message false Scenario.sweep_morning
           (Some Scenario.link_sent) [1] "form" 2).
  vm_compute. reflexivity.
Defined.

(** X9.  A stage whose rule has an hour window is returned only while the
    gate of the operating hours is open and the local hour is inside the
    window.  For stage 3 of the form funnel (window 18:00 to 20:00) this
    excludes every Friday, Saturday and listed holiday. *)
Theorem windowed_stage_only_inside_window :
  forall (IS_TEST_MODE : bool) (now : Clock) (sentAt : option Z)
         (alreadySent : list Z) (type : string) (s : Z),
    getNextReminderStage IS_TEST_MODE now sentAt alreadySent type = Return (Some s) ->
    (forall rules rule ws we,
       REMINDER_TIMING IS_TEST_MODE type = Some rules ->
       In rule rules -> stage rule = s ->
       windowStart rule = Some ws -> windowEnd rule = Some we ->
       OperatingHours.isWithinOperatingHours now = true
       /\ ws <= JSDate.getHours now < we)
    /\ (IS_TEST_MODE = false -> type = "form"%string -> s = 3 ->
        JSDate.getDay now <> 5 /\ JSDate.getDay now <> 6
        /\ OperatingHours.isJewishHoliday now = false
        /\ 18 <= JSDate.getHours now < 20).
Proof.
  intros tm now sentAt sent type s H.
  destruct (returned_rule _ _ _ _ _ _ H)
    as (t0 & rules & rule & _ & Et & Hin & Hst & Hp).
  assert (Hgen : forall rules' rule' ws we,
             REMINDER_TIMING tm type = Some rules' ->
             In rule' rules' -> stage rule' = s ->
             windowStart rule' = Some ws -> windowEnd rule' = Some we ->
             OperatingHours.isWithinOperatingHours now = true
             /\ ws <= JSDate.getHours now < we).
  { intros rules' rule' ws we Et' Hin' Hst' Hws Hwe.
    rewrite Et in Et'. injection Et' as <-.
    assert (rule' = rule).
    { apply (ListFacts.NoDup_map_eq stage rules); try assumption.
      - exact (PolicyProps.stages_distinct _ _ _ Et).
      - congruence. }
    subst rule'. unfold Scenario.passesChecks in Hp.
    rewrite Hws, Hwe in Hp.
    apply andb_true_iff in Hp. destruct Hp as [_ Hw].
    unfold OperatingHours.isWithinTimeWindow in Hw.
    destruct (OperatingHours.isWithinOperatingHours now); [|discriminate].
    cbn [negb] in Hw. apply andb_true_iff in Hw.
    rewrite Z.leb_le, Z.ltb_lt in Hw. split; [reflexivity|exact Hw]. }
  split; [exact Hgen|].
  intros -> -> ->.
  destruct (Hgen _ (mkRule 3 2880 (Some 18) (Some 20)) 18 20 eq_refl)
    as [Hopen Hhour]; try reflexivity.
  { cbn. auto. }
  unfold OperatingHours.isWithinOperatingHours in Hopen.
  destruct (OperatingHours.isJewishHoliday now); [discriminate|].
  destruct (JSDate.getDay now =? 6) eqn:E6; [discriminate|].
  destruct (JSDate.getDay now =? 5) eqn:E5.
  - assert (E15 : (15 <=? JSDate.getHours now) = true) by (apply Z.leb_le; lia).
    rewrite E15, orb_true_r in Hopen. discriminate.
  - apply Z.eqb_neq in E5, E6. repeat split; try assumption; lia.
Qed.

Lemma windowed_stage_only_inside_window_witness :
  getNextReminderStage false Scenario.sweep_evening (Some Scenario.link_sent)
    [1] "form" = Return (Some 3)
  /\ JSDate.getDay Scenario.sweep_evening <> 5
  /\ 18 <= JSDate.getHours Scenario.sweep_evening < 20.
Proof.
  assert (E : getNextReminderStage false Scenario.sweep_evening
                (Some Scenario.link_sent) [1] "form" = Return (Some 3))
    by (vm_compute; reflexivity).
  split; [exact E|].
  destruct (proj2 (windowed_stage_only_inside_window false Scenario.sweep_evening
                     (Some Scenario.link_sent) [1] "form" 3 E)
              eq_refl eq_refl eq_refl) as (H5 & _ & _ & Hh).
  split; assumption.
Defined.

(** X7.  In the funnels whose rules have no hour window (the appointment
    funnel, and both funnels in test mode) reminders go out in order: when
    a stage is returned, every lower stage of the funnel has already been
    sent. *)
Theorem windowless_funnels_return_lowest_unsent :
  forall (IS_TEST_MODE : bool) (now : Clock) (sentAt : option Z)
         (alreadySent : list Z) (type : string) (s : Z),
    IS_TEST_MODE = true \/ type = "appointment"%string ->
    getNextReminderStage IS_TEST_MODE now sentAt alreadySent type = Return (Some s) ->
    forall s', 1 <= s' < s -> In s' alreadySent.
Proof.
  intros tm now sentAt sent type s Hfunnel H s' Hs'.
  unfold getNextReminderStage in H.
  destruct sentAt as [t0|]; [|discriminate].
  assert (Hrules : exists rules,
             REMINDER_TIMING tm type = Some rules
             /\ (forall r, In r rules -> windowStart r = None)
             /\ (rules = [mkRule 1 1 None None; mkRule 2 2 None None;
                          mkRule 3 3 None None]
                 \/ rules = [mkRule 1 1 None None; mkRule 2 2 None None;
                             mkRule 3 3 None None; mkRule 4 4 None None]
                 \/ rules = [mkRule 1 60 None None; mkRule 2 1440 None None;
                             mkRule 3 2880 None None; mkRule 4 4320 None None])).
  { destruct (REMINDER_TIMING tm type) as [rules|] eqn:Et; [|discriminate].
    exists rules. split; [reflexivity|].
    unfold REMINDER_TIMING in Et.
    destruct (String.eqb type "form") eqn:Ef.
    - destruct tm.
      + injection Et as <-. split; [|auto].
        intros r Hr. cbn in Hr. intuition (subst; reflexivity).
      + exfalso. apply String.eqb_eq in Ef. subst type.
        destruct Hfunnel as [E|E]; discriminate E.
    - destruct (String.eqb type "appointment"); [|discriminate].
      destruct tm; injection Et as <-; (split; [|auto]);
        intros r Hr; cbn in Hr; intuition (subst; reflexivity). }
  destruct Hrules as (rules & Et & _ & Hshape). rewrite Et in H.
  injection H as H.
  destruct Hshape as [-> | [-> | ->]]; cbn [firstEligible stage delayMinutes
                                        windowStart windowEnd] in H;
    rewrite !PolicyProps.Qltb_minutes in H;
    repeat match type of H with
           | context [includes sent ?k] =>
               let E := fresh "E" in
               destruct (includes sent k) eqn:E;
               [apply PolicyProps.includes_spec in E|]
           end;
    repeat match type of H with
           | context [?a <? ?b] =>
               let E := fresh "L" in
               destruct (a <? b) eqn:E;
               [apply Z.ltb_lt in E|apply Z.ltb_ge in E]
           end;
    try discriminate; injection H as <-;
    unfold MS_PER_MINUTE in *;
    try lia;
    (assert (s' = 1 \/ s' = 2 \/ s' = 3) as [-> | [-> | ->]] by lia;
     try assumption; lia).
Qed.

Lemma windowless_funnels_return_lowest_unsent_witness :
  (true = true \/ "form"%string = "appointment"%string)
  /\ getNextReminderStage true Scenario.sweep_morning (Some Scenario.link_sent)
       [1; 2] "form" = Return (Some 3)
  /\ In 2 [1; 2].
Proof.
  split; [left; reflexivity|].
  assert (E : getNextReminderStage true Scenario.sweep_morning
                (Some Scenario.link_sent) [1; 2] "form" = Return (Some 3))
    by (vm_compute; reflexivity).
  split; [exact E|].
  apply (windowless_funnels_return_lowest_unsent true Scenario.sweep_morning
           (Some Scenario.link_sent) [1; 2] "form" 3 (or_introl eq_refl) E 2).
  lia.
Defined.

End PolicyMore.

(** ** The sweep *)
Module SweepProps.
Import Store MessageScheduler ReminderScheduler.

Lemma sweptFrom_refl st : Scenario.sweptFrom st st.
Proof.
  repeat split. exists []. split; [symmetry; apply app_nil_r|intros x []].
Qed.

Lemma sweptFrom_trans st1 st2 st3 :
  Scenario.sweptFrom st1 st2 -> Scenario.sweptFrom st2 st3 -> Scenario.sweptFrom st1 st3.
Proof.
  intros (A1 & B1 & C1 & D1 & E1 & F1 & x1 & G1 & H1)
         (A2 & B2 & C2 & D2 & E2 & F2 & x2 & G2 & H2).
  repeat split; try congruence.
  exists (x1 ++ x2). split.
  - rewrite G2, G1, app_assoc. reflexivity.
  - intros x Hx. apply in_app_or in Hx. destruct Hx; auto.
Qed.

Lemma map_update_keeps {A B} (g : A -> B) (p : A -> bool) (f : A -> A) rows :
  (forall x, g (f x) = g x) -> map g (update p f rows) = map g rows.
Proof.
  intros H. unfold update. rewrite map_map. apply map_ext.
  intros x. destruct (p x); [apply H|reflexivity].
Qed.

Lemma sendReminder_swept type link client session stage st :
  Scenario.sweptFrom st (sendReminder type link client session stage st).
Proof.
  unfold sendReminder.
  destruct (hasReminderMessage type stage); [|apply sweptFrom_refl].
  destruct (ready client && truthy (chat_id session)) eqn:Er; [|apply sweptFrom_refl].
  apply andb_true_iff in Er. destruct Er as [_ Hchat].
  match goal with
  | |- context [if transport client ?m then _ else _] => destruct (transport client m)
  end; [|apply sweptFrom_refl].
  destruct (String.eqb type "form");
    (repeat split; cbn [sessions with_sessions with_outbox];
     [apply map_update_keeps; reflexivity
     |apply map_update_keeps; reflexivity
     |eexists; split; [reflexivity|];
      intros x [<-|[]]; cbn; repeat split; eauto]).
Qed.

Lemma sweepRows_swept tm now type sentAt sentOf send rows :
  (forall session stage st, Scenario.sweptFrom st (send session stage st)) ->
  forall st, Scenario.sweptFrom st (sweepRows tm now type sentAt sentOf send rows st).
Proof.
  intros Hsend. induction rows as [|row rows IH]; intros st;
    [apply sweptFrom_refl|].
  cbn [sweepRows].
  eapply sweptFrom_trans; [|apply IH].
  destruct (ReminderPolicy.getNextReminderStage tm now
             (ReminderScheduler.newDate (sentAt row)) (sentOf row) type)
    as [[s|]|e]; try apply sweptFrom_refl.
  destruct (s =? 0); [apply sweptFrom_refl|apply Hsend].
Qed.

Lemma sweep_frame tm now client st :
  Scenario.sweptFrom st (checkAndSendReminders tm now client st).
Proof.
  unfold checkAndSendReminders.
  apply sweptFrom_trans with (st2 := checkFormReminders tm now client st).
  - unfold checkFormReminders.
    destruct (negb tm && negb (OperatingHours.isWithinOperatingHours now));
      [apply sweptFrom_refl|].
    apply sweepRows_swept. intros. apply sendReminder_swept.
  - unfold checkAppointmentReminders.
    destruct (negb tm && negb (OperatingHours.isWithinOperatingHours now));
      [apply sweptFrom_refl|].
    apply sweepRows_swept. intros. apply sendReminder_swept.
Qed.

(** X10.  The sweep leaves the scheduled messages, the queue, the id
    sequence and the [pendingUsers] map untouched and changes no session's
    id or status; what it sends is appended to the outbox, each item a
    reminder text without media for a non-empty chat id.  Outside test
    mode, a sweep that runs while the operating hours are closed changes
    nothing at all. *)
Theorem sweep_touches_only_reminder_state :
  forall (IS_TEST_MODE : bool) (now : Clock) (client : Client) (st : State),
    Scenario.sweptFrom st (checkAndSendReminders IS_TEST_MODE now client st)
    /\ (IS_TEST_MODE = false ->
        OperatingHours.isWithinOperatingHours now = false ->
        checkAndSendReminders IS_TEST_MODE now client st = st).
Proof.
  intros tm now client st. split.
  - apply sweep_frame.
  - intros -> Hclosed.
    unfold checkAndSendReminders, checkAppointmentReminders, checkFormReminders.
    rewrite Hclosed. reflexivity.
Qed.

Lemma sweep_touches_only_reminder_state_witness :
  OperatingHours.isWithinOperatingHours Scenario.saturday_noon = false
  /\ checkAndSendReminders false Scenario.saturday_noon Scenario.client_ok
       Scenario.st_chain = Scenario.st_chain.
Proof.
  split; [reflexivity|].
  exact (proj2 (sweep_touches_only_reminder_state false Scenario.saturday_noon
                  Scenario.client_ok Scenario.st_chain) eq_refl eq_refl).
Defined.

Lemma NoDup_snoc (l : list Z) x : NoDup l -> ~ In x l -> NoDup (l ++ [x]).
Proof.
  intros Hl Hx. induction l as [|a l IH]; cbn.
  - constructor; [intros []|constructor].
  - inversion Hl as [|? ? Ha Hl']; subst. constructor.
    + intros Hin. apply in_app_or in Hin. destruct Hin as [Hin|[->|[]]].
      * contradiction.
      * apply Hx. left. reflexivity.
    + apply IH; [exact Hl'|]. intros H. apply Hx. right. exact H.
Qed.

Lemma stagesDistinct_update p f a rows :
  NoDup f -> NoDup a ->
  Scenario.stagesDistinct rows ->
  Scenario.stagesDistinct (update p (set_reminders_sent f a) rows).
Proof.
  intros Hf Ha Hrows s Hs. unfold update in Hs. apply in_map_iff in Hs.
  destruct Hs as (y & <- & Hy).
  destruct (p y); [cbn; split; assumption|apply Hrows; exact Hy].
Qed.

Lemma sendReminder_distinct type link client session stage st :
  NoDup (reminders_sent_form session) ->
  NoDup (reminders_sent_appointment session) ->
  ~ In stage (if String.eqb type "form" then reminders_sent_form session
              else reminders_sent_appointment session) ->
  Scenario.stagesDistinct (sessions st) ->
  Scenario.stagesDistinct (sessions (sendReminder type link client session stage st)).
Proof.
  intros Hf Ha Hnew Hst. unfold sendReminder.
  destruct (hasReminderMessage type stage); [|exact Hst].
  destruct (ready client && truthy (chat_id session)); [|exact Hst].
  match goal with
  | |- context [if transport client ?m then _ else _] => destruct (transport client m)
  end; [|exact Hst].
  destruct (String.eqb type "form"); cbn [sessions with_sessions with_outbox];
    apply stagesDistinct_update; try assumption; apply NoDup_snoc; assumption.
Qed.

Lemma sweepRows_distinct tm now type sentAt sentOf send linkOf client rows :
  (forall s, sentOf s = if String.eqb type "form" then reminders_sent_form s
                        else reminders_sent_appointment s) ->
  (forall session stage st,
     send session stage st
     = sendReminder type (linkOf session) client session stage st) ->
  Scenario.stagesDistinct rows ->
  forall st,
    Scenario.stagesDistinct (sessions st) ->
    Scenario.stagesDistinct
      (sessions (sweepRows tm now type sentAt sentOf send rows st)).
Proof.
  intros Hof Hsend. induction rows as [|row rows IH]; intros Hrows st Hst;
    [exact Hst|].
  cbn [sweepRows]. apply IH.
  - intros s Hs. apply Hrows. right. exact Hs.
  - destruct (ReminderPolicy.getNextReminderStage tm now
             (ReminderScheduler.newDate (sentAt row)) (sentOf row) type)
      as [[s|]|e] eqn:E; try exact Hst.
    destruct (s =? 0); [exact Hst|].
    destruct (Hrows row (or_introl eq_refl)) as [Hf Ha].
    rewrite Hsend.
    apply sendReminder_distinct; try assumption.
    rewrite <- Hof.
    destruct (PolicyMore.returned_rule _ _ _ _ _ _ E)
      as (t0 & rules & rule & _ & _ & _ & Hs & Hp).
    unfold Scenario.passesChecks in Hp.
    apply andb_true_iff in Hp. destruct Hp as [Hp _].
    apply andb_true_iff in Hp. destruct Hp as [Hns _].
    apply negb_true_iff in Hns. intros Hc.
    apply PolicyProps.includes_spec in Hc. congruence.
Qed.

Lemma select_distinct p rows :
  Scenario.stagesDistinct rows -> Scenario.stagesDistinct (select p rows).
Proof.
  intros H s Hs. apply filter_In in Hs. apply H. tauto.
Qed.

(** X11.  The sweep never records a stage twice: if no session has a
    repeated stage in its lists of sent form and appointment reminders
    before [checkAndSendReminders], none has one afterwards. *)
Theorem sweep_never_repeats_a_stage :
  forall (IS_TEST_MODE : bool) (now : Clock) (client : Client) (st : State),
    Scenario.stagesDistinct (sessions st) ->
    Scenario.stagesDistinct
      (sessions (checkAndSendReminders IS_TEST_MODE now client st)).
Proof.
  intros tm now client st Hst.
  unfold checkAndSendReminders.
  assert (H1 : Scenario.stagesDistinct
                 (sessions (checkFormReminders tm now client st))).
  { unfold checkFormReminders.
    destruct (negb tm && negb (OperatingHours.isWithinOperatingHours now));
      [exact Hst|].
    apply sweepRows_distinct
      with (linkOf := fun session =>
                        (AVI_WEBSITE_API_URL ++ "/chatbot?session="
                           ++ session_id session)%string)
           (client := client);
      [reflexivity|reflexivity|apply select_distinct; exact Hst|exact Hst]. }
  unfold checkAppointmentReminders.
  destruct (negb tm && negb (OperatingHours.isWithinOperatingHours now));
    [exact H1|].
  apply sweepRows_distinct
    with (linkOf := fun _ => APPOINTMENT_LINK) (client := client);
    [reflexivity|reflexivity|apply select_distinct; exact H1|exact H1].
Qed.

Lemma st_chain_distinct : Scenario.stagesDistinct (sessions Scenario.st_chain).
Proof.
  intros s Hs. vm_compute in Hs. destruct Hs as [<-|[]].
  split; constructor.
Defined.

Lemma sweep_never_repeats_a_stage_witness :
  Scenario.stagesDistinct (sessions Scenario.st_chain)
  /\ Scenario.stagesDistinct
       (sessions (checkAndSendReminders false Scenario.thursday_seven
                    Scenario.client_ok Scenario.st_chain))
  /\ map reminders_sent_appointment
       (sessions (checkAndSendReminders false Scenario.thursday_seven
                    Scenario.client_ok Scenario.st_chain)) = [[1]].
Proof.
  split; [exact st_chain_distinct|].
  split; [|vm_compute; reflexivity].
  exact (sweep_never_repeats_a_stage false Scenario.thursday_seven
           Scenario.client_ok Scenario.st_chain st_chain_distinct).
Defined.

End SweepProps.

(** ** Invariants of the whole system *)
Module SystemProps.
Import Store MessageScheduler SessionManager System.

(** *** Scheduled messages *)

Lemma messagesEvolve_same st st' :
  map id (scheduled_messages st') = map id (scheduled_messages st) ->
  next_id st <= next_id st' ->
  Scenario.messagesEvolve st st'.
Proof.
  intros Hm Hn. split; [exact Hn|]. exists []. rewrite app_nil_r.
  split; [exact Hm|]. split; [constructor|intros i []].
Qed.

Lemma messagesEvolve_refl st : Scenario.messagesEvolve st st.
Proof. apply messagesEvolve_same; [reflexivity|lia]. Qed.

Lemma messagesEvolve_trans st1 st2 st3 :
  Scenario.messagesEvolve st1 st2 -> Scenario.messagesEvolve st2 st3 ->
  Scenario.messagesEvolve st1 st3.
Proof.
  intros (N1 & n1 & M1 & D1 & B1) (N2 & n2 & M2 & D2 & B2).
  split; [lia|]. exists (n1 ++ n2). split; [|split].
  - rewrite M2, M1, app_assoc. reflexivity.
  - apply NoDup_app; try assumption.
    intros i H1 H2. specialize (B1 i H1). specialize (B2 i H2). lia.
  - intros i Hi. apply in_app_or in Hi.
    destruct Hi as [Hi|Hi]; [specialize (B1 i Hi)|specialize (B2 i Hi)]; lia.
Qed.

Lemma map_id_update (p : ScheduledMessage -> bool) f rows :
  (forall m, id (f m) = id m) -> map id (update p f rows) = map id rows.
Proof. apply SweepProps.map_update_keeps. Qed.

Lemma evolve_cancelScheduledMessage now i st :
  Scenario.messagesEvolve st (snd (cancelScheduledMessage now i st)).
Proof.
  unfold cancelScheduledMessage, cancelScheduledMessageVia, resolves.
  destruct (select (by_id i) (scheduled_messages st)) as [|row rest];
    [apply messagesEvolve_refl|].
  destruct (negb (MessageStatus_eqb (msg_status row) pending));
    [apply messagesEvolve_refl|].
  cbn [snd]. apply messagesEvolve_same.
  - cbn [scheduled_messages with_messages].
    rewrite map_id_update by reflexivity. destruct (job_id row); reflexivity.
  - destruct (job_id row); cbn; lia.
Qed.

Lemma evolve_cancelEach now ids : forall n st,
  Scenario.messagesEvolve st (snd (cancelEach now ids n st)).
Proof.
  induction ids as [|i ids IH]; intros n st; [apply messagesEvolve_refl|].
  cbn [cancelEach].
  pose proof (evolve_cancelScheduledMessage now i st) as H1.
  destruct (cancelScheduledMessage now i st) as [c st1]. cbn [snd] in H1.
  eapply messagesEvolve_trans; [exact H1|apply IH].
Qed.

Lemma evolve_processScheduledMessage now transport job st :
  Scenario.messagesEvolve st (snd (processScheduledMessage now transport job st)).
Proof.
  assert (Hupd : forall f st1,
             map id (scheduled_messages st1) = map id (scheduled_messages st) ->
             next_id st <= next_id st1 ->
             (forall m, id (f m) = id m) ->
             Scenario.messagesEvolve st
               (with_messages (update (by_id (scheduledMessageId job)) f) st1)).
  { intros f st1 Hm Hn Hf. apply messagesEvolve_same; [|cbn; lia].
    cbn [scheduled_messages with_messages]. rewrite map_id_update by exact Hf.
    exact Hm. }
  unfold processScheduledMessage, processAttempt.
  destruct (select (by_id (scheduledMessageId job)) (scheduled_messages st))
    as [|row rest].
  { cbn [snd]. apply Hupd; [reflexivity|lia|reflexivity]. }
  destruct (MessageStatus_eqb (msg_status row) cancelled);
    [apply messagesEvolve_refl|].
  match goal with |- context [if ?c then _ else _] => destruct c end.
  { cbn [snd]. apply Hupd; [reflexivity|lia|reflexivity]. }
  match goal with |- context [if ?c then _ else _] => destruct c end.
  { cbn [snd]. apply Hupd; [reflexivity|lia|reflexivity]. }
  unfold sendWhatsAppMessage.
  match goal with
  | |- context [if transport ?msg then _ else _] => destruct (transport msg)
  end; cbn [snd]; apply Hupd; try reflexivity; cbn; lia.
Qed.

Lemma evolve_workerRun now transport jid st :
  Scenario.messagesEvolve st (snd (Worker.run now transport jid st)).
Proof.
  unfold Worker.run.
  destruct (select _ (queue st)) as [|job rest]; [apply messagesEvolve_refl|].
  pose proof (evolve_processScheduledMessage now transport (data job) st) as H.
  destruct (processScheduledMessage now transport (data job) st) as [[r|e] st'];
    cbn [snd] in *; (eapply messagesEvolve_trans; [exact H|]);
    apply messagesEvolve_same; try reflexivity; cbn; lia.
Qed.

Lemma evolve_scheduleMessage now p st :
  Scenario.messagesEvolve st (snd (scheduleMessage now p st)).
Proof.
  unfold scheduleMessage.
  destruct (MessageTemplates.validateVariables _ _) as [[]|e]; [|apply messagesEvolve_refl].
  destruct (MessageTemplates.getMessage _ _) as [content|e]; [|apply messagesEvolve_refl].
  cbn [with_next_id sessions].
  destruct (negb (existsb (by_session_id (p_sessionId p)) (sessions st))).
  - cbn [snd]. apply messagesEvolve_same; [reflexivity|cbn; lia].
  - cbn [snd]. split; [cbn; lia|].
    exists [next_id st].
    cbn [scheduled_messages with_messages with_queue with_next_id next_id].
    rewrite map_id_update by reflexivity. rewrite map_app. cbn [map id].
    split; [reflexivity|]. split.
    + constructor; [intros []|constructor].
    + intros i [<-|[]]. lia.
Qed.

Lemma evolve_bind {A B} (m : M A) (k : A -> M B) st :
  (forall st0, Scenario.messagesEvolve st0 (snd (m st0))) ->
  (forall a st0, Scenario.messagesEvolve st0 (snd (k a st0))) ->
  Scenario.messagesEvolve st (snd (bind m k st)).
Proof.
  intros Hm Hk. unfold bind. specialize (Hm st).
  destruct (m st) as [[a|e] st1]; cbn [snd] in *; [|exact Hm].
  eapply messagesEvolve_trans; [exact Hm|apply Hk].
Qed.

Lemma evolve_scheduleAppointmentReminders now sid phone contents t st :
  Scenario.messagesEvolve st
    (snd (scheduleAppointmentReminders now sid phone contents t st)).
Proof.
  destruct contents as [[[c1 c2] c3] c4]. unfold scheduleAppointmentReminders.
  apply evolve_bind; [intros; apply evolve_scheduleMessage|]. intros r1 st1.
  apply evolve_bind; [intros; apply evolve_scheduleMessage|]. intros r2 st2.
  apply evolve_bind; [intros; apply evolve_scheduleMessage|]. intros r3 st3.
  apply evolve_bind; [intros; apply evolve_scheduleMessage|]. intros r4 st4.
  apply messagesEvolve_refl.
Qed.

Lemma evolve_clearPendingUser phone st :
  Scenario.messagesEvolve st (clearPendingUser phone st).
Proof.
  unfold clearPendingUser. destruct (pendingUsersMap st);
    [apply messagesEvolve_same; [reflexivity|cbn; lia]|apply messagesEvolve_refl].
Qed.

Lemma evolve_with_sessions f st : Scenario.messagesEvolve st (with_sessions f st).
Proof. apply messagesEvolve_same; [reflexivity|cbn; lia]. Qed.

Lemma evolve_cancelForSessions now rows : forall st,
  Scenario.messagesEvolve st (cancelForSessions now rows st).
Proof.
  induction rows as [|row rows IH]; intros st; [apply messagesEvolve_refl|].
  cbn [cancelForSessions].
  eapply messagesEvolve_trans; [apply evolve_cancelEach|apply IH].
Qed.

Lemma evolve_expireSession now sid st :
  Scenario.messagesEvolve st (expireSession now sid st).
Proof.
  unfold expireSession.
  eapply messagesEvolve_trans; [apply (evolve_cancelEach now)|].
  match goal with
  | |- context [match ?l with [] => _ | _ :: _ => _ end] => destruct l as [|row ?]
  end; [apply evolve_with_sessions|].
  destruct (phone_number row); [apply evolve_with_sessions|].
  eapply messagesEvolve_trans; [apply evolve_with_sessions|apply evolve_clearPendingUser].
Qed.

Lemma evolve_cleanupEach now rows : forall st,
  Scenario.messagesEvolve st (cleanupEach now rows st).
Proof.
  induction rows as [|row rows IH]; intros st; [apply messagesEvolve_refl|].
  cbn [cleanupEach].
  eapply messagesEvolve_trans; [|apply IH].
  eapply messagesEvolve_trans; [apply (evolve_cancelEach now)|].
  destruct (phone_number row);
    [apply messagesEvolve_refl|apply evolve_clearPendingUser].
Qed.

Lemma evolve_swept st st' : Scenario.sweptFrom st st' -> Scenario.messagesEvolve st st'.
Proof.
  intros (Hm & _ & Hn & _). apply messagesEvolve_same; [rewrite Hm; reflexivity|lia].
Qed.

Lemma evolve_createSession now phone chat random st :
  Scenario.messagesEvolve st (snd (createSession now phone chat random st)).
Proof.
  apply messagesEvolve_trans
    with (st2 := cancelForSessions now (select (activeFor phone) (sessions st)) st);
    [apply evolve_cancelForSessions|].
  unfold createSession, createSessionWith.
  match goal with |- context [if ?c then _ else _] => destruct c end;
    cbn [snd]; apply messagesEvolve_same; try reflexivity; cbn; lia.
Qed.

Lemma evolve_cancelScheduledMessageVia removes now i st :
  Scenario.messagesEvolve st (snd (cancelScheduledMessageVia removes now i st)).
Proof.
  unfold cancelScheduledMessageVia.
  destruct (select (by_id i) (scheduled_messages st)) as [|row rest];
    [apply messagesEvolve_refl|].
  destruct (negb (MessageStatus_eqb (msg_status row) pending));
    [apply messagesEvolve_refl|].
  destruct (removes (job_id row)); [|apply messagesEvolve_refl].
  cbn [snd]. apply messagesEvolve_same.
  - cbn [scheduled_messages with_messages].
    rewrite map_id_update by reflexivity. destruct (job_id row); reflexivity.
  - destruct (job_id row); cbn; lia.
Qed.

Lemma evolve_cancelEachVia removes now ids : forall n st,
  Scenario.messagesEvolve st (snd (cancelEachVia removes now ids n st)).
Proof.
  induction ids as [|i ids IH]; intros n st; [apply messagesEvolve_refl|].
  cbn [cancelEachVia].
  pose proof (evolve_cancelScheduledMessageVia removes now i st) as H1.
  destruct (cancelScheduledMessageVia removes now i st) as [c st1]. cbn [snd] in H1.
  eapply messagesEvolve_trans; [exact H1|apply IH].
Qed.

Lemma evolve_cancelForSessionsVia removes now rows : forall st,
  Scenario.messagesEvolve st (cancelForSessionsVia removes now rows st).
Proof.
  induction rows as [|row rows IH]; intros st; [apply messagesEvolve_refl|].
  cbn [cancelForSessionsVia].
  eapply messagesEvolve_trans; [apply evolve_cancelEachVia|apply IH].
Qed.

Lemma evolve_expireSessionVia removes now sid st :
  Scenario.messagesEvolve st (expireSessionVia removes now sid st).
Proof.
  unfold expireSessionVia.
  eapply messagesEvolve_trans; [apply (evolve_cancelEachVia removes now)|].
  match goal with
  | |- context [match ?l with [] => _ | _ :: _ => _ end] => destruct l as [|row ?]
  end; [apply evolve_with_sessions|].
  destruct (phone_number row); [apply evolve_with_sessions|].
  eapply messagesEvolve_trans; [apply evolve_with_sessions|apply evolve_clearPendingUser].
Qed.

Lemma evolve_cleanupEachVia removes now rows : forall st,
  Scenario.messagesEvolve st (cleanupEachVia removes now rows st).
Proof.
  induction rows as [|row rows IH]; intros st; [apply messagesEvolve_refl|].
  cbn [cleanupEachVia].
  eapply messagesEvolve_trans; [|apply IH].
  eapply messagesEvolve_trans; [apply (evolve_cancelEachVia removes now)|].
  destruct (phone_number row);
    [apply messagesEvolve_refl|apply evolve_clearPendingUser].
Qed.

Lemma evolve_createSessionVia removes now phone chat random st :
  Scenario.messagesEvolve st (snd (createSessionVia removes now phone chat random st)).
Proof.
  apply messagesEvolve_trans
    with (st2 := cancelForSessionsVia removes now
                   (select (activeFor phone) (sessions st)) st);
    [apply evolve_cancelForSessionsVia|].
  unfold createSessionVia, createSessionWith.
  match goal with |- context [if ?c then _ else _] => destruct c end;
    cbn [snd]; apply messagesEvolve_same; try reflexivity; cbn; lia.
Qed.

Lemma evolve_step st st' : step st st' -> Scenario.messagesEvolve st st'.
Proof.
  intros Hstep. destruct Hstep.
  - apply evolve_scheduleMessage.
  - apply evolve_scheduleAppointmentReminders.
  - apply evolve_cancelScheduledMessage.
  - apply evolve_cancelEach.
  - apply evolve_cancelEach.
  - apply evolve_processScheduledMessage.
  - apply evolve_workerRun.
  - apply evolve_createSession.
  - unfold markCompleted.
    match goal with
    | |- context [match ?l with [] => _ | _ :: _ => _ end] => destruct l
    end; cbn [snd]; [apply evolve_with_sessions|].
    eapply messagesEvolve_trans; [apply evolve_with_sessions|apply evolve_clearPendingUser].
  - apply evolve_expireSession.
  - unfold getSession.
    destruct (select (by_session_id sid) (sessions st)) as [|s rest];
      [apply messagesEvolve_refl|].
    destruct (expires_at s <? nowMs now); cbn [snd];
      [apply evolve_expireSession|apply messagesEvolve_refl].
  - unfold cleanupExpiredSessions. cbn [snd].
    eapply messagesEvolve_trans; [apply evolve_with_sessions|apply evolve_cleanupEach].
  - unfold Server.appointmentScheduled.
    repeat match goal with
           | |- context [if ?c then _ else _] => destruct c
           | |- context [match ?x with _ => _ end] => destruct x
           end; cbn [snd]; try apply messagesEvolve_refl; apply evolve_with_sessions.
  - apply evolve_swept.
    apply (SweepProps.sweep_frame testMode now client st).
  - apply evolve_cancelScheduledMessageVia.
  - apply evolve_cancelEachVia.
  - apply evolve_cancelEachVia.
  - apply evolve_createSessionVia.
  - apply evolve_expireSessionVia.
  - unfold getSessionVia.
    destruct (select (by_session_id sid) (sessions st)) as [|s rest];
      [apply messagesEvolve_refl|].
    destruct (expires_at s <? nowMs now); cbn [snd];
      [apply evolve_expireSessionVia|apply messagesEvolve_refl].
  - unfold cleanupExpiredSessionsVia. cbn [snd].
    eapply messagesEvolve_trans; [apply evolve_with_sessions|apply evolve_cleanupEachVia].
Qed.

(** *** Sessions *)

Lemma rowsEvolve_refl rows : Forall2 Scenario.rowEvolves rows rows.
Proof.
  induction rows; constructor; [repeat split; auto|assumption].
Qed.

Lemma rowsEvolve_trans r1 : forall r2 r3,
  Forall2 Scenario.rowEvolves r1 r2 -> Forall2 Scenario.rowEvolves r2 r3 ->
  Forall2 Scenario.rowEvolves r1 r3.
Proof.
  induction r1 as [|a r1 IH]; intros r2 r3 H12 H23.
  - inversion H12; subst. inversion H23; subst. constructor.
  - inversion H12 as [|? b ? r2' Hab H12']; subst.
    inversion H23 as [|? c ? r3' Hbc H23']; subst.
    constructor; [|eapply IH; eassumption].
    destruct Hab as (A1 & A2 & A3), Hbc as (B1 & B2 & B3).
    repeat split; try congruence. auto.
Qed.

Lemma rowsEvolve_update p f rows :
  (forall s, Scenario.rowEvolves s (f s)) ->
  Forall2 Scenario.rowEvolves rows (update p f rows).
Proof.
  intros Hf. induction rows as [|s rows IH]; cbn; constructor; [|exact IH].
  destruct (p s); [apply Hf|repeat split; auto].
Qed.

Lemma rowEvolves_set_status v s :
  v <> active -> Scenario.rowEvolves s (set_status v s).
Proof. intros Hv. repeat split. cbn. intros E. contradiction. Qed.

Lemma rowEvolves_completeRow now fd s : Scenario.rowEvolves s (completeRow now fd s).
Proof. repeat split. cbn. discriminate. Qed.

Lemma rowEvolves_bookRow now s : Scenario.rowEvolves s (Server.bookRow now s).
Proof. repeat split. cbn. discriminate. Qed.

Lemma rowEvolves_set_reminders f a s :
  Scenario.rowEvolves s (set_reminders_sent f a s).
Proof. repeat split. cbn. auto. Qed.

Lemma sessions_clearPendingUser phone st :
  sessions (clearPendingUser phone st) = sessions st.
Proof. unfold clearPendingUser. destruct (pendingUsersMap st); reflexivity. Qed.

Lemma sessions_cancelEach now ids n st :
  sessions (snd (cancelEach now ids n st)) = sessions st.
Proof. apply (CancelProps.cancelEach_frame now ids n st). Qed.

Lemma sessions_cancelSessionMessages now sid pat st :
  sessions (snd (cancelSessionMessages now sid pat st)) = sessions st.
Proof. unfold cancelSessionMessages. apply sessions_cancelEach. Qed.

Lemma sessions_processScheduledMessage now transport job st :
  sessions (snd (processScheduledMessage now transport job st)) = sessions st.
Proof.
  unfold processScheduledMessage, processAttempt.
  destruct (select (by_id (scheduledMessageId job)) (scheduled_messages st));
    [reflexivity|].
  destruct (MessageStatus_eqb _ cancelled); [reflexivity|].
  match goal with |- context [if ?c then _ else _] => destruct c end;
    [reflexivity|].
  match goal with |- context [if ?c then _ else _] => destruct c end;
    [reflexivity|].
  unfold sendWhatsAppMessage.
  match goal with
  | |- context [if transport ?msg then _ else _] => destruct (transport msg)
  end; reflexivity.
Qed.

Lemma sessions_scheduleMessage now p st :
  sessions (snd (scheduleMessage now p st)) = sessions st.
Proof.
  unfold scheduleMessage.
  destruct (MessageTemplates.validateVariables _ _) as [[]|e]; [|reflexivity].
  destruct (MessageTemplates.getMessage _ _) as [content|e]; [|reflexivity].
  cbn [with_next_id sessions].
  destruct (negb (existsb (by_session_id (p_sessionId p)) (sessions st)));
    reflexivity.
Qed.

Lemma sessions_bind {A B} (m : M A) (k : A -> M B) st :
  (forall st0, sessions (snd (m st0)) = sessions st0) ->
  (forall a st0, sessions (snd (k a st0)) = sessions st0) ->
  sessions (snd (bind m k st)) = sessions st.
Proof.
  intros Hm Hk. unfold bind. specialize (Hm st).
  destruct (m st) as [[a|e] st1]; cbn [snd] in *; [rewrite Hk|]; exact Hm.
Qed.

Lemma sessions_expireSession now sid st :
  sessions (expireSession now sid st)
  = update (by_session_id sid) (set_status expired) (sessions st).
Proof.
  unfold expireSession.
  match goal with
  | |- context [match ?l with [] => _ | _ :: _ => _ end] => destruct l as [|row ?]
  end; [|destruct (phone_number row); rewrite ?sessions_clearPendingUser];
    cbn [sessions with_sessions]; rewrite sessions_cancelSessionMessages;
    reflexivity.
Qed.

Lemma sessions_cleanupEach now rows : forall st,
  sessions (cleanupEach now rows st) = sessions st.
Proof.
  induction rows as [|row rows IH]; intros st; [reflexivity|].
  cbn [cleanupEach]. rewrite IH.
  destruct (phone_number row); rewrite ?sessions_clearPendingUser;
    apply sessions_cancelSessionMessages.
Qed.

Lemma sessions_cancelSessionMessagesVia removes now sid pat st :
  sessions (snd (cancelSessionMessagesVia removes now sid pat st)) = sessions st.
Proof. apply (CancelProps.cancelSessionMessagesVia_frame removes now sid pat st). Qed.

Lemma sessions_expireSessionVia removes now sid st :
  sessions (expireSessionVia removes now sid st)
  = update (by_session_id sid) (set_status expired) (sessions st).
Proof.
  unfold expireSessionVia.
  match goal with
  | |- context [match ?l with [] => _ | _ :: _ => _ end] => destruct l as [|row ?]
  end; [|destruct (phone_number row); rewrite ?sessions_clearPendingUser];
    cbn [sessions with_sessions]; rewrite sessions_cancelSessionMessagesVia;
    reflexivity.
Qed.

Lemma sessions_cleanupEachVia removes now rows : forall st,
  sessions (cleanupEachVia removes now rows st) = sessions st.
Proof.
  induction rows as [|row rows IH]; intros st; [reflexivity|].
  cbn [cleanupEachVia]. rewrite IH.
  destruct (phone_number row); rewrite ?sessions_clearPendingUser;
    apply sessions_cancelSessionMessagesVia.
Qed.

Lemma rowsEvolve_sendReminder type link client session stage st :
  Forall2 Scenario.rowEvolves (sessions st)
    (sessions (ReminderScheduler.sendReminder type link client session stage st)).
Proof.
  unfold ReminderScheduler.sendReminder.
  repeat match goal with
         | |- context [if ?c then _ else _] => destruct c
         end; try apply rowsEvolve_refl;
    cbn [sessions with_sessions with_outbox];
    apply rowsEvolve_update; intros; apply rowEvolves_set_reminders.
Qed.

Lemma rowsEvolve_sweepRows tm now type sentAt sentOf send rows :
  (forall session stage st,
     Forall2 Scenario.rowEvolves (sessions st) (sessions (send session stage st))) ->
  forall st,
    Forall2 Scenario.rowEvolves (sessions st)
      (sessions (ReminderScheduler.sweepRows tm now type sentAt sentOf send rows st)).
Proof.
  intros Hsend. induction rows as [|row rows IH]; intros st;
    [apply rowsEvolve_refl|].
  cbn [ReminderScheduler.sweepRows].
  eapply rowsEvolve_trans; [|apply IH].
  destruct (ReminderPolicy.getNextReminderStage tm now
             (ReminderScheduler.newDate (sentAt row)) (sentOf row) type)
    as [[s|]|e]; try apply rowsEvolve_refl.
  destruct (s =? 0); [apply rowsEvolve_refl|apply Hsend].
Qed.

Lemma rowsEvolve_sweep tm now client st :
  Forall2 Scenario.rowEvolves (sessions st)
    (sessions (ReminderScheduler.checkAndSendReminders tm now client st)).
Proof.
  unfold ReminderScheduler.checkAndSendReminders.
  apply rowsEvolve_trans
    with (r2 := sessions (ReminderScheduler.checkFormReminders tm now client st)).
  - unfold ReminderScheduler.checkFormReminders.
    destruct (negb tm && negb (OperatingHours.isWithinOperatingHours now));
      [apply rowsEvolve_refl|].
    apply rowsEvolve_sweepRows. intros. apply rowsEvolve_sendReminder.
  - unfold ReminderScheduler.checkAppointmentReminders.
    destruct (negb tm && negb (OperatingHours.isWithinOperatingHours now));
      [apply rowsEvolve_refl|].
    apply rowsEvolve_sweepRows. intros. apply rowsEvolve_sendReminder.
Qed.

(** Every step but [createSession] changes rows of [sessions] in place. *)
Lemma step_sessions st st' :
  step st st' ->
  Forall2 Scenario.rowEvolves (sessions st) (sessions st')
  \/ exists now phone chat random,
       sessions st' = sessions (snd (createSession now phone chat random st)).
Proof.
  intros Hstep. destruct Hstep.
  - left. rewrite sessions_scheduleMessage. apply rowsEvolve_refl.
  - left. destruct contents as [[[c1 c2] c3] c4].
    unfold scheduleAppointmentReminders.
    rewrite sessions_bind; [apply rowsEvolve_refl|apply sessions_scheduleMessage|].
    intros r1 st1.
    rewrite sessions_bind; [reflexivity|apply sessions_scheduleMessage|].
    intros r2 st2.
    rewrite sessions_bind; [reflexivity|apply sessions_scheduleMessage|].
    intros r3 st3.
    rewrite sessions_bind; [reflexivity|apply sessions_scheduleMessage|].
    reflexivity.
  - left.
    rewrite (proj1 (CancelProps.cancelScheduledMessage_frame now i st)).
    apply rowsEvolve_refl.
  - left. rewrite sessions_cancelSessionMessages.
    apply rowsEvolve_refl.
  - left. unfold cancelAllPendingMessages. rewrite sessions_cancelEach.
    apply rowsEvolve_refl.
  - left. rewrite sessions_processScheduledMessage. apply rowsEvolve_refl.
  - left. unfold Worker.run.
    destruct (select _ (queue st)) as [|job rest]; [apply rowsEvolve_refl|].
    pose proof (sessions_processScheduledMessage now transport (data job) st) as H.
    destruct (processScheduledMessage now transport (data job) st) as [[r|e] st'];
      cbn [snd sessions with_queue] in *; rewrite H; apply rowsEvolve_refl.
  - right. exists now, phone, chat, random. reflexivity.
  - left. unfold markCompleted.
    match goal with
    | |- context [match ?l with [] => _ | _ :: _ => _ end] => destruct l
    end; cbn [snd]; rewrite ?sessions_clearPendingUser;
      cbn [sessions with_sessions]; apply rowsEvolve_update;
      intros; apply rowEvolves_completeRow.
  - left. rewrite sessions_expireSession. apply rowsEvolve_update.
    intros. apply rowEvolves_set_status. discriminate.
  - left. unfold getSession.
    destruct (select (by_session_id sid) (sessions st)) as [|s rest];
      [apply rowsEvolve_refl|].
    destruct (expires_at s <? nowMs now); cbn [snd]; [|apply rowsEvolve_refl].
    rewrite sessions_expireSession. apply rowsEvolve_update.
    intros. apply rowEvolves_set_status. discriminate.
  - left. unfold cleanupExpiredSessions. cbn [snd].
    rewrite sessions_cleanupEach. cbn [sessions with_sessions].
    apply rowsEvolve_update. intros. apply rowEvolves_set_status. discriminate.
  - left. unfold Server.appointmentScheduled.
    repeat match goal with
           | |- context [if ?c then _ else _] => destruct c
           | |- context [match ?x with _ => _ end] => destruct x
           end; cbn [snd]; try apply rowsEvolve_refl;
      cbn [sessions with_sessions]; apply rowsEvolve_update;
      intros; apply rowEvolves_bookRow.
  - left. apply rowsEvolve_sweep.
  - left.
    rewrite (proj1 (CancelProps.cancelScheduledMessageVia_frame removes now i st)).
    apply rowsEvolve_refl.
  - left. rewrite sessions_cancelSessionMessagesVia. apply rowsEvolve_refl.
  - left. unfold cancelAllPendingMessagesVia.
    rewrite (proj1 (CancelProps.cancelEachVia_frame removes now _ 0 st)).
    apply rowsEvolve_refl.
  - right. exists now, phone, chat, random.
    apply (SessionProps.createSessionVia_sessions removes now phone chat random st).
  - left. rewrite sessions_expireSessionVia. apply rowsEvolve_update.
    intros. apply rowEvolves_set_status. discriminate.
  - left. unfold getSessionVia.
    destruct (select (by_session_id sid) (sessions st)) as [|s rest];
      [apply rowsEvolve_refl|].
    destruct (expires_at s <? nowMs now); cbn [snd]; [|apply rowsEvolve_refl].
    rewrite sessions_expireSessionVia. apply rowsEvolve_update.
    intros. apply rowEvolves_set_status. discriminate.
  - left. unfold cleanupExpiredSessionsVia. cbn [snd].
    rewrite sessions_cleanupEachVia. cbn [sessions with_sessions].
    apply rowsEvolve_update. intros. apply rowEvolves_set_status. discriminate.
Qed.

Lemma NoDup_end {A} (l : list A) x : NoDup l -> ~ In x l -> NoDup (l ++ [x]).
Proof.
  intros Hl Hx. apply NoDup_app; [exact Hl|repeat constructor; intros []|].
  intros a Ha [<-|[]]. exact (Hx Ha).
Qed.

Lemma rowsEvolve_ids rows rows' :
  Forall2 Scenario.rowEvolves rows rows' ->
  map session_id rows' = map session_id rows.
Proof.
  induction 1 as [|s s' rows rows' (Hid & _) _ IH]; cbn; congruence.
Qed.

Lemma rowsEvolve_back rows rows' :
  Forall2 Scenario.rowEvolves rows rows' ->
  forall s', In s' rows' -> exists s, In s rows /\ Scenario.rowEvolves s s'.
Proof.
  induction 1 as [|s s' rows rows' Hs _ IH]; intros x Hx; [destruct Hx|].
  destruct Hx as [<-|Hx].
  - exists s. split; [left; reflexivity|exact Hs].
  - destruct (IH x Hx) as (y & Hy & Hxy). exists y. split; [right|]; assumption.
Qed.

Lemma rowsEvolve_forth rows rows' :
  Forall2 Scenario.rowEvolves rows rows' ->
  forall s, In s rows -> exists s', In s' rows' /\ Scenario.rowEvolves s s'.
Proof.
  induction 1 as [|s s' rows rows' Hs _ IH]; intros x Hx; [destruct Hx|].
  destruct Hx as [<-|Hx].
  - exists s'. split; [left; reflexivity|exact Hs].
  - destruct (IH x Hx) as (y & Hy & Hxy). exists y. split; [right|]; assumption.
Qed.

Lemma rowsEvolve_active q rows rows' :
  Forall2 Scenario.rowEvolves rows rows' ->
  (List.length (select (activeFor q) rows')
   <= List.length (select (activeFor q) rows))%nat.
Proof.
  induction 1 as [|s s' rows rows' (Hid & Hph & Hst) _ IH]; [apply le_n|].
  cbn [select filter]. fold (@select Session).
  unfold select in IH |- *.
  destruct (activeFor q s') eqn:E'.
  - assert (activeFor q s = true) as ->.
    { unfold activeFor in *. apply andb_true_iff in E'. destruct E' as [E1 E2].
      rewrite <- Hph, E1. cbn.
      destruct (status s') eqn:S'; try discriminate E2.
      rewrite Hst; reflexivity. }
    cbn [List.length]. lia.
  - destruct (activeFor q s); cbn [List.length]; lia.
Qed.

Lemma update_ids p f rows :
  (forall s, session_id (f s) = session_id s) ->
  map session_id (update p f rows) = map session_id rows.
Proof.
  intros Hf. unfold update. rewrite map_map. apply map_ext.
  intros s. destruct (p s); [apply Hf|reflexivity].
Qed.

Lemma existsb_by_session_id sid rows :
  existsb (by_session_id sid) rows = false -> ~ In sid (map session_id rows).
Proof.
  intros He Hin. apply in_map_iff in Hin. destruct Hin as (s & Hs & Hin).
  assert (existsb (by_session_id sid) rows = true) as Ht; [|congruence].
  apply existsb_exists. exists s. split; [exact Hin|].
  unfold by_session_id. rewrite Hs. apply String.eqb_refl.
Qed.

(** What [createSession] leaves in [sessions]: the table as it was, or the
    rows of the phone expired and a fresh active row at the end. *)
Lemma createSession_rows now phone chat random st :
  let st' := snd (createSession now phone chat random st) in
  let rows := update (activeFor phone) (set_status expired) (sessions st) in
  sessions st' = sessions st
  \/ exists row,
       sessions st' = (rows ++ [row])%list
       /\ ~ In (session_id row) (map session_id (sessions st)).
Proof.
  cbn zeta. unfold createSession, createSessionWith.
  cbn [sessions with_sessions]. rewrite SessionProps.cancelForSessions_sessions.
  destruct (existsb (by_session_id (generateSessionId now random)) _) eqn:E;
    cbn [orb snd sessions with_sessions]; [left; reflexivity|].
  match goal with |- context [if ?c then _ else _] => destruct c end;
    cbn [snd sessions with_sessions]; [left; reflexivity|].
  rewrite SessionProps.cancelForSessions_sessions.
  right. eexists. split; [reflexivity|]. cbn [session_id].
  apply existsb_by_session_id in E.
  rewrite update_ids in E; [exact E|reflexivity].
Qed.

Lemma createSession_ids now phone chat random st :
  NoDup (map session_id (sessions st)) ->
  NoDup (map session_id (sessions (snd (createSession now phone chat random st)))).
Proof.
  intros Hnd.
  destruct (createSession_rows now phone chat random st)
    as [-> | (row & -> & Hfresh)]; [exact Hnd|].
  rewrite map_app, update_ids by reflexivity. cbn [map].
  apply NoDup_end; assumption.
Qed.

Lemma createSession_notActive now phone chat random sid st :
  Scenario.notActive sid st ->
  Scenario.notActive sid (snd (createSession now phone chat random st)).
Proof.
  intros [(s & Hin & Hs) Hna]. unfold Scenario.notActive.
  destruct (createSession_rows now phone chat random st)
    as [-> | (row & -> & Hfresh)]; [split; [exists s|]; auto|].
  split.
  - exists (if activeFor phone s then set_status expired s else s).
    split; [|destruct (activeFor phone s); exact Hs].
    apply in_or_app. left. unfold update. apply in_map_iff.
    exists s. split; [reflexivity|exact Hin].
  - intros x Hx Hxs. apply in_app_or in Hx. destruct Hx as [Hx|[<-|[]]].
    + unfold update in Hx. apply in_map_iff in Hx. destruct Hx as (y & <- & Hy).
      destruct (activeFor phone y); [discriminate|].
      apply (Hna y Hy Hxs).
    + exfalso. apply Hfresh. rewrite Hxs, <- Hs. apply in_map, Hin.
Qed.

Lemma messagesEvolve_wellFormed st st' :
  Scenario.messagesEvolve st st' ->
  NoDup (map id (scheduled_messages st)) -> idsBelow st ->
  NoDup (map id (scheduled_messages st')) /\ idsBelow st'.
Proof.
  intros (Hnext & new & Hids & Hnd & Hnew) Hold Hbelow.
  assert (forall i, In i (map id (scheduled_messages st)) -> i < next_id st) as Hlt.
  { intros i Hi. apply in_map_iff in Hi. destruct Hi as (m & <- & Hm).
    apply Hbelow, Hm. }
  split.
  - rewrite Hids. apply NoDup_app; [exact Hold|exact Hnd|].
    intros i Hi Hi'. specialize (Hlt i Hi). specialize (Hnew i Hi'). lia.
  - intros m Hm. apply (in_map id) in Hm. rewrite Hids in Hm.
    apply in_app_or in Hm. destruct Hm as [Hm|Hm].
    + specialize (Hlt _ Hm). lia.
    + apply (Hnew _ Hm).
Qed.

Lemma step_invariant st st' :
  step st st' ->
  wellFormed st /\ oneActivePerPhone (sessions st) ->
  wellFormed st' /\ oneActivePerPhone (sessions st').
Proof.
  intros Hstep [(Hm & Hb & Hs) Hone].
  destruct (messagesEvolve_wellFormed st st' (evolve_step st st' Hstep) Hm Hb)
    as [Hm' Hb'].
  destruct (step_sessions st st' Hstep)
    as [Hrows | (now & phone & chat & random & Hrows)].
  - repeat split; try assumption.
    + rewrite (rowsEvolve_ids _ _ Hrows). exact Hs.
    + intros q. specialize (Hone q).
      pose proof (rowsEvolve_active q _ _ Hrows). lia.
  - repeat split; try assumption; rewrite Hrows.
    + apply createSession_ids, Hs.
    + apply SessionProps.createSession_keeps_invariant, Hone.
Qed.

Lemma step_notActive sid st st' :
  step st st' -> Scenario.notActive sid st -> Scenario.notActive sid st'.
Proof.
  intros Hstep Hna.
  destruct (step_sessions st st' Hstep)
    as [Hrows | (now & phone & chat & random & Hrows)].
  2:{ pose proof (createSession_notActive now phone chat random sid st Hna) as H.
      unfold Scenario.notActive in *. rewrite Hrows. exact H. }
  destruct Hna as [(s & Hin & Hs) Hna]. split.
  - destruct (rowsEvolve_forth _ _ Hrows s Hin) as (s' & Hin' & Hid & _).
    exists s'. split; [exact Hin'|congruence].
  - intros s' Hin' Hs' Hact.
    destruct (rowsEvolve_back _ _ Hrows s' Hin') as (s0 & Hin0 & Hid & _ & Hst).
    apply (Hna s0 Hin0); [congruence|exact (Hst Hact)].
Qed.

Lemma select_head_in {A} (p : A -> bool) rows x rest :
  select p rows = x :: rest -> In x rows /\ p x = true.
Proof.
  intros E. apply filter_In. unfold select in E. rewrite E. left. reflexivity.
Qed.


(** A form-funnel job of a session that is not active is skipped. *)
Lemma process_inactive now transport job st :
  Scenario.notActive (sessionId job) st ->
  messageType job = "form_reminder_19pm"%string
  \/ messageType job = "video_testimonial"%string ->
  outbox (snd (processScheduledMessage now transport job st)) = outbox st
  /\ forall r, fst (processScheduledMessage now transport job st) = Return r ->
       exists reason, r = Skipped reason.
Proof.
  intros [(s & Hin & Hs) Hna] Htype.
  unfold processScheduledMessage, processAttempt.
  destruct (select (by_id (scheduledMessageId job)) (scheduled_messages st))
    as [|row rest]; cbn [fst snd outbox with_messages];
    [split; [reflexivity|discriminate]|].
  destruct (MessageStatus_eqb (msg_status row) cancelled);
    cbn [fst snd outbox with_messages];
    [split; [reflexivity|intros r [= <-]; eexists; reflexivity]|].
  assert (prefix "appointment_reminder" (messageType job) = false) as ->
    by (destruct Htype as [-> | ->]; reflexivity).
  assert ((String.eqb (messageType job) "form_reminder_19pm"
           || String.eqb (messageType job) "video_testimonial") = true) as ->
    by (destruct Htype as [-> | ->]; reflexivity).
  cbn [andb].
  destruct (select (by_session_id (sessionId job)) (sessions st)) as [|s0 rest0] eqn:Es.
  - cbn [negb fst snd outbox with_messages].
    split; [reflexivity|intros r [= <-]; eexists; reflexivity].
  - destruct (select_head_in _ _ _ _ Es) as [Hin0 Hid0].
    apply String.eqb_eq in Hid0.
    specialize (Hna s0 Hin0 Hid0).
    destruct (status s0); try contradiction; cbn [SessionStatus_eqb negb fst snd
      outbox with_messages];
      (split; [reflexivity|intros r [= <-]; eexists; reflexivity]).
Qed.

(** X12.  The operations of the scheduler, the worker, the session manager,
    the booking webhook and the sweep keep the store well formed: from a
    state in which message ids and session ids are unique, the id sequence
    is ahead of every message, and each phone has at most one active
    session, every state they lead to, in whatever order and with whatever
    arguments they run (calls that throw included), is such a state. *)
Theorem reachable_states_are_well_formed :
  forall st st' : State,
    reachable st st' ->
    wellFormed st ->
    oneActivePerPhone (sessions st) ->
    wellFormed st' /\ oneActivePerPhone (sessions st').
Proof.
  intros st st' Hreach Hwf Hone.
  induction Hreach as [|st1 st2 _ IH Hstep]; [split; assumption|].
  apply (step_invariant st1 st2 Hstep IH).
Qed.

Lemma reachable_st_reminded_completed :
  reachable Store.empty Scenario.st_reminded_completed.
Proof.
  eapply reach_step; [eapply reach_step; [eapply reach_step; [apply reach_refl|]|]|].
  - exact (step_createSession Scenario.trigger Scenario.phone (Some Scenario.chat)
             "k3x9q" Store.empty).
  - exact (step_scheduleMessage Scenario.trigger
             (mkParams Scenario.sid Scenario.phone None "form_reminder_19pm" "r19"
                (TimezoneHelper.getNextValidBusinessTime
                   (TimezoneHelper.calculate19pmReminderTime
                      (TimezoneHelper.getNowInIsrael (israelOffset Scenario.trigger)
                         (nowMs Scenario.trigger))) None) None
                ["chatbotUrl"%string])
             Scenario.st_active).
  - exact (step_markCompleted Scenario.form_done Scenario.sid "{}" Scenario.st_reminded).
Defined.

Lemma reachable_states_are_well_formed_witness :
  reachable Store.empty Scenario.st_reminded_completed
  /\ wellFormed Store.empty
  /\ oneActivePerPhone (sessions Store.empty)
  /\ wellFormed Scenario.st_reminded_completed
  /\ oneActivePerPhone (sessions Scenario.st_reminded_completed).
Proof.
  split; [exact reachable_st_reminded_completed|].
  split; [exact SessionProps.empty_wellFormed|].
  split; [exact SessionProps.empty_oneActive|].
  exact (reachable_states_are_well_formed Store.empty Scenario.st_reminded_completed
           reachable_st_reminded_completed SessionProps.empty_wellFormed
           SessionProps.empty_oneActive).
Defined.

(** X13.  A session that is no longer active never becomes active again,
    and from then on the worker sends none of its form-funnel messages: in every state
    reached later, processing a [form_reminder_19pm] or [video_testimonial]
    job of the session leaves the outbox as it is, and if the attempt
    returns, it returns a skip. *)
Theorem form_funnel_is_silent_once_inactive :
  forall (st st' : State) (now : Clock) (transport : Transport) (job : JobData),
    Scenario.notActive (sessionId job) st ->
    reachable st st' ->
    messageType job = "form_reminder_19pm"%string
    \/ messageType job = "video_testimonial"%string ->
    Scenario.notActive (sessionId job) st'
    /\ outbox (snd (processScheduledMessage now transport job st')) = outbox st'
    /\ forall r, fst (processScheduledMessage now transport job st') = Return r ->
         exists reason, r = Skipped reason.
Proof.
  intros st st' now transport job Hna Hreach Htype.
  assert (Scenario.notActive (sessionId job) st') as Hna'.
  { induction Hreach as [|st1 st2 _ IH Hstep]; [exact Hna|].
    apply (step_notActive _ st1 st2 Hstep IH). }
  split; [exact Hna'|]. apply process_inactive; assumption.
Qed.

Lemma st_reminded_completed_notActive :
  Scenario.notActive (sessionId Scenario.reminder19_job) Scenario.st_reminded_completed.
Proof.
  split.
  - eexists. split; [left; reflexivity|reflexivity].
  - intros s Hin _. vm_compute in Hin. destruct Hin as [<-|[]]. discriminate.
Defined.

Lemma form_funnel_is_silent_once_inactive_witness :
  Scenario.notActive (sessionId Scenario.reminder19_job) Scenario.st_reminded_completed
  /\ reachable Scenario.st_reminded_completed
       (ReminderScheduler.checkAndSendReminders false Scenario.sunday_nine
          Scenario.client_ok Scenario.st_reminded_completed)
  /\ outbox (snd (processScheduledMessage Scenario.sunday_nine Scenario.transport_ok
                    Scenario.reminder19_job
                    (ReminderScheduler.checkAndSendReminders false Scenario.sunday_nine
                       Scenario.client_ok Scenario.st_reminded_completed)))
     = outbox (ReminderScheduler.checkAndSendReminders false Scenario.sunday_nine
                 Scenario.client_ok Scenario.st_reminded_completed).
Proof.
  split; [exact st_reminded_completed_notActive|].
  split; [eapply reach_step; [apply reach_refl|apply step_checkAndSendReminders]|].
  apply (form_funnel_is_silent_once_inactive Scenario.st_reminded_completed _
           Scenario.sunday_nine Scenario.transport_ok Scenario.reminder19_job
           st_reminded_completed_notActive).
  - eapply reach_step; [apply reach_refl|apply step_checkAndSendReminders].
  - left. reflexivity.
Defined.

End SystemProps.

(** ** Cancelling: counts and repetition *)
Module CancelMore.
Import Store MessageScheduler System.

Lemma select_in {A} (p : A -> bool) rows x :
  In x (select p rows) <-> In x rows /\ p x = true.
Proof. unfold select. apply filter_In. Qed.

Lemma select_none {A} (p : A -> bool) rows :
  (forall x, In x rows -> p x = false) -> select p rows = [].
Proof.
  intros H. induction rows as [|a rows IH]; [reflexivity|].
  cbn. rewrite (H a (or_introl eq_refl)). apply IH.
  intros x Hx. apply H. right. exact Hx.
Qed.











End CancelMore.

(** ** Expiry *)
Module ExpiryProps.
Import Store MessageScheduler SessionManager System Notions.






Lemma expired_rows (p : Session -> bool) rows s :
  In s (update p (set_status expired) rows) -> p s = true \/ status s = expired ->
  (forall x, p (set_status expired x) = p x) ->
  status s = expired.
Proof.
  intros Hin Hs Hp. unfold update in Hin. apply in_map_iff in Hin.
  destruct Hin as (x & E & _). destruct (p x) eqn:Ex; subst s; [reflexivity|].
  destruct Hs as [Hs|Hs]; [congruence|exact Hs].
Qed.








Lemma latest_in rows : forall r,
  Server.latest rows = Some r ->
  In r rows /\ forall r', In r' rows -> created_at r' <= created_at r.
Proof.
  induction rows as [|a rows IH]; intros r H; [discriminate H|].
  cbn [Server.latest] in H.
  destruct (Server.latest rows) as [b|] eqn:Eb.
  - destruct (IH b eq_refl) as [Hb Hmax].
    destruct (created_at a <? created_at b) eqn:El; injection H as <-.
    + apply Z.ltb_lt in El. split; [right; exact Hb|].
      intros r' [<-|Hr']; [lia|apply Hmax, Hr'].
    + apply Z.ltb_ge in El. split; [left; reflexivity|].
      intros r' [<-|Hr']; [lia|specialize (Hmax r' Hr'); lia].
  - injection H as <-. split; [left; reflexivity|].
    intros r' [<-|Hr']; [lia|]. destruct rows; [destruct Hr'|].
    cbn in Eb. destruct (Server.latest rows);
      [destruct (_ <? _)|]; discriminate Eb.
Qed.




(** X19.  [expireAllActiveSessions] returns the number of active sessions
    and leaves none: [getAllActiveSessions] is empty afterwards, session ids
    are as before, and rows that were not active are untouched.  Unlike
    [expireSession] it cancels nothing: messages and queue are as before. *)
Theorem expireAllActiveSessions_leaves_none_active :
  forall st : State,
    fst (SessionQueries.expireAllActiveSessions st)
    = Z.of_nat (List.length (SessionQueries.getAllActiveSessions st))
    /\ SessionQueries.getAllActiveSessions
         (snd (SessionQueries.expireAllActiveSessions st)) = []
    /\ map session_id (sessions (snd (SessionQueries.expireAllActiveSessions st)))
       = map session_id (sessions st)
    /\ (forall s, In s (sessions st) -> status s <> active ->
                  In s (sessions (snd (SessionQueries.expireAllActiveSessions st))))
    /\ scheduled_messages (snd (SessionQueries.expireAllActiveSessions st))
       = scheduled_messages st
    /\ queue (snd (SessionQueries.expireAllActiveSessions st)) = queue st.
Proof.
  intros st. unfold SessionQueries.expireAllActiveSessions,
    SessionQueries.getAllActiveSessions. cbn [fst snd sessions with_sessions
    scheduled_messages queue].
  split; [rewrite length_map; reflexivity|].
  split; [|split; [|split; [|split; reflexivity]]].
  - rewrite CancelMore.select_none; [reflexivity|].
    intros s Hin. unfold update in Hin. apply in_map_iff in Hin.
    destruct Hin as (x & E & _).
    destruct (SessionStatus_eqb (status x) active) eqn:Ex; subst s;
      [reflexivity|exact Ex].
  - apply SystemProps.update_ids. reflexivity.
  - intros s Hin Hs. unfold update. apply in_map_iff. exists s.
    split; [|exact Hin].
    destruct (status s); try contradiction; reflexivity.
Qed.

End ExpiryProps.

(** ** Whom the sweep reminds *)
Module SweepTargets.
Import Store MessageScheduler ReminderScheduler System Notions.

Lemma same_refl s : sameButReminders s s.
Proof. destruct s. reflexivity. Qed.

Lemma same_trans s1 s2 s3 :
  sameButReminders s1 s2 -> sameButReminders s2 s3 -> sameButReminders s1 s3.
Proof.
  unfold sameButReminders. intros H12 H23. rewrite H23 at 1. rewrite H12 at 1.
  reflexivity.
Qed.

Lemma Forall2_same_refl rows : Forall2 sameButReminders rows rows.
Proof. induction rows; constructor; [apply same_refl|assumption]. Qed.

Lemma Forall2_same_trans r1 : forall r2 r3,
  Forall2 sameButReminders r1 r2 -> Forall2 sameButReminders r2 r3 ->
  Forall2 sameButReminders r1 r3.
Proof.
  induction r1 as [|a r1 IH]; intros r2 r3 H12 H23.
  - inversion H12; subst. inversion H23; subst. constructor.
  - inversion H12 as [|? b ? r2' Hab H12']; subst.
    inversion H23 as [|? c ? r3' Hbc H23']; subst.
    constructor; [eapply same_trans; eassumption|eapply IH; eassumption].
Qed.

Lemma Forall2_same_back rows rows' :
  Forall2 sameButReminders rows rows' ->
  forall s', In s' rows' -> exists s, In s rows /\ sameButReminders s s'.
Proof.
  induction 1 as [|s s' rows rows' Hs _ IH]; intros x Hx; [destruct Hx|].
  destruct Hx as [<-|Hx].
  - exists s. split; [left; reflexivity|exact Hs].
  - destruct (IH x Hx) as (y & Hy & Hxy). exists y. split; [right|]; assumption.
Qed.

Lemma Forall2_same_update p f a rows :
  Forall2 sameButReminders rows (update p (set_reminders_sent f a) rows).
Proof.
  induction rows as [|s rows IH]; cbn; constructor; [|exact IH].
  destruct (p s); [reflexivity|apply same_refl].
Qed.

Ltac nothing_out :=
  exists []; rewrite app_nil_r;
  split; [reflexivity|split; [intros ? []|apply Forall2_same_refl]].

(** One send: at most one message, a reminder of the funnel, addressed to
    the chat of the session. *)
Lemma sendReminder_out type link client session stage st :
  exists extra,
    outbox (sendReminder type link client session stage st)
    = (outbox st ++ extra)%list
    /\ (forall x, In x extra ->
          to x = chat_id session /\ body x = ReminderText type stage link)
    /\ Forall2 sameButReminders (sessions st)
         (sessions (sendReminder type link client session stage st)).
Proof.
  unfold sendReminder.
  destruct (hasReminderMessage type stage);
    [|nothing_out].
  destruct (ready client && truthy (chat_id session));
    [|nothing_out].
  match goal with
  | |- context [if transport client ?msg then _ else _] =>
      destruct (transport client msg);
        [exists [msg]|nothing_out]
  end.
  destruct (String.eqb type "form"); cbn [outbox sessions with_sessions with_outbox];
    (split; [reflexivity|];
     split; [intros x [<-|[]]; split; reflexivity|apply Forall2_same_update]).
Qed.

Lemma sweepRows_out tm now type sentAt sentOf send rows :
  (forall session stage st,
     exists extra,
       outbox (send session stage st) = (outbox st ++ extra)%list
       /\ (forall x, In x extra ->
             to x = chat_id session
             /\ exists link, body x = ReminderText type stage link)
       /\ Forall2 sameButReminders (sessions st) (sessions (send session stage st))) ->
  forall st,
    exists extra,
      outbox (sweepRows tm now type sentAt sentOf send rows st)
      = (outbox st ++ extra)%list
      /\ (forall x, In x extra ->
            exists s stage link,
              In s rows /\ to x = chat_id s
              /\ body x = ReminderText type stage link)
      /\ Forall2 sameButReminders (sessions st)
           (sessions (sweepRows tm now type sentAt sentOf send rows st)).
Proof.
  intros Hsend. induction rows as [|row rows IH]; intros st.
  - cbn. nothing_out.
  - cbn [sweepRows].
    set (st1 := match ReminderPolicy.getNextReminderStage tm now
                        (newDate (sentAt row)) (sentOf row) type with
                | Return (Some nextStage) =>
                    if nextStage =? 0 then st else send row nextStage st
                | _ => st
                end).
    assert (exists extra,
              outbox st1 = (outbox st ++ extra)%list
              /\ (forall x, In x extra ->
                    to x = chat_id row
                    /\ exists stage link, body x = ReminderText type stage link)
              /\ Forall2 sameButReminders (sessions st) (sessions st1)) as H1.
    { unfold st1.
      destruct (ReminderPolicy.getNextReminderStage tm now
                  (newDate (sentAt row)) (sentOf row) type)
        as [[s|]|e];
        try (nothing_out).
      destruct (s =? 0);
        [nothing_out|].
      destruct (Hsend row s st) as (e & Ho & Hto & Hs).
      exists e. split; [exact Ho|]. split; [|exact Hs].
      intros x Hx. destruct (Hto x Hx) as (A & link & B).
      split; [exact A|]. exists s, link. exact B. }
    destruct H1 as (e1 & Ho1 & Hto1 & Hs1).
    destruct (IH st1) as (e2 & Ho2 & Hto2 & Hs2).
    exists (e1 ++ e2)%list. split; [rewrite Ho2, Ho1, app_assoc; reflexivity|].
    split; [|eapply Forall2_same_trans; eassumption].
    intros x Hx. apply in_app_or in Hx. destruct Hx as [Hx|Hx].
    + destruct (Hto1 x Hx) as (A & stage & link & B).
      exists row, stage, link. split; [left; reflexivity|]. split; assumption.
    + destruct (Hto2 x Hx) as (s & stage & link & Hs & Hts & Hb).
      exists s, stage, link. split; [right; exact Hs|]. split; assumption.
Qed.

Lemma send_out type link client session stage st :
  exists extra,
    outbox (sendReminder type link client session stage st)
    = (outbox st ++ extra)%list
    /\ (forall x, In x extra ->
          to x = chat_id session
          /\ exists link', body x = ReminderText type stage link')
    /\ Forall2 sameButReminders (sessions st)
         (sessions (sendReminder type link client session stage st)).
Proof.
  destruct (sendReminder_out type link client session stage st)
    as (e & Ho & Hto & Hs).
  exists e. split; [exact Ho|]. split; [|exact Hs].
  intros x Hx. destruct (Hto x Hx) as [A B]. split; [exact A|].
  exists link. exact B.
Qed.

Lemma needsFormReminder_spec now s :
  needsFormReminder now s = true ->
  status s = active /\ form_sent_at s <> None /\ form_completed_at s = None
  /\ nowMs now < expires_at s.
Proof.
  unfold needsFormReminder. intros H.
  apply andb_true_iff in H. destruct H as [H H4].
  apply andb_true_iff in H. destruct H as [H H3].
  apply andb_true_iff in H. destruct H as [H1 H2].
  apply Z.ltb_lt in H4.
  destruct (status s); try discriminate H1.
  destruct (form_sent_at s); [|discriminate H2].
  destruct (form_completed_at s); [discriminate H3|].
  repeat split; [discriminate|exact H4].
Qed.

Lemma needsAppointmentReminder_spec now s :
  needsAppointmentReminder now s = true ->
  status s = completed /\ appointment_sent_at s <> None
  /\ appointment_scheduled_at s = None /\ nowMs now < expires_at s.
Proof.
  unfold needsAppointmentReminder. intros H.
  apply andb_true_iff in H. destruct H as [H H4].
  apply andb_true_iff in H. destruct H as [H H3].
  apply andb_true_iff in H. destruct H as [H1 H2].
  apply Z.ltb_lt in H4.
  destruct (status s); try discriminate H1.
  destruct (appointment_sent_at s); [|discriminate H2].
  destruct (appointment_scheduled_at s); [discriminate H3|].
  repeat split; [discriminate|exact H4].
Qed.

Lemma same_needsAppointmentReminder now s s' :
  sameButReminders s s' ->
  needsAppointmentReminder now s' = needsAppointmentReminder now s
  /\ chat_id s' = chat_id s.
Proof. intros ->. split; reflexivity. Qed.

(** What a sweep sends: reminders of the two funnels, each to a session
    that its query selects. *)
Lemma sweep_out tm now client st :
  exists extra,
    outbox (checkAndSendReminders tm now client st) = (outbox st ++ extra)%list
    /\ forall x, In x extra ->
         (tm = true \/ OperatingHours.isWithinOperatingHours now = true)
         /\ exists s stage link,
              In s (sessions st) /\ to x = chat_id s
              /\ ((body x = ReminderText "form" stage link
                   /\ needsFormReminder now s = true)
                  \/ (body x = ReminderText "appointment" stage link
                      /\ needsAppointmentReminder now s = true)).
Proof.
  unfold checkAndSendReminders, checkAppointmentReminders, checkFormReminders.
  destruct (negb tm && negb (OperatingHours.isWithinOperatingHours now)) eqn:Eh.
  - exists []. rewrite app_nil_r. split; [reflexivity|intros x []].
  - assert (tm = true \/ OperatingHours.isWithinOperatingHours now = true) as Hopen.
    { destruct tm; [left; reflexivity|right].
      destruct (OperatingHours.isWithinOperatingHours now);
        [reflexivity|discriminate Eh]. }
    set (st1 := sweepRows tm now "form" form_sent_at reminders_sent_form
                  (sendFormReminder client)
                  (select (needsFormReminder now) (sessions st)) st).
    destruct (sweepRows_out tm now "form" form_sent_at reminders_sent_form
                (sendFormReminder client)
                (select (needsFormReminder now) (sessions st))
                (fun session stage st0 => send_out _ _ client session stage st0)
                st) as (e1 & Ho1 & Hto1 & Hs1).
    fold st1 in Ho1, Hs1.
    destruct (sweepRows_out tm now "appointment" appointment_sent_at
                reminders_sent_appointment (sendAppointmentReminder client)
                (select (needsAppointmentReminder now) (sessions st1))
                (fun session stage st0 => send_out _ _ client session stage st0)
                st1) as (e2 & Ho2 & Hto2 & _).
    exists (e1 ++ e2)%list. split; [rewrite Ho2, Ho1, app_assoc; reflexivity|].
    intros x Hx. split; [exact Hopen|].
    apply in_app_or in Hx. destruct Hx as [Hx|Hx].
    + destruct (Hto1 x Hx) as (s & stage & link & Hs & Hts & Hb).
      apply CancelMore.select_in in Hs. destruct Hs as [Hin Hneeds].
      exists s, stage, link. auto.
    + destruct (Hto2 x Hx) as (s1 & stage & link & Hs & Hts & Hb).
      apply CancelMore.select_in in Hs. destruct Hs as [Hin1 Hneeds].
      destruct (Forall2_same_back _ _ Hs1 s1 Hin1) as (s & Hin & Hsame).
      destruct (same_needsAppointmentReminder now s s1 Hsame) as [En Ec].
      rewrite En in Hneeds.
      exists s, stage, link. rewrite Hts, Ec. auto.
Qed.

(** X20.  A sweep writes only to sessions that are due: every message it
    adds to the outbox goes to the chat of a session of the store that has
    not reached [expires_at] and is either active with the form link sent
    and the form not completed, or completed with the appointment link sent
    and no appointment booked; and it adds none outside operating hours
    unless in test mode. *)
Theorem sweep_reminds_only_sessions_that_are_due :
  forall (IS_TEST_MODE : bool) (now : Clock) (client : Client) (st : State),
    exists extra,
      outbox (checkAndSendReminders IS_TEST_MODE now client st)
      = (outbox st ++ extra)%list
      /\ forall x, In x extra ->
           (IS_TEST_MODE = true \/ OperatingHours.isWithinOperatingHours now = true)
           /\ exists s,
                In s (sessions st) /\ to x = chat_id s
                /\ nowMs now < expires_at s
                /\ ((status s = active /\ form_sent_at s <> None
                     /\ form_completed_at s = None)
                    \/ (status s = completed /\ appointment_sent_at s <> None
                        /\ appointment_scheduled_at s = None)).
Proof.
  intros tm now client st.
  destruct (sweep_out tm now client st) as (extra & Ho & Hextra).
  exists extra. split; [exact Ho|].
  intros x Hx. destruct (Hextra x Hx) as (Hopen & s & stage & link & Hin & Hto & Hdue).
  split; [exact Hopen|]. exists s.
  destruct Hdue as [[_ Hneeds]|[_ Hneeds]].
  - destruct (needsFormReminder_spec now s Hneeds) as (A & B & C & D). auto 8.
  - destruct (needsAppointmentReminder_spec now s Hneeds) as (A & B & C & D). auto 8.
Qed.

(** [new Date(null)] is the epoch and not [null]: asked with it, the
    policy names stage 1.  The loops of the sweeps never get there, since
    their queries leave such a session out. *)
Lemma policy_at_the_epoch :
  newDate None = Some 0
  /\ ReminderPolicy.getNextReminderStage false Scenario.thursday_seven
       (newDate None) [] "form" = Return (Some 1).
Proof. split; vm_compute; reflexivity. Qed.

(** C10.  With a [null] stage-zero time the policy returns [null], for
    every list of sent stages and every funnel name, known or not: it
    neither throws nor names a stage.  And a session whose stage-zero event
    never happened is not reminded: every reminder that a sweep sends is a
    reminder of a funnel whose stage-zero time is set in the session it
    goes to ([form_sent_at] for a form reminder, [appointment_sent_at] for
    an appointment reminder).  It is the queries of the sweeps that see to
    that, with [form_sent_at IS NOT NULL] and [appointment_sent_at IS NOT
    NULL]; their loops ask the policy with [new Date(column)], which is
    never [null]. *)
Theorem null_stage_zero_returns_none :
  forall (IS_TEST_MODE : bool) (now : Clock) (alreadySent : list Z)
         (type : string),
    ReminderPolicy.getNextReminderStage IS_TEST_MODE now None alreadySent type
    = Return None
    /\ forall (client : Client) (st : State),
         exists extra,
           outbox (checkAndSendReminders IS_TEST_MODE now client st)
           = (outbox st ++ extra)%list
           /\ forall x, In x extra ->
                exists s stage link,
                  In s (sessions st) /\ to x = chat_id s
                  /\ ((body x = ReminderText "form" stage link
                       /\ form_sent_at s <> None)
                      \/ (body x = ReminderText "appointment" stage link
                          /\ appointment_sent_at s <> None)).
Proof.
  intros tm now sent type. split; [reflexivity|].
  intros client st.
  destruct (sweep_out tm now client st) as (extra & Ho & Hextra).
  exists extra. split; [exact Ho|].
  intros x Hx. destruct (Hextra x Hx) as (_ & s & stage & link & Hin & Hto & Hdue).
  exists s, stage, link. split; [exact Hin|]. split; [exact Hto|].
  destruct Hdue as [[Hb Hneeds]|[Hb Hneeds]].
  - left. split; [exact Hb|]. apply (needsFormReminder_spec now s Hneeds).
  - right. split; [exact Hb|]. apply (needsAppointmentReminder_spec now s Hneeds).
Qed.

End SweepTargets.

(** ** The booking webhook *)
Module WebhookProps.
Import Store MessageScheduler Server ReminderScheduler.

Lemma bookRow_rows now sid rows : forall s,
  In s (update (by_session_id sid) (bookRow now) rows) -> session_id s = sid ->
  status s = completed /\ appointment_scheduled_at s = Some (nowMs now).
Proof.
  intros s Hin Hs. unfold update in Hin. apply in_map_iff in Hin.
  destruct Hin as (x & E & _). unfold by_session_id in E.
  destruct (String.eqb (session_id x) sid) eqn:Ex; subst s; [split; reflexivity|].
  apply String.eqb_neq in Ex. contradiction.
Qed.

Lemma hd_error_some_in {A} (l : list A) x : hd_error l = Some x -> In x l.
Proof. destruct l; [discriminate|]. intros [= ->]. left. reflexivity. Qed.

Lemma latest_select_in (p : Session -> bool) rows row :
  latest (select p rows) = Some row -> In row rows.
Proof.
  intros H. apply ExpiryProps.latest_in in H. destruct H as [H _].
  apply CancelMore.select_in in H. tauto.
Qed.

Lemma answer_effect now target st r st' :
  (match target with
   | Some row =>
     (mkResponse 200 (Some (session_id row, phone_number row)),
      with_sessions (update (by_session_id (session_id row)) (bookRow now)) st)
   | None => (mkResponse 404 None, st)
   end) = (r, st') ->
  (forall row, target = Some row -> In row (sessions st)) ->
  (http_status r = 200 \/ http_status r = 404)
  /\ (http_status r <> 200 -> st' = st)
  /\ (http_status r = 200 ->
      exists row, In row (sessions st)
        /\ matched r = Some (session_id row, phone_number row)
        /\ sessions st'
           = update (by_session_id (session_id row)) (bookRow now) (sessions st))
  /\ scheduled_messages st' = scheduled_messages st
  /\ queue st' = queue st /\ outbox st' = outbox st.
Proof.
  intros E Hin. destruct target as [row|]; injection E as <- <-; cbn.
  - split; [left; reflexivity|]. split; [intros H; contradiction|].
    split; [|auto]. intros _. exists row. auto.
  - split; [right; reflexivity|]. split; [reflexivity|].
    split; [discriminate|auto].
Qed.

(** X21.  With a database pool in place, the webhook
    [POST /api/bot/appointment-scheduled] answers 200, 400, 404 or 500.  It changes the store only when it answers 200, and
    then only the rows of the one session it names in the answer: they
    become [completed] with [appointment_scheduled_at] set, so that no
    later sweep finds them due for a form or an appointment reminder.  The
    tables of scheduled messages and jobs and the outbox are never touched:
    a reminder that was pending stays pending.  Without a [session_id], on
    a server that rejects [UPDATE ... ORDER BY ... LIMIT], it never answers
    200. *)
Theorem appointmentScheduled_marks_one_session :
  forall (updateLimit : bool) (now later : Clock) (phone sid : option string)
         (st : State),
    let r := fst (appointmentScheduled updateLimit now phone sid st) in
    let st' := snd (appointmentScheduled updateLimit now phone sid st) in
    (http_status r = 200 \/ http_status r = 400 \/ http_status r = 404
     \/ http_status r = 500)
    /\ (http_status r <> 200 -> st' = st)
    /\ (http_status r = 200 ->
        exists row, In row (sessions st)
          /\ matched r = Some (session_id row, phone_number row)
          /\ (forall s, In s (sessions st') -> session_id s = session_id row ->
                status s = completed
                /\ appointment_scheduled_at s = Some (nowMs now)
                /\ needsAppointmentReminder later s = false
                /\ needsFormReminder later s = false)
          /\ (forall s, In s (sessions st) -> session_id s <> session_id row ->
                In s (sessions st')))
    /\ scheduled_messages st' = scheduled_messages st
    /\ queue st' = queue st /\ outbox st' = outbox st
    /\ (truthy sid = false -> updateLimit = false -> http_status r <> 200).
Proof.
  intros updateLimit now later phone sid st. cbn zeta.
  assert (forall target r st',
            (match target with
             | Some row =>
               (mkResponse 200 (Some (session_id row, phone_number row)),
                with_sessions (update (by_session_id (session_id row)) (bookRow now)) st)
             | None => (mkResponse 404 None, st)
             end) = (r, st') ->
            (forall row, target = Some row -> In row (sessions st)) ->
            (http_status r = 200 \/ http_status r = 400 \/ http_status r = 404
             \/ http_status r = 500)
            /\ (http_status r <> 200 -> st' = st)
            /\ (http_status r = 200 ->
                exists row, In row (sessions st)
                  /\ matched r = Some (session_id row, phone_number row)
                  /\ (forall s, In s (sessions st') -> session_id s = session_id row ->
                        status s = completed
                        /\ appointment_scheduled_at s = Some (nowMs now)
                        /\ needsAppointmentReminder later s = false
                        /\ needsFormReminder later s = false)
                  /\ (forall s, In s (sessions st) -> session_id s <> session_id row ->
                        In s (sessions st')))
            /\ scheduled_messages st' = scheduled_messages st
            /\ queue st' = queue st /\ outbox st' = outbox st) as Hanswer.
  { intros target r st' E Hin.
    destruct (answer_effect now target st r st' E Hin)
      as (Hcode & Hsame & Hok & Hm & Hq & Ho).
    split; [tauto|]. split; [exact Hsame|]. split; [|auto].
    intros H200. destruct (Hok H200) as (row & Hrow & Hmatched & Hrows).
    exists row. split; [exact Hrow|]. split; [exact Hmatched|]. split.
    - intros s Hs Hid. rewrite Hrows in Hs.
      destruct (bookRow_rows now _ _ s Hs Hid) as [Hst Hat].
      unfold needsAppointmentReminder, needsFormReminder.
      rewrite Hst, Hat. cbn. rewrite andb_false_r. auto.
    - intros s Hs Hid. rewrite Hrows. unfold update. apply in_map_iff.
      exists s. split; [|exact Hs]. unfold by_session_id.
      apply String.eqb_neq in Hid. rewrite Hid. reflexivity. }
  assert (forall r, http_status r = 400 \/ http_status r = 500 ->
            (http_status r = 200 \/ http_status r = 400 \/ http_status r = 404
             \/ http_status r = 500)
            /\ (http_status r <> 200 -> st = st)
            /\ (http_status r = 200 ->
                exists row, In row (sessions st)
                  /\ matched r = Some (session_id row, phone_number row)
                  /\ (forall s, In s (sessions st) -> session_id s = session_id row ->
                        status s = completed
                        /\ appointment_scheduled_at s = Some (nowMs now)
                        /\ needsAppointmentReminder later s = false
                        /\ needsFormReminder later s = false)
                  /\ (forall s, In s (sessions st) -> session_id s <> session_id row ->
                        In s (sessions st)))
            /\ scheduled_messages st = scheduled_messages st
            /\ queue st = queue st /\ outbox st = outbox st) as Hrefuse.
  { intros r Hr. split; [tauto|]. split; [reflexivity|].
    split; [intros H; lia|auto]. }
  unfold appointmentScheduled.
  destruct (negb (truthy phone) && negb (truthy sid)) eqn:Eboth; cbn [fst snd].
  - destruct (Hrefuse (mkResponse 400 None) (or_introl eq_refl))
      as (A & B & C & D & E & F).
    repeat split; try assumption. intros _ _. cbn. discriminate.
  - destruct sid as [[|c rest]|]; [| |]; cbn [truthy] in *.
    + destruct phone as [ph|]; [|discriminate Eboth].
      destruct updateLimit; cbn [fst snd].
      * match goal with
        | |- context [fst ?x] =>
            destruct (Hanswer _ (fst x) (snd x) (surjective_pairing _))
              as (A & B & C & D & E & F)
        end.
        { intros row Hrow. apply latest_select_in in Hrow. exact Hrow. }
        repeat split; try assumption. intros _ Hf. discriminate Hf.
      * destruct (Hrefuse (mkResponse 500 None) (or_intror eq_refl))
          as (A & B & C & D & E & F).
        repeat split; try assumption. intros _ _. cbn. discriminate.
    + match goal with
      | |- context [fst ?x] =>
          destruct (Hanswer _ (fst x) (snd x) (surjective_pairing _))
            as (A & B & C & D & E & F)
      end.
      { intros row Hrow. apply hd_error_some_in in Hrow.
        apply CancelMore.select_in in Hrow. tauto. }
      repeat split; try assumption. intros Hf. discriminate Hf.
    + destruct phone as [ph|]; [|discriminate Eboth].
      destruct updateLimit; cbn [fst snd].
      * match goal with
        | |- context [fst ?x] =>
            destruct (Hanswer _ (fst x) (snd x) (surjective_pairing _))
              as (A & B & C & D & E & F)
        end.
        { intros row Hrow. apply latest_select_in in Hrow. exact Hrow. }
        repeat split; try assumption. intros _ Hf. discriminate Hf.
      * destruct (Hrefuse (mkResponse 500 None) (or_intror eq_refl))
          as (A & B & C & D & E & F).
        repeat split; try assumption. intros _ _. cbn. discriminate.
Qed.

End WebhookProps.

(** ** Phone numbers and chat ids *)
Module PhoneProps.
Import MessageScheduler BotHelpers Notions.

Lemma keepChars_every p s : everyChar p s = true -> keepChars p s = s.
Proof.
  induction s as [|c s IH]; [reflexivity|]. cbn. intros H.
  apply andb_true_iff in H. destruct H as [Hc Hs]. rewrite Hc, (IH Hs). reflexivity.
Qed.

Lemma every_weaken (p q : ascii -> bool) s :
  (forall c, p c = true -> q c = true) -> everyChar p s = true -> everyChar q s = true.
Proof.
  intros Hpq. induction s as [|c s IH]; [reflexivity|]. cbn. intros H.
  apply andb_true_iff in H. destruct H as [Hc Hs]. rewrite (Hpq c Hc), (IH Hs).
  reflexivity.
Qed.

Lemma every_keepChars p s : everyChar p (keepChars p s) = true.
Proof.
  induction s as [|c s IH]; [reflexivity|]. cbn.
  destruct (p c) eqn:E; [cbn; rewrite E|]; exact IH.
Qed.

Lemma digit_not (c d : ascii) :
  isDigit d = false -> isDigit c = true -> Ascii.eqb d c = false.
Proof.
  intros Hd Hc. destruct (Ascii.eqb_spec d c) as [->|]; [congruence|reflexivity].
Qed.

Lemma containsChar_every c p s :
  p c = false -> everyChar p s = true -> containsChar c s = false.
Proof.
  intros Hc. induction s as [|d s IH]; [reflexivity|]. cbn. intros H.
  apply andb_true_iff in H. destruct H as [Hd Hs]. rewrite (IH Hs), orb_false_r.
  destruct (Ascii.eqb_spec c d) as [->|]; [congruence|reflexivity].
Qed.

Lemma containsChar_app c s t :
  containsChar c (s ++ t) = containsChar c s || containsChar c t.
Proof.
  induction s as [|d s IH]; [reflexivity|]. cbn. rewrite IH. apply orb_assoc.
Qed.

Lemma beforeAt_app s t :
  containsChar "@" s = false -> beforeAt (s ++ String "@" t) = s.
Proof.
  induction s as [|c s IH]; [reflexivity|].
  cbn [containsChar beforeAt append]. intros H.
  apply orb_false_iff in H. destruct H as [Hc Hs].
  rewrite Ascii.eqb_sym in Hc. rewrite Hc, (IH Hs). reflexivity.
Qed.

Lemma app_not_empty s t : (s ++ String "@" t)%string <> EmptyString.
Proof. destruct s; discriminate. Qed.

(** X22.  A phone number made of digits survives the trip to a chat id and
    back: [phoneToWhatsAppId] appends [@s.whatsapp.net] (also when the
    number comes with a leading plus sign), [extractPhoneNumber] gives the
    number back, and [formatPhoneNumber] leaves it as it is. *)
Theorem phone_number_round_trip :
  forall phone : string,
    phone <> EmptyString ->
    everyChar isDigit phone = true ->
    phoneToWhatsAppId phone = Some (phone ++ "@s.whatsapp.net")%string
    /\ phoneToWhatsAppId (String "+" phone) = Some (phone ++ "@s.whatsapp.net")%string
    /\ extractPhoneNumber (phoneToWhatsAppId phone) = Some phone
    /\ formatPhoneNumber (extractPhoneNumber (phoneToWhatsAppId phone)) = Some phone
    /\ formatPhoneNumber (Some (String "+" phone)) = Some phone.
Proof.
  intros phone Hne Hd.
  assert (containsChar "@" phone = false) as Hat
    by (apply (containsChar_every _ isDigit); [reflexivity|exact Hd]).
  assert (keepChars (fun c => isDigit c || Ascii.eqb c "+") phone = phone) as Hk.
  { apply keepChars_every. apply (every_weaken isDigit); [|exact Hd].
    intros c Hc. rewrite Hc. reflexivity. }
  assert (phoneToWhatsAppId phone = Some (phone ++ "@s.whatsapp.net")%string) as E1.
  { unfold phoneToWhatsAppId. destruct phone as [|c rest]; [contradiction|].
    rewrite Hat, Hk. cbn in Hd. apply andb_true_iff in Hd. destruct Hd as [Hc _].
    rewrite Ascii.eqb_sym, (digit_not c "+" eq_refl Hc). reflexivity. }
  assert (extractPhoneNumber (Some (phone ++ "@s.whatsapp.net")%string) = Some phone) as E2.
  { unfold extractPhoneNumber.
    destruct (phone ++ "@s.whatsapp.net")%string as [|c rest] eqn:E;
      [exfalso; apply (app_not_empty _ _ E)|].
    rewrite <- E. rewrite beforeAt_app by exact Hat. reflexivity. }
  assert (formatPhoneNumber (Some phone) = Some phone) as E3.
  { unfold formatPhoneNumber. destruct phone as [|c rest]; [contradiction|].
    rewrite keepChars_every by exact Hd. reflexivity. }
  split; [exact E1|]. split.
  - unfold phoneToWhatsAppId. cbn [containsChar]. rewrite Hat.
    cbn [Ascii.eqb orb keepChars isDigit]. cbn. rewrite Hk. reflexivity.
  - rewrite E1, E2, E3. repeat split.
    unfold formatPhoneNumber. cbn. rewrite keepChars_every by exact Hd. reflexivity.
Qed.

Lemma phone_number_round_trip_witness :
  Scenario.phone <> EmptyString
  /\ everyChar isDigit Scenario.phone = true
  /\ extractPhoneNumber (phoneToWhatsAppId Scenario.phone) = Some Scenario.phone.
Proof.
  split; [discriminate|]. split; [reflexivity|].
  apply (phone_number_round_trip Scenario.phone); [discriminate|reflexivity].
Defined.

(** X23.  Whatever non-empty text [phoneToWhatsAppId] is given, its answer
    is a chat id: it contains [@], its part before the [@] has no
    character other than digits and plus signs unless the input was a chat
    id already, and [phoneToWhatsAppId] returns it unchanged when applied
    again.  Only the empty text has no answer. *)
Theorem phoneToWhatsAppId_gives_a_chat_id :
  forall phone : string,
    (phoneToWhatsAppId phone = None <-> phone = EmptyString)
    /\ forall r, phoneToWhatsAppId phone = Some r ->
         containsChar "@" r = true
         /\ phoneToWhatsAppId r = Some r
         /\ (containsChar "@" phone = true -> r = phone)
         /\ (containsChar "@" phone = false ->
             everyChar (fun c => isDigit c || Ascii.eqb c "+") (beforeAt r) = true).
Proof.
  intros phone. split.
  - unfold phoneToWhatsAppId. destruct phone as [|c rest]; [tauto|].
    destruct (containsChar "@" (String c rest)); split; discriminate.
  - intros r Hr.
    assert (forall s, containsChar "@" s = true -> phoneToWhatsAppId s = Some s) as Hfix.
    { intros s Hs. unfold phoneToWhatsAppId. destruct s as [|c rest];
        [discriminate Hs|]. rewrite Hs. reflexivity. }
    unfold phoneToWhatsAppId in Hr. destruct phone as [|c rest]; [discriminate Hr|].
    destruct (containsChar "@" (String c rest)) eqn:Eat.
    + injection Hr as <-. repeat split; auto. discriminate.
    + set (cleaned := keepChars (fun c => isDigit c || Ascii.eqb c "+") (String c rest))
        in Hr.
      assert (everyChar (fun c => isDigit c || Ascii.eqb c "+") cleaned = true) as Hc
        by apply every_keepChars.
      set (numberOnly := match cleaned with
                         | String c rest => if Ascii.eqb c "+" then rest else cleaned
                         | EmptyString => cleaned
                         end) in Hr.
      assert (everyChar (fun c => isDigit c || Ascii.eqb c "+") numberOnly = true) as Hn.
      { unfold numberOnly. destruct cleaned as [|d cl]; [reflexivity|].
        destruct (Ascii.eqb d "+"); [|exact Hc].
        cbn in Hc. apply andb_true_iff in Hc. tauto. }
      injection Hr as <-.
      assert (containsChar "@" (numberOnly ++ "@s.whatsapp.net") = true) as Hin.
      { rewrite containsChar_app. cbn. apply orb_true_r. }
      repeat split; auto; [discriminate|].
      intros _. rewrite beforeAt_app; [exact Hn|].
      apply (containsChar_every _ (fun c => isDigit c || Ascii.eqb c "+"));
        [reflexivity|exact Hn].
Qed.

End PhoneProps.

(** ** The LID table *)
Module LidProps.
Import BotHelpers LidMapping.

Lemma upsert_hit now k p n rows :
  exists r rest,
    filter (fun r => String.eqb (lid r) k) (upsert now k p n rows) = r :: rest
    /\ lm_phone_number r = p
    /\ (lm_name r = n \/ n = None).
Proof.
  induction rows as [|a rows IH]; cbn.
  - rewrite String.eqb_refl. eexists. eexists. split; [reflexivity|]. cbn. auto.
  - destruct (String.eqb (lid a) k) eqn:E; cbn; rewrite E.
    + eexists. eexists. split; [reflexivity|]. cbn. split; [reflexivity|].
      destruct n; auto.
    + exact IH.
Qed.

Lemma upsert_miss now k p n k' rows :
  k' <> k ->
  filter (fun r => String.eqb (lid r) k') (upsert now k p n rows)
  = filter (fun r => String.eqb (lid r) k') rows.
Proof.
  intros Hk. induction rows as [|a rows IH]; cbn.
  - apply String.eqb_neq in Hk. rewrite String.eqb_sym, Hk. reflexivity.
  - destruct (String.eqb (lid a) k) eqn:E; cbn.
    + apply String.eqb_eq in E. rewrite E.
      apply String.eqb_neq in Hk. rewrite String.eqb_sym, Hk. reflexivity.
    + rewrite IH. reflexivity.
Qed.

Lemma upsert_lids now k p n rows :
  (forall r, In r rows -> lid r <> k) ->
  map lid (upsert now k p n rows) = (map lid rows ++ [k])%list.
Proof.
  induction rows as [|a rows IH]; intros H; [reflexivity|]. cbn.
  destruct (String.eqb (lid a) k) eqn:E.
  - apply String.eqb_eq in E. exfalso. apply (H a (or_introl eq_refl) E).
  - cbn. rewrite IH; [reflexivity|]. intros r Hr. apply H. right. exact Hr.
Qed.

Lemma upsert_lids_known now k p n rows :
  (exists r, In r rows /\ lid r = k) ->
  map lid (upsert now k p n rows) = map lid rows.
Proof.
  induction rows as [|a rows IH]; intros (r & Hr & Hk); [destruct Hr|]. cbn.
  destruct (String.eqb (lid a) k) eqn:E; [reflexivity|].
  cbn. rewrite IH; [reflexivity|]. destruct Hr as [<-|Hr].
  - apply String.eqb_neq in E. contradiction.
  - exists r. auto.
Qed.

(** X24.  A mapping that [storeLidMapping] says it stored is found again:
    [getPhoneFromLid] of the same LID, with or without a suffix after [@],
    returns the phone number without its suffix; look-ups of other LIDs
    answer as before; and storing a LID that is already in the table adds
    no row. *)
Theorem stored_lid_is_found_again :
  forall (now : Z) (lid_ phone name : option string) (db : Db),
    fst (storeLidMapping now lid_ phone name db) = true ->
    exists l p rows rows',
      lid_ = Some l /\ phone = Some p /\ db = Some rows
      /\ snd (storeLidMapping now lid_ phone name db) = Some rows'
      /\ getPhoneFromLid lid_ (snd (storeLidMapping now lid_ phone name db))
         = Some (beforeAt p)
      /\ (forall other, other <> EmptyString -> beforeAt other = beforeAt l ->
            getPhoneFromLid (Some other) (snd (storeLidMapping now lid_ phone name db))
            = Some (beforeAt p))
      /\ (forall other, beforeAt other <> beforeAt l ->
            getPhoneFromLid (Some other) (snd (storeLidMapping now lid_ phone name db))
            = getPhoneFromLid (Some other) db)
      /\ ((exists r, In r rows /\ lid r = beforeAt l) -> map lid rows' = map lid rows).
Proof.
  intros now lid_ phone name db H. unfold storeLidMapping in *.
  destruct db as [rows|]; [|discriminate H].
  destruct lid_ as [[|a l]|]; try discriminate H.
  destruct phone as [[|b p]|]; try discriminate H.
  cbn [fst snd].
  set (k := beforeAt (String a l)). set (q := beforeAt (String b p)).
  assert (forall other, other <> EmptyString -> beforeAt other = k ->
            getPhoneFromLid (Some other) (Some (upsert now k q name rows)) = Some q)
    as Hfound.
  { intros other Hne Hk. unfold getPhoneFromLid.
    destruct other as [|c o]; [contradiction|]. rewrite Hk.
    destruct (upsert_hit now k q name rows) as (r & rest & -> & Hp & _).
    rewrite Hp. reflexivity. }
  exists (String a l), (String b p), rows, (upsert now k q name rows).
  repeat split.
  - apply Hfound; [discriminate|reflexivity].
  - exact Hfound.
  - intros other Hother. unfold getPhoneFromLid.
    destruct other as [|c o]; [reflexivity|].
    rewrite upsert_miss by exact Hother. reflexivity.
  - apply upsert_lids_known.
Qed.

Lemma stored_lid_is_found_again_witness :
  fst (storeLidMapping 0 (Some "203461241139302@lid")
         (Some "972501234567@s.whatsapp.net") None (Some [])) = true
  /\ getPhoneFromLid (Some "203461241139302")
       (snd (storeLidMapping 0 (Some "203461241139302@lid")
               (Some "972501234567@s.whatsapp.net") None (Some [])))
     = Some "972501234567".
Proof.
  split; [reflexivity|].
  destruct (stored_lid_is_found_again 0 (Some "203461241139302@lid")
              (Some "972501234567@s.whatsapp.net") None (Some []) eq_refl)
    as (l & p & rows & rows' & El & Ep & _ & _ & _ & Hsame & _).
  injection El as <-. injection Ep as <-.
  apply (Hsame "203461241139302"); [discriminate|reflexivity].
Defined.

End LidProps.

(** ** One attempt of the worker *)
Module AttemptProps.
Import Store MessageScheduler.

Lemma status_after_update i f rows :
  forall m, In m (update (by_id i) f rows) -> id m = i ->
            (forall x, id (f x) = id x) ->
            exists x, In x rows /\ m = f x.
Proof.
  intros m Hin Hid Hf. unfold update in Hin. apply in_map_iff in Hin.
  destruct Hin as (x & E & Hx). exists x. split; [exact Hx|].
  unfold by_id in E. destruct (id x =? i) eqn:Ex; [congruence|].
  subst m. apply Z.eqb_neq in Ex. contradiction.
Qed.

(** X25.  What one attempt of [processScheduledMessage] does, by its
    outcome.  When it returns [Success], the transport accepted one message
    with the job's content, the outbox has grown by exactly that message,
    and every row of the id is [sent] with [sent_at] set.  When
    it returns a skip, nothing was sent, and a row of the id is
    [cancelled].  When it throws, nothing was sent and every row of the id
    is [failed].  The table of sessions is never changed. *)
Theorem attempt_sends_only_on_success :
  forall (now : Clock) (transport : Transport) (job : JobData) (st : State),
    let st' := snd (processScheduledMessage now transport job st) in
    sessions st' = sessions st
    /\ match fst (processScheduledMessage now transport job st) with
       | Return (Success i type t) =>
         i = scheduledMessageId job /\ type = messageType job /\ t = nowMs now
         /\ (exists msg, outbox st' = (outbox st ++ [msg])%list
                         /\ transport msg = true
                         /\ body msg = Content (messageContent job))
         /\ (exists m, In m (scheduled_messages st') /\ id m = i)
         /\ forall m, In m (scheduled_messages st') -> id m = i ->
                      msg_status m = sent /\ sent_at m = Some (nowMs now)
       | Return (Skipped reason) =>
         outbox st' = outbox st
         /\ exists m, In m (scheduled_messages st')
                      /\ id m = scheduledMessageId job /\ msg_status m = cancelled
       | Throw e =>
         outbox st' = outbox st
         /\ forall m, In m (scheduled_messages st') -> id m = scheduledMessageId job ->
                      msg_status m = failed /\ error_message m = Some e
       end.
Proof.
  intros now transport job st. cbn zeta.
  split; [apply SystemProps.sessions_processScheduledMessage|].
  unfold processScheduledMessage, processAttempt.
  destruct (select (by_id (scheduledMessageId job)) (scheduled_messages st))
    as [|row rest] eqn:Es; cbn [fst snd outbox with_messages scheduled_messages].
  - split; [reflexivity|]. intros m Hm Hid.
    destruct (status_after_update _ _ _ m Hm Hid (fun _ => eq_refl)) as (x & _ & ->).
    split; reflexivity.
  - destruct (SystemProps.select_head_in _ _ _ _ Es) as [Hrow Hid0].
    unfold by_id in Hid0. apply Z.eqb_eq in Hid0.
    assert (forall f, (forall x, id (f x) = id x) ->
              In (f row) (update (by_id (scheduledMessageId job)) f
                            (scheduled_messages st))) as Hupd.
    { intros f Hf. unfold update. apply in_map_iff. exists row.
      split; [|exact Hrow]. unfold by_id. rewrite Hid0, Z.eqb_refl. reflexivity. }
    destruct (MessageStatus_eqb (msg_status row) cancelled) eqn:Ec;
      cbn [fst snd outbox with_messages scheduled_messages].
    { split; [reflexivity|]. exists row. repeat split; try assumption.
      destruct (msg_status row); try discriminate Ec. reflexivity. }
    match goal with |- context [if ?c then _ else _] => destruct c end;
      cbn [fst snd outbox with_messages scheduled_messages].
    { split; [reflexivity|]. eexists. split; [apply Hupd; reflexivity|].
      split; [exact Hid0|reflexivity]. }
    match goal with |- context [if ?c then _ else _] => destruct c end;
      cbn [fst snd outbox with_messages scheduled_messages].
    { split; [reflexivity|]. eexists. split; [apply Hupd; reflexivity|].
      split; [exact Hid0|reflexivity]. }
    unfold sendWhatsAppMessage.
    match goal with
    | |- context [if transport ?msg then _ else _] =>
        destruct (transport msg) eqn:Et
    end; cbn [fst snd outbox with_messages with_outbox scheduled_messages].
    + split; [reflexivity|]. split; [reflexivity|]. split; [reflexivity|].
      split; [eexists; split; [reflexivity|]; split; [exact Et|reflexivity]|].
      split; [eexists; split; [apply Hupd; reflexivity|exact Hid0]|].
      intros m Hm Hid.
      destruct (status_after_update _ _ _ m Hm Hid (fun _ => eq_refl)) as (x & _ & ->).
      split; reflexivity.
    + split; [reflexivity|]. intros m Hm Hid.
      destruct (status_after_update _ _ _ m Hm Hid (fun _ => eq_refl)) as (x & _ & ->).
      split; reflexivity.
Qed.

End AttemptProps.

(** ** From enqueueing to delivery *)
Module DeliveryProps.
Import Store MessageScheduler System Notions.

Lemma scheduleMessage_state now p st :
  idsBelow st ->
  existsb (by_session_id (p_sessionId p)) (sessions st) = true ->
  existsb (fun j => String.eqb (jobId j) (jobIdOf now p)) (queue st) = false ->
  MessageTemplates.validateVariables (p_messageType p) (p_variables p) = Return tt ->
  MessageTemplates.getMessage (p_messageType p) (p_messageContent p)
  = Return (p_messageContent p) ->
  scheduleMessage now p st = (Return (rowOf now p st), scheduled now p st).
Proof.
  intros Hb Hs Hq Hv Hg.
  assert (Hupd : forall f (r : ScheduledMessage),
             id r = next_id st ->
             update (by_id (next_id st)) f (scheduled_messages st ++ [r])
             = (scheduled_messages st ++ [f r])%list).
  { intros f r Hr. rewrite SchedulerProps.update_app. f_equal.
    - apply SchedulerProps.update_none. intros r' Hr'. unfold by_id.
      apply Z.eqb_neq. specialize (Hb r' Hr'). lia.
    - cbn. unfold by_id. rewrite Hr, Z.eqb_refl. reflexivity. }
  unfold scheduleMessage. rewrite Hv, Hg.
  cbn [with_next_id sessions]. rewrite Hs. cbn [negb].
  fold (chatOf p st). fold (jobIdOf now p).
  cbn [with_messages with_queue with_next_id scheduled_messages sessions
       next_id queue id jobId pendingUsersMap outbox].
  unfold with_messages, with_queue, with_next_id.
  cbn [scheduled_messages sessions next_id queue id pendingUsersMap outbox].
  rewrite Hq, Hupd by reflexivity. reflexivity.
Qed.

Lemma select_last {A} (p : A -> bool) rows x :
  (forall r, In r rows -> p r = false) -> p x = true ->
  select p (rows ++ [x]) = [x].
Proof.
  intros Hn Hx. unfold select. rewrite filter_app. cbn. rewrite Hx.
  fold (select p rows). rewrite (CancelMore.select_none p rows Hn). reflexivity.
Qed.

Lemma update_last {A} (p : A -> bool) (f : A -> A) rows x :
  (forall r, In r rows -> p r = false) -> p x = true ->
  update p f (rows ++ [x]) = (rows ++ [f x])%list.
Proof.
  intros Hn Hx. rewrite SchedulerProps.update_app, SchedulerProps.update_none by exact Hn.
  cbn. rewrite Hx. reflexivity.
Qed.

Lemma existsb_false {A} (p : A -> bool) rows :
  existsb p rows = false -> forall r, In r rows -> p r = false.
Proof.
  intros H r Hr. destruct (p r) eqn:E; [|reflexivity].
  assert (existsb p rows = true) as Ht by (apply existsb_exists; exists r; auto).
  congruence.
Qed.

(** X26.  A message that is enqueued is delivered.  When the templates
    accept the type and its variables, the session exists, the job id is
    new to the queue, the type is none of the reminder types that the
    worker rechecks, and the transport accepts the send, then
    [scheduleMessage] returns a pending row and adds its job, and the
    worker, running that job, returns [Success] for the row: the outbox
    grows by exactly one message with the row's content, and the row
    becomes [sent].  The worker itself does not look for [sent]: handed the
    data of the same job once more (a run that Bull repeats after a stall),
    it sends the message a second time. *)
Theorem enqueued_message_is_delivered :
  forall (now later again : Clock) (transport : Transport) (p : ScheduleParams)
         (st : State),
    idsBelow st ->
    existsb (by_session_id (p_sessionId p)) (sessions st) = true ->
    existsb (fun j => String.eqb (jobId j) (jobIdOf now p)) (queue st) = false ->
    MessageTemplates.validateVariables (p_messageType p) (p_variables p)
    = Return tt ->
    MessageTemplates.getMessage (p_messageType p) (p_messageContent p)
    = Return (p_messageContent p) ->
    prefix "appointment_reminder" (p_messageType p) = false ->
    p_messageType p <> "form_reminder_19pm"%string ->
    p_messageType p <> "video_testimonial"%string ->
    (forall msg, transport msg = true) ->
    exists m st1 st2 msg,
      scheduleMessage now p st = (Return m, st1)
      /\ job_id m = Some (jobIdOf now p)
      /\ msg_status m = pending
      /\ (exists job, select (fun j => String.eqb (jobId j) (jobIdOf now p))
                        (queue st1) = [job]
                      /\ scheduledMessageId (data job) = id m)
      /\ Worker.run later transport (jobIdOf now p) st1
         = (Some (Return (Success (id m) (p_messageType p) (nowMs later))), st2)
      /\ outbox st2 = (outbox st ++ [msg])%list
      /\ body msg = Content (p_messageContent p)
      /\ (forall m', In m' (scheduled_messages st2) -> id m' = id m ->
            msg_status m' = sent /\ sent_at m' = Some (nowMs later))
      /\ exists st3,
           processScheduledMessage again transport (data (jobOf now p st)) st2
           = (Return (Success (id m) (p_messageType p) (nowMs again)), st3)
           /\ outbox st3 = (outbox st ++ [msg; msg])%list.
Proof.
  intros now later again transport p st Hb Hs Hq Hv Hg Hpre H19 Hvid Hsend.
  pose proof (existsb_false _ _ Hq) as Hfresh. cbn beta in Hfresh.
  assert (forall r, In r (scheduled_messages st) -> by_id (next_id st) r = false)
    as Hnew.
  { intros r Hr. unfold by_id. apply Z.eqb_neq. specialize (Hb r Hr). lia. }
  assert (String.eqb (p_messageType p) "form_reminder_19pm"
          || String.eqb (p_messageType p) "video_testimonial" = false) as Htype.
  { apply String.eqb_neq in H19, Hvid. rewrite H19, Hvid. reflexivity. }
  set (msg := {| to := if truthy (orElse (chatOf p st) (chatOf p st))
                       then orElse (chatOf p st) (chatOf p st)
                       else phoneToWhatsAppId (p_phoneNumber p);
                 body := Content (p_messageContent p);
                 media := if truthy (p_mediaUrl p) then p_mediaUrl p else None |}).
  set (st2 :=
         {| sessions := sessions st;
            scheduled_messages :=
              (scheduled_messages st ++ [set_msg_sent (nowMs later) (rowOf now p st)])%list;
            next_id := next_id st + 1;
            queue := (queue st ++ [Worker.settle true (jobOf now p st)])%list;
            pendingUsersMap := pendingUsersMap st;
            outbox := (outbox st ++ [msg])%list |}).
  exists (rowOf now p st), (scheduled now p st), st2, msg.
  split; [apply scheduleMessage_state; assumption|].
  split; [reflexivity|]. split; [reflexivity|].
  assert (select (fun j => String.eqb (jobId j) (jobIdOf now p))
            (queue (scheduled now p st)) = [jobOf now p st]) as Hjob.
  { cbn [queue scheduled]. apply select_last; [exact Hfresh|].
    cbn. apply String.eqb_refl. }
  split; [exists (jobOf now p st); split; [exact Hjob|reflexivity]|].
  assert (Worker.run later transport (jobIdOf now p) (scheduled now p st)
          = (Some (Return (Success (next_id st) (p_messageType p) (nowMs later))), st2))
    as Hrun.
  { unfold Worker.run. cbn [queue scheduled].
    rewrite select_last;
      [|intros r Hr; rewrite (Hfresh r Hr); reflexivity
       |cbn; rewrite String.eqb_refl; reflexivity].
    unfold processScheduledMessage, processAttempt.
    cbn [scheduled_messages scheduled data jobOf scheduledMessageId].
    rewrite select_last; [|exact Hnew|unfold by_id; cbn; apply Z.eqb_refl].
    cbn [msg_status rowOf MessageStatus_eqb messageType].
    rewrite Hpre, Htype. cbn [andb].
    unfold sendWhatsAppMessage.
    cbn [chatId msg_chat_id rowOf phoneNumber messageContent mediaUrl].
    fold msg. rewrite Hsend.
    unfold with_outbox, with_messages, with_queue.
    cbn [scheduled_messages queue sessions next_id pendingUsersMap outbox scheduled].
    rewrite update_last; [|exact Hnew|unfold by_id; cbn; apply Z.eqb_refl].
    rewrite update_last; [|exact Hfresh|cbn; apply String.eqb_refl].
    reflexivity. }
  split; [exact Hrun|]. split; [reflexivity|]. split; [reflexivity|]. split.
  - intros m' Hm' Hid. cbn [scheduled_messages st2] in Hm'.
    apply in_app_or in Hm'. destruct Hm' as [Hm'|[<-|[]]]; [|split; reflexivity].
    exfalso. specialize (Hb m' Hm'). cbn in Hid. lia.
  - unfold processScheduledMessage, processAttempt.
    cbn [scheduled_messages st2 data jobOf scheduledMessageId].
    rewrite select_last; [|exact Hnew|unfold by_id; cbn; apply Z.eqb_refl].
    cbn [msg_status set_msg_sent rowOf MessageStatus_eqb messageType].
    rewrite Hpre, Htype. cbn [andb].
    unfold sendWhatsAppMessage.
    cbn [chatId msg_chat_id set_msg_sent rowOf phoneNumber messageContent mediaUrl].
    fold msg. rewrite Hsend.
    eexists. split; [reflexivity|].
    cbn [outbox with_outbox with_messages st2]. rewrite <- app_assoc. reflexivity.
Qed.

(** The form link of the scenario: enqueued on Thursday at 17:30, sent by
    the worker a minute later, and sent again when the worker is handed the
    job on Sunday. *)
Lemma enqueued_message_is_delivered_witness :
  idsBelow Scenario.st_active
  /\ MessageTemplates.validateVariables "chatbot_link" ["chatbotUrl"%string]
     = Return tt
  /\ MessageTemplates.getMessage "chatbot_link" "link" = Return "link"%string
  /\ (exists m st1 st2 st3,
        scheduleMessage Scenario.trigger
          (mkParams Scenario.sid Scenario.phone None "chatbot_link" "link"
             (TimezoneHelper.at_ Scenario.THU_2025_05_08 17 30) None
             ["chatbotUrl"%string])
          Scenario.st_active = (Return m, st1)
        /\ Worker.run Scenario.a_minute_later Scenario.transport_ok
             Scenario.link_job_id st1
           = (Some (Return (Success (id m) "chatbot_link"
                              (nowMs Scenario.a_minute_later))), st2)
        /\ processScheduledMessage Scenario.sunday_nine Scenario.transport_ok
             Scenario.link_job st2
           = (Return (Success (id m) "chatbot_link" (nowMs Scenario.sunday_nine)),
              st3)
        /\ List.length (outbox st3) = 2%nat).
Proof.
  split; [exact SchedulerProps.st_active_idsBelow|].
  split; [reflexivity|]. split; [reflexivity|].
  destruct (enqueued_message_is_delivered Scenario.trigger
              Scenario.a_minute_later Scenario.sunday_nine Scenario.transport_ok
              (mkParams Scenario.sid Scenario.phone None "chatbot_link" "link"
                 (TimezoneHelper.at_ Scenario.THU_2025_05_08 17 30) None
                 ["chatbotUrl"%string])
              Scenario.st_active SchedulerProps.st_active_idsBelow
              eq_refl eq_refl eq_refl eq_refl eq_refl)
    as (m & st1 & st2 & msg & E & _ & _ & _ & Hrun & _ & _ & _ & st3 & Hagain & Hout).
  - discriminate.
  - discriminate.
  - intros msg. reflexivity.
  - exists m, st1, st2, st3. split; [exact E|]. split; [exact Hrun|].
    split; [exact Hagain|]. rewrite Hout. reflexivity.
Defined.

End DeliveryProps.

(** ** The form submission handler *)
Module FormProps.
Import Store MessageScheduler SessionManager System FormSubmission Notions.
















End FormProps.
